(** * Agricultural census survey: section repositories, progress tracker
      and validation rules

    A shallow embedding of the persistence and validation code of the census
    application:

    - [census_app/agricultural_machinery.py]  (module [AgriculturalMachinery])
    - [census_app/modules/land_use.py]        (module [LandUse])
    - [census_app/main_survey.py]             (module [MainSurvey])
    - [census_app/holding_labour.py]          (module [HoldingLabour])
    - [census_app/holding_labour_permanent.py] (module [HoldingLabourPermanent])
    - the forms around them: [LandUseForm], [MachineryForm], [LabourQuestions]

    Python integers are [Z], holder ids included; a finite float is a
    rational [Q], the one its shortest decimal form denotes, and a number of
    the parcel editor is such a float or NaN ([PyNum.number]); strings are
    [string].  The relational store is a record of tables, each a list of rows
    in insertion order with a serial counter.  Code that talks to the database
    or to the page runs in a small state-and-exception monad [M] whose world
    holds the committed store, the open connection's working copy, the
    messages written to the page and the database calls made so far.

    A statement raises by itself where the store can tell: a UNIQUE
    constraint, a value that does not fit the column types declared in
    [setup_land_use_tables].  Every other failure of a database call (a lost
    connection, a missing table, the reference to the table [holders], which
    is not part of the store) is a fault of the plan the operation runs
    under; the results on failures hold for every plan. *)

From Stdlib Require Import ZArith List String Ascii Bool Lia QArith Qround.
From Stdlib Require Import DecimalString Permutation Sorted.
Import ListNotations.

Local Open Scope string_scope.
Local Open Scope list_scope.
Local Open Scope Z_scope.

(** ** Python string operations used by the validators *)

Module PyStr.

(** [str.isspace] on one character, for code points below 256: the ASCII
    white space 9..13 and 28..32, NEL (133) and NBSP (160). *)
Definition isspace (c : ascii) : bool :=
  let n := N_of_ascii c in
  ((9 <=? n) && (n <=? 13) || (28 <=? n) && (n <=? 32)
   || (n =? 133) || (n =? 160))%N.

Fixpoint lstrip (s : string) : string :=
  match s with
  | EmptyString => EmptyString
  | String c t => if isspace c then lstrip t else s
  end.

Fixpoint rstrip (s : string) : string :=
  match s with
  | EmptyString => EmptyString
  | String c t =>
      match rstrip t with
      | EmptyString => if isspace c then EmptyString else String c EmptyString
      | t' => String c t'
      end
  end.

(** [s.strip()] *)
Definition strip (s : string) : string := rstrip (lstrip s).

(** [needle in hay] *)
Fixpoint contains (needle hay : string) : bool :=
  String.prefix needle hay
  || match hay with
     | EmptyString => false
     | String _ t => contains needle t
     end.

(** Truth value of a string: [bool(s)]. *)
Definition truthy (s : string) : bool :=
  match s with EmptyString => false | _ => true end.

(** [len(s)] *)
Definition len (s : string) : Z := Z.of_nat (String.length s).

End PyStr.

(** ** Messages written to the page

    The text of every [st.warning], [st.info], [st.error] and [st.success]
    call of the modelled functions, one constructor per call site; the
    interpolated values are the constructor's arguments. *)

(** Exceptions: [psycopg2.Error] and everything else under [Exception]. *)
Inductive exn : Type :=
| Psycopg2Error (info : string)
| OtherError (info : string).

(** ** Numbers of the parcel frame *)

Module PyNum.

(** A number in a cell of the parcel frame, or in a parcel dict made from
    it: a float, or NaN where the cell of the editor was left empty (a
    missing number is NaN in a frame).  Infinities do not occur. *)
Inductive number : Type :=
| Fin (q : Q)
| NaN.

(** [x < y] ([y > x]): False as soon as one side is NaN. *)
Definition ltb (x y : number) : bool :=
  match x, y with
  | Fin a, Fin b => negb (Qle_bool b a)
  | _, _ => false
  end.

Definition lt (x y : number) : Prop :=
  match x, y with
  | Fin a, Fin b => (a < b)%Q
  | _, _ => False
  end.

(** [int(x)]: the integer part, towards zero; NaN raises ValueError. *)
Definition int (x : number) : exn + Z :=
  match x with
  | Fin q => inr (Z.quot (Qnum q) (Zpos (Qden q)))
  | NaN => inl (OtherError "ValueError: cannot convert float NaN to integer")
  end.

End PyNum.

Inductive message : Type :=
(* agricultural_machinery.py *)
| MsgUnableToConnect                       (* "Unable to connect to database. ..." *)
| MsgNoDataToSave                          (* "No data to save." *)
| MsgUpdatingExisting                      (* "Updating existing machinery records..." *)
| MsgDatabaseError (e : exn)               (* "Database error: {e}" *)
| MsgErrorSavingData (e : exn)             (* "Error saving data: {e}" *)
| MsgOpenEntryUnspecified (n : Z)          (* "Please specify the equipment type for Open Entry #{i - 5}" *)
| MsgNameTooLong (equipment_name : string) (* "Equipment name too long (max 100 characters): ..." *)
| MsgEnterQuantities (equipment_name : string)
                                           (* "For '...', please enter quantities if you have this equipment" *)
| MsgQuantityRange (equipment_name qty_type : string)
                                           (* "For '...', {qty_type} must be between 0 and 20" *)
| MsgMachinerySaved                        (* "Agricultural machinery data saved successfully!" *)
(* land_use.py *)
| MsgConnectionError (e : exn)             (* "Database connection error: {e}" *)
| MsgCannotConnect                         (* "Cannot connect to database" *)
| MsgLandUseSaved                          (* "Land use data saved successfully!" *)
| MsgErrorSavingLandUse (e : exn)          (* "Error saving land use data: {e}" *)
| MsgIrrigatedExceedsTotal (parcel_no : PyNum.number).
                                           (* "Parcel {n}: Irrigated Area exceeds Total Acres." *)

Inductive ui_event : Type :=
| StWarning (m : message)
| StInfo (m : message)
| StError (m : message)
| StSuccess (m : message).

(** ** Validation of machinery rows (agricultural_machinery.py) *)

Module MachineryRows.

(** One dict of [machinery_data], as [agricultural_machinery_section]
    builds it. *)
Record entry : Type := mkEntry {
  holder_id : Z;
  has_item : string;
  equipment_name : string;
  quantity_new : Z;
  quantity_used : Z;
  quantity_out_of_service : Z;
  source : string
}.

(** The three quantity keys of the inner [for qty_type in [...]] loop. *)
Inductive qty_type : Type := Quantity_new | Quantity_used | Quantity_out_of_service.

Definition qty_types : list qty_type :=
  [Quantity_new; Quantity_used; Quantity_out_of_service].

(** [row[qty_type]] *)
Definition get (row : entry) (q : qty_type) : Z :=
  match q with
  | Quantity_new => quantity_new row
  | Quantity_used => quantity_used row
  | Quantity_out_of_service => quantity_out_of_service row
  end.

(** [qty_type.replace('_', ' ')] *)
Definition qty_label (q : qty_type) : string :=
  match q with
  | Quantity_new => "quantity new"
  | Quantity_used => "quantity used"
  | Quantity_out_of_service => "quantity out of service"
  end.

(** State of the validation loop: the flag [validation_passed] and the
    errors shown so far. *)
Definition vstate : Type := (bool * list ui_event)%type.

(** [st.error(m); validation_passed = False] *)
Definition fail (m : message) (st : vstate) : vstate :=
  (false, snd st ++ [StError m]).

Definition check_open_entry (i : Z) (row : entry) (st : vstate) : vstate :=
  if PyStr.contains "Open Entry" (equipment_name row)
     && negb (PyStr.truthy (PyStr.strip (equipment_name row)))
  then fail (MsgOpenEntryUnspecified (i - 5)) st else st.

Definition check_name_length (row : entry) (st : vstate) : vstate :=
  if PyStr.len (equipment_name row) >? 100
  then fail (MsgNameTooLong (equipment_name row)) st else st.

Definition check_has_item (row : entry) (st : vstate) : vstate :=
  if String.eqb (has_item row) "Y" then
    let total_qty :=
      quantity_new row + quantity_used row + quantity_out_of_service row in
    if total_qty =? 0
    then fail (MsgEnterQuantities (equipment_name row)) st else st
  else st.

Definition check_quantity (row : entry) (st : vstate) (q : qty_type) : vstate :=
  let qty_value := get row q in
  if (qty_value <? 0) || (qty_value >? 20)
  then fail (MsgQuantityRange (equipment_name row) (qty_label q)) st else st.

(** Body of the [for i, row in enumerate(machinery_data)] loop. *)
Definition validate_row (i : Z) (row : entry) (st : vstate) : vstate :=
  let st := check_open_entry i row st in
  let st := check_name_length row st in
  let st := check_has_item row st in
  fold_left (check_quantity row) qty_types st.

Fixpoint validate_loop (i : Z) (rows : list entry) (st : vstate) : vstate :=
  match rows with
  | [] => st
  | row :: rest => validate_loop (i + 1) rest (validate_row i row st)
  end.

(** [validate_machinery_data]: the returned flag together with the errors
    it displays. *)
Definition validate_machinery_data (machinery_data : list entry) : vstate :=
  validate_loop 0 machinery_data (true, []).

(** The same loop with the "Open Entry" check taken out, for comparison. *)
Definition validate_row_without_open_entry (row : entry) (st : vstate) : vstate :=
  let st := check_name_length row st in
  let st := check_has_item row st in
  fold_left (check_quantity row) qty_types st.

Definition validate_without_open_entry (machinery_data : list entry) : vstate :=
  fold_left (fun st row => validate_row_without_open_entry row st)
            machinery_data (true, []).

(** A quantity lies in the closed range the validator accepts. *)
Definition in_range (v : Z) : Prop := 0 <= v <= 20.

End MachineryRows.

(** ** Validation of parcels (modules/land_use.py) *)

Module ParcelRows.

Local Open Scope Q_scope.

(** One row of the parcel data frame, as the data editor returns it.  The
    editor is dynamic: a row added there has empty cells wherever the user
    entered nothing, NaN in a number column and None in a text column. *)
Record frame_row : Type := mkFrameRow {
  Parcel_No : PyNum.number;
  Total_Acres : PyNum.number;
  Developed_Acres : PyNum.number;
  Tenure_of_Land : option string;
  Use_of_Land : option string;
  Irrigated_Area : PyNum.number;
  Land_Clearing_Methods : option string
}.

(** The strings appended to [errors], with the parcel number interpolated. *)
Inductive parcel_error : Type :=
| TotalAcresNegative (parcel_no : PyNum.number)
                                   (* "Parcel {n}: Total Acres must be positive." *)
| DevelopedAcresNegative (parcel_no : PyNum.number)
                                   (* "Parcel {n}: Developed Acres must be positive." *)
| IrrigatedAreaNegative (parcel_no : PyNum.number)
                                   (* "Parcel {n}: Irrigated Area must be positive." *)
| DevelopedExceedsTotal (parcel_no : PyNum.number).
                                   (* "Parcel {n}: Developed Acres cannot exceed Total Acres." *)

Definition Qlt_bool (x y : Q) : bool := negb (Qle_bool y x).

(** State of the loop: the list [errors] and the warnings shown. *)
Definition pstate : Type := (list parcel_error * list ui_event)%type.

Definition append (e : parcel_error) (st : pstate) : pstate :=
  (fst st ++ [e], snd st).

Definition warn (m : message) (st : pstate) : pstate :=
  (fst st, snd st ++ [StWarning m]).

(** Body of [for idx, row in parcels_df.iterrows()]. *)
Definition validate_parcel (row : frame_row) (st : pstate) : pstate :=
  let parcel_no := Parcel_No row in
  let total_acres := Total_Acres row in
  let developed_acres := Developed_Acres row in
  let irrigated_area := Irrigated_Area row in
  let st := if PyNum.ltb total_acres (PyNum.Fin 0)
            then append (TotalAcresNegative parcel_no) st else st in
  let st := if PyNum.ltb developed_acres (PyNum.Fin 0)
            then append (DevelopedAcresNegative parcel_no) st else st in
  let st := if PyNum.ltb irrigated_area (PyNum.Fin 0)
            then append (IrrigatedAreaNegative parcel_no) st else st in
  let st := if PyNum.ltb total_acres developed_acres
            then append (DevelopedExceedsTotal parcel_no) st else st in
  if PyNum.ltb total_acres irrigated_area
  then warn (MsgIrrigatedExceedsTotal parcel_no) st else st.

(** [validate_parcels]: the returned list [errors] and the warnings it
    displays on the way. *)
Definition validate_parcels (parcels_df : list frame_row) : pstate :=
  fold_left (fun st row => validate_parcel row st) parcels_df ([], []).

(** What the save handler of [land_use_section] looks at: the form is
    saved only when the collected error list is empty. *)
Definition accepted (parcels_df : list frame_row) : bool :=
  match fst (validate_parcels parcels_df) with [] => true | _ => false end.

End ParcelRows.

(** ** The relational store *)

Module Db.

(** Table [agricultural_machinery]. *)
Record machinery_row : Type := mkMachineryRow {
  m_id : Z;
  m_holder_id : Z;
  m_has_item : string;
  m_equipment_name : string;
  m_quantity_new : Z;
  m_quantity_used : Z;
  m_quantity_out_of_service : Z;
  m_source : string
}.

(** Table [holder_survey_progress].  The statements of the repository name
    the columns [id], [holder_id], [section_id], [section_no] and
    [completed]; a column an INSERT leaves out takes the column default. *)
Record progress_row : Type := mkProgressRow {
  p_id : Z;
  p_holder_id : Z;
  p_section_id : option Z;
  p_section_no : option Z;
  p_completed : bool
}.

(** Table [land_use] ([setup_land_use_tables]); the time stamps are left
    out. *)
Record land_use_row : Type := mkLandUseRow {
  lu_id : Z;
  lu_holder_id : Z;
  lu_total_area_acres : Q;
  lu_years_agriculture : Q;
  lu_main_purpose : string;
  lu_num_parcels : Z;
  lu_location : string;
  lu_crop_methods : list string
}.

(** Table [land_use_parcels]; a DECIMAL column can hold NaN. *)
Record parcel_row : Type := mkParcelRow {
  lp_id : Z;
  lp_land_use_id : Z;
  lp_parcel_no : Z;
  lp_total_acres : PyNum.number;
  lp_developed_acres : PyNum.number;
  lp_tenure : string;
  lp_use_of_land : string;
  lp_irrigated_area : PyNum.number;
  lp_land_clearing : string
}.

(** Table [holding_labour]. *)
Record labour_row : Type := mkLabourRow {
  hl_id : Z;
  hl_holder_id : Z;
  hl_question_no : Z;
  hl_question_text : string;
  hl_male_count : option Z;
  hl_female_count : option Z;
  hl_total_count : option Z;
  hl_option_response : option string
}.

(** The store: every table in insertion order with the next value of its
    serial [id], and the column defaults of the progress table, whose
    declaration is not part of the repository. *)
Record database : Type := mkDatabase {
  agricultural_machinery : list machinery_row;
  agricultural_machinery_seq : Z;
  holder_survey_progress : list progress_row;
  holder_survey_progress_seq : Z;
  section_id_default : option Z;
  section_no_default : option Z;
  land_use : list land_use_row;
  land_use_seq : Z;
  land_use_parcels : list parcel_row;
  land_use_parcels_seq : Z;
  holding_labour : list labour_row;
  holding_labour_seq : Z
}.

Definition empty : database :=
  mkDatabase [] 1 [] 1 None None [] 1 [] 1 [] 1.

Definition with_machinery (db : database) (t : list machinery_row) (seq : Z) : database :=
  mkDatabase t seq
    (holder_survey_progress db) (holder_survey_progress_seq db)
    (section_id_default db) (section_no_default db)
    (land_use db) (land_use_seq db)
    (land_use_parcels db) (land_use_parcels_seq db)
    (holding_labour db) (holding_labour_seq db).

Definition with_progress (db : database) (t : list progress_row) (seq : Z) : database :=
  mkDatabase (agricultural_machinery db) (agricultural_machinery_seq db)
    t seq
    (section_id_default db) (section_no_default db)
    (land_use db) (land_use_seq db)
    (land_use_parcels db) (land_use_parcels_seq db)
    (holding_labour db) (holding_labour_seq db).

Definition with_land_use (db : database) (t : list land_use_row) (seq : Z) : database :=
  mkDatabase (agricultural_machinery db) (agricultural_machinery_seq db)
    (holder_survey_progress db) (holder_survey_progress_seq db)
    (section_id_default db) (section_no_default db)
    t seq
    (land_use_parcels db) (land_use_parcels_seq db)
    (holding_labour db) (holding_labour_seq db).

Definition with_parcels (db : database) (t : list parcel_row) (seq : Z) : database :=
  mkDatabase (agricultural_machinery db) (agricultural_machinery_seq db)
    (holder_survey_progress db) (holder_survey_progress_seq db)
    (section_id_default db) (section_no_default db)
    (land_use db) (land_use_seq db)
    t seq
    (holding_labour db) (holding_labour_seq db).

Definition with_labour (db : database) (t : list labour_row) (seq : Z) : database :=
  mkDatabase (agricultural_machinery db) (agricultural_machinery_seq db)
    (holder_survey_progress db) (holder_survey_progress_seq db)
    (section_id_default db) (section_no_default db)
    (land_use db) (land_use_seq db)
    (land_use_parcels db) (land_use_parcels_seq db)
    t seq.

(** [ORDER BY key]: a stable insertion sort. *)
Fixpoint insert_by {A : Type} (key : A -> Z) (x : A) (l : list A) : list A :=
  match l with
  | [] => [x]
  | y :: t => if key x <? key y then x :: l else y :: insert_by key x t
  end.

Definition order_by {A : Type} (key : A -> Z) (l : list A) : list A :=
  fold_left (fun acc x => insert_by key x acc) l [].

(** [SELECT ... = NULL] never matches: comparison of a nullable column with
    a value. *)
Definition col_eqb (c : option Z) (v : Z) : bool :=
  match c with Some x => x =? v | None => false end.

(** *** Column types of [setup_land_use_tables]

    What a column of the declared type does to a value an INSERT or UPDATE
    assigns to it: the value stored, or the error of the statement. *)

(** INTEGER: 32 bits. *)
Definition integer (n : Z) : exn + Z :=
  if (n <? -2147483648) || (2147483647 <? n)
  then inl (Psycopg2Error "NumericValueOutOfRange: integer out of range")
  else inr n.

(** Rounding to the nearest integer, ties away from zero. *)
Definition round_half_away (q : Q) : Z :=
  if Qle_bool 0 q then Qfloor (q + (1 # 2)) else - Qfloor (- q + (1 # 2)).

(** DECIMAL(precision, scale): the value is rounded to [scale] decimals and
    refused when the result needs more than [precision] digits. *)
Definition decimal (precision scale : Z) (q : Q) : exn + Q :=
  let unit := 10 ^ scale in
  let n := round_half_away (q * inject_Z unit) in
  if Z.abs n <? 10 ^ precision then inr (n # Z.to_pos unit)%Q
  else inl (Psycopg2Error "NumericValueOutOfRange: numeric field overflow").

(** The same for a number that may be NaN, which the column stores as it
    is. *)
Definition decimal_number (precision scale : Z) (x : PyNum.number)
  : exn + PyNum.number :=
  match x with
  | PyNum.NaN => inr PyNum.NaN
  | PyNum.Fin q =>
      match decimal precision scale q with
      | inl e => inl e
      | inr q' => inr (PyNum.Fin q')
      end
  end.

Fixpoint all_blank (s : string) : bool :=
  match s with
  | EmptyString => true
  | String c t => Ascii.eqb c " " && all_blank t
  end.

(** VARCHAR(n): a longer string is refused, unless what exceeds [n]
    characters is all spaces, which are then cut off. *)
Definition varchar (n : Z) (s : string) : exn + string :=
  if PyStr.len s <=? n then inr s
  else if all_blank (substring (Z.to_nat n) (String.length s - Z.to_nat n) s)
       then inr (substring 0 (Z.to_nat n) s)
       else inl (Psycopg2Error "StringDataRightTruncation: value too long").

End Db.

(** ** The monad of page code: state, exceptions and injected faults *)

(** The [k]-th database call of an operation raises [e] when the fault plan
    maps [k] to [Some e]. *)
Definition faults : Type := nat -> option exn.

Definition no_faults : faults := fun _ => None.

Record world : Type := mkWorld {
  store : Db.database;            (* committed state *)
  session : option Db.database;    (* working copy of the open connection *)
  ui : list ui_event;             (* messages written to the page *)
  issued : list string;           (* database calls made, oldest first *)
  clock : nat                     (* number of database calls made *)
}.

Inductive outcome (A : Type) : Type :=
| Val (a : A)
| Exc (e : exn).
Arguments Val {A} a.
Arguments Exc {A} e.

Definition M (A : Type) : Type := faults -> world -> outcome A * world.

Definition ret {A : Type} (a : A) : M A := fun _ w => (Val a, w).

Definition bind {A B : Type} (m : M A) (k : A -> M B) : M B :=
  fun f w =>
    match m f w with
    | (Val a, w') => k a f w'
    | (Exc e, w') => (Exc e, w')
    end.

Definition raise {A : Type} (e : exn) : M A := fun _ w => (Exc e, w).

Declare Scope page_scope.
Delimit Scope page_scope with page.
Notation "x <- m ;; k" := (bind m (fun x => k))
  (at level 100, m at next level, right associativity) : page_scope.
Notation "m ;; k" := (bind m (fun _ => k))
  (at level 100, right associativity) : page_scope.
Local Open Scope page_scope.

(** [try: m  except Exception as e: h e] *)
Definition try_except {A : Type} (m : M A) (h : exn -> M A) : M A :=
  fun f w =>
    match m f w with
    | (Val a, w') => (Val a, w')
    | (Exc e, w') => h e f w'
    end.

(** [try: m  finally: c] *)
Definition try_finally {A : Type} (m : M A) (c : M unit) : M A :=
  fun f w =>
    match m f w with
    | (r, w') =>
        match c f w' with
        | (Val _, w'') => (r, w'')
        | (Exc e, w'') => (Exc e, w'')
        end
    end.

(** A Streamlit call that writes to the page. *)
Definition st (ev : ui_event) : M unit :=
  fun _ w => (Val tt, mkWorld (store w) (session w) (ui w ++ [ev]) (issued w) (clock w)).

(** One call into the database driver: it is recorded, it raises when the
    fault plan says so, and otherwise [step] gives its effect on the world. *)
Definition db_call {A : Type} (name : string)
    (step : world -> outcome A * (Db.database * option Db.database)) : M A :=
  fun f w =>
    let issued' := issued w ++ [name] in
    let clock' := S (clock w) in
    match f (clock w) with
    | Some e => (Exc e, mkWorld (store w) (session w) (ui w) issued' clock')
    | None =>
        match step w with
        | (r, (s, t)) => (r, mkWorld s t (ui w) issued' clock')
        end
    end.

(** Opening a connection: the session starts from the committed state. *)
Definition connect : M unit :=
  db_call "CONNECT" (fun w => (Val tt, (store w, Some (store w)))).

(** [cur.execute(sql, ...)] (or [conn.execute(text(sql), ...)]) with the
    result fetched: [sem] is the meaning of the statement on the session's
    working copy; it may raise on a constraint violation. *)
Definition execute {A : Type} (sql : string)
    (sem : Db.database -> exn + A * Db.database) : M A :=
  db_call sql (fun w =>
    match session w with
    | None => (Exc (OtherError "connection already closed"), (store w, None))
    | Some t =>
        match sem t with
        | inl e => (Exc e, (store w, Some t))
        | inr (a, t') => (Val a, (store w, Some t'))
        end
    end).

(** [psycopg2.extras.execute_values(cur, sql, values)]: one INSERT carrying
    all the tuples; with no tuple nothing is sent. *)
Definition execute_values {V : Type} (sql : string)
    (sem : list V -> Db.database -> exn + unit * Db.database)
    (values : list V) : M unit :=
  match values with
  | [] => ret tt
  | _ => execute sql (sem values)
  end.

(** [conn.commit()]: the working copy becomes the committed state. *)
Definition commit : M unit :=
  db_call "COMMIT" (fun w =>
    match session w with
    | None => (Exc (OtherError "connection already closed"), (store w, None))
    | Some t => (Val tt, (t, Some t))
    end).

(** [conn.rollback()]: the working copy is thrown away. *)
Definition rollback : M unit :=
  db_call "ROLLBACK" (fun w =>
    match session w with
    | None => (Exc (OtherError "connection already closed"), (store w, None))
    | Some _ => (Val tt, (store w, Some (store w)))
    end).

(** [conn.close()]: uncommitted work is lost; closing does not raise. *)
Definition close : M unit :=
  fun _ w => (Val tt, mkWorld (store w) None (ui w) (issued w) (clock w)).

(** [with engine.begin() as conn: body]: commit when the block ends
    normally, roll back and re-raise when it raises. *)
Definition engine_begin {A : Type} (body : M A) : M A :=
  connect ;;
  try_finally
    (try_except (a <- body ;; commit ;; ret a)
                (fun e => rollback ;; raise e))
    close.

(** [with engine.connect() as conn: body]: nothing is committed. *)
Definition engine_connect {A : Type} (body : M A) : M A :=
  connect ;; try_finally body close.

(** An operation run as one page action on a committed state [db]. *)
Definition run {A : Type} (m : M A) (f : faults) (db : Db.database) : outcome A * world :=
  m f (mkWorld db None [] [] 0%nat).

Definition result {A : Type} (r : outcome A * world) : outcome A := fst r.
Definition persisted {A : Type} (r : outcome A * world) : Db.database := store (snd r).
Definition shown {A : Type} (r : outcome A * world) : list ui_event := ui (snd r).
Definition calls {A : Type} (r : outcome A * world) : list string := issued (snd r).

(** ** agricultural_machinery.py *)

Module AgriculturalMachinery.
Import MachineryRows Db.

(** A dict of the list [load_existing_data] returns: the six selected
    columns, without [holder_id]. *)
Record saved : Type := mkSaved {
  s_has_item : string;
  s_equipment_name : string;
  s_quantity_new : Z;
  s_quantity_used : Z;
  s_quantity_out_of_service : Z;
  s_source : string
}.

Definition insert_tuple : Type := (Z * string * string * Z * Z * Z * string)%type.
Definition select_tuple : Type := (string * string * Z * Z * Z * string)%type.

Definition check_query : string :=
  "SELECT COUNT(*) FROM agricultural_machinery WHERE holder_id = %s".
Definition delete_query : string :=
  "DELETE FROM agricultural_machinery WHERE holder_id = %s".
Definition insert_query : string :=
  "INSERT INTO agricultural_machinery (holder_id, has_item, equipment_name, quantity_new, quantity_used, quantity_out_of_service, source) VALUES %s".
Definition select_query : string :=
  "SELECT has_item, equipment_name, quantity_new, quantity_used, quantity_out_of_service, source FROM agricultural_machinery WHERE holder_id = %s ORDER BY id".

Definition count_rows (holder_id : Z) (db : database) : exn + Z * database :=
  inr (Z.of_nat (List.length (filter (fun r => m_holder_id r =? holder_id)
                                (agricultural_machinery db))), db).

Definition delete_rows (holder_id : Z) (db : database) : exn + unit * database :=
  inr (tt, with_machinery db
             (filter (fun r => negb (m_holder_id r =? holder_id))
                     (agricultural_machinery db))
             (agricultural_machinery_seq db)).

(** The inserted tuples take consecutive serial ids. *)
Fixpoint number_rows (seq : Z) (values : list insert_tuple) : list machinery_row :=
  match values with
  | [] => []
  | (h, has, name, qn, qu, qo, src) :: rest =>
      mkMachineryRow seq h has name qn qu qo src :: number_rows (seq + 1) rest
  end.

Definition insert_rows (values : list insert_tuple) (db : database)
  : exn + unit * database :=
  inr (tt, with_machinery db
             (agricultural_machinery db
                ++ number_rows (agricultural_machinery_seq db) values)
             (agricultural_machinery_seq db + Z.of_nat (List.length values))).

Definition select_rows (holder_id : Z) (db : database)
  : exn + list select_tuple * database :=
  inr (map (fun r => (m_has_item r, m_equipment_name r, m_quantity_new r,
                      m_quantity_used r, m_quantity_out_of_service r, m_source r))
           (order_by m_id
              (filter (fun r => m_holder_id r =? holder_id)
                      (agricultural_machinery db))),
       db).

(** [get_connection]: [true] for a connection, [false] for [None]. *)
Definition get_connection : M bool :=
  try_except (connect ;; ret true)
             (fun e => st (StError MsgUnableToConnect) ;; ret false).

(** [save_to_db].  The cursor object and the calls to the logger are left
    out; [conn.close()] of the [finally] clause is [close]. *)
Definition save_to_db (machinery_data : list entry) : M bool :=
  match machinery_data with
  | [] => st (StWarning MsgNoDataToSave) ;; ret false
  | first :: _ =>
      conn <- get_connection ;;
      if negb conn then ret false else
      try_finally
        (try_except
           (let holder_id := holder_id first in
            count <- execute check_query (count_rows holder_id) ;;
            (if count >? 0 then
               st (StInfo MsgUpdatingExisting) ;;
               execute delete_query (delete_rows holder_id)
             else ret tt) ;;
            let values :=
              map (fun row => (MachineryRows.holder_id row, has_item row,
                               equipment_name row, quantity_new row,
                               quantity_used row, quantity_out_of_service row,
                               source row))
                  machinery_data in
            execute_values insert_query insert_rows values ;;
            commit ;;
            ret true)
           (fun e =>
              match e with
              | Psycopg2Error _ =>
                  rollback ;; st (StError (MsgDatabaseError e)) ;; ret false
              | OtherError _ =>
                  rollback ;; st (StError (MsgErrorSavingData e)) ;; ret false
              end))
        close
  end.

(** [load_existing_data]: the holder's rows in id order, or the empty list
    when the connection or the SELECT fails. *)
Definition load_existing_data (holder_id : Z) : M (list saved) :=
  conn <- get_connection ;;
  if negb conn then ret [] else
  try_finally
    (try_except
       (rows <- execute select_query (select_rows holder_id) ;;
        ret (map (fun row : select_tuple =>
                    let '(r0, r1, r2, r3, r4, r5) := row in
                    mkSaved r0 r1 r2 r3 r4 r5)
                 rows))
       (fun e => ret []))
    close.

(** [validate_machinery_data] as a page action: its errors are shown. *)
Definition validate (machinery_data : list entry) : M bool :=
  fun _ w =>
    let v := validate_machinery_data machinery_data in
    (Val (fst v),
     mkWorld (store w) (session w) (ui w ++ snd v) (issued w) (clock w)).

(** The [if submitted:] block of [agricultural_machinery_section]. *)
Definition on_submit (machinery_data : list entry) : M unit :=
  valid <- validate machinery_data ;;
  if valid then
    ok <- save_to_db machinery_data ;;
    if ok then st (StSuccess MsgMachinerySaved) else ret tt
  else ret tt.

(** What a round trip gives back for a submitted dict. *)
Definition saved_of (row : entry) : saved :=
  mkSaved (has_item row) (equipment_name row) (quantity_new row)
          (quantity_used row) (quantity_out_of_service row) (source row).

End AgriculturalMachinery.

(** ** modules/land_use.py *)

Module LandUse.
Import Db.

(** A dict of [land_use_data['parcels']]; [float(x)] of an empty cell is
    NaN. *)
Record parcel : Type := mkParcel {
  parcel_no : Z;
  total_acres : PyNum.number;
  developed_acres : PyNum.number;
  tenure : string;
  use_of_land : string;
  irrigated_area : PyNum.number;
  land_clearing : string
}.

Record land_use_data : Type := mkLandUseData {
  total_area : Q;
  years_used : Q;
  main_purpose : string;
  num_parcels : Z;
  location : string;
  crop_methods : list string;
  parcels : list parcel
}.

Definition parcel_tuple : Type :=
  (Z * Z * PyNum.number * PyNum.number * string * string * PyNum.number * string)%type.

Definition select_id_sql : string := "SELECT id FROM land_use WHERE holder_id = %s".
Definition update_sql : string :=
  "UPDATE land_use SET total_area_acres = %s, years_agriculture = %s, main_purpose = %s, num_parcels = %s, location = %s, crop_methods = %s, updated_at = CURRENT_TIMESTAMP WHERE id = %s".
Definition delete_parcels_sql : string :=
  "DELETE FROM land_use_parcels WHERE land_use_id = %s".
Definition insert_sql : string :=
  "INSERT INTO land_use (holder_id, total_area_acres, years_agriculture, main_purpose, num_parcels, location, crop_methods) VALUES (%s, %s, %s, %s, %s, %s, %s) RETURNING id".
Definition insert_parcels_sql : string :=
  "INSERT INTO land_use_parcels (land_use_id, parcel_no, total_acres, developed_acres, tenure, use_of_land, irrigated_area, land_clearing) VALUES %s".

(** [cur.fetchone()] after the SELECT: the first matching id or [None]. *)
Definition select_id (holder_id : Z) (db : database) : exn + option Z * database :=
  inr (match filter (fun r => lu_holder_id r =? holder_id) (land_use db) with
       | [] => None
       | r :: _ => Some (lu_id r)
       end, db).

(** The values of the main record as the columns [total_area_acres]
    DECIMAL(10,2), [years_agriculture] DECIMAL(5,2), [main_purpose]
    VARCHAR(100), [num_parcels] INTEGER and [location] VARCHAR(200) store
    them; [crop_methods] is TEXT[].  The first value a column refuses makes
    the statement raise.  The columns are NOT NULL, and the values of the
    dict are never None. *)
Definition main_columns (d : land_use_data) : exn + (Q * Q * string * Z * string) :=
  match decimal 10 2 (total_area d) with
  | inl e => inl e
  | inr area =>
  match decimal 5 2 (years_used d) with
  | inl e => inl e
  | inr years =>
  match varchar 100 (main_purpose d) with
  | inl e => inl e
  | inr purpose =>
  match integer (num_parcels d) with
  | inl e => inl e
  | inr n =>
  match varchar 200 (location d) with
  | inl e => inl e
  | inr place => inr (area, years, purpose, n, place)
  end end end end end.

Definition update_land_use (d : land_use_data) (land_use_id : Z) (db : database)
  : exn + unit * database :=
  match main_columns d with
  | inl e => inl e
  | inr (area, years, purpose, n, place) =>
      inr (tt, with_land_use db
                 (map (fun r =>
                         if lu_id r =? land_use_id
                         then mkLandUseRow (lu_id r) (lu_holder_id r)
                                area years purpose n place (crop_methods d)
                         else r)
                      (land_use db))
                 (land_use_seq db))
  end.

Definition delete_parcels (land_use_id : Z) (db : database) : exn + unit * database :=
  inr (tt, with_parcels db
             (filter (fun r => negb (lp_land_use_id r =? land_use_id))
                     (land_use_parcels db))
             (land_use_parcels_seq db)).

(** INSERT ... RETURNING id: the values are fitted to their columns
    ([holder_id] is INTEGER), then [UNIQUE(holder_id)] is checked.  The
    table [holders] the column refers to is not part of the store: a
    violated reference is a fault of the plan. *)
Definition insert_land_use (holder_id : Z) (d : land_use_data) (db : database)
  : exn + Z * database :=
  match integer holder_id with
  | inl e => inl e
  | inr _ =>
  match main_columns d with
  | inl e => inl e
  | inr (area, years, purpose, n, place) =>
      if existsb (fun r => lu_holder_id r =? holder_id) (land_use db)
      then inl (Psycopg2Error "UniqueViolation land_use(holder_id)")
      else
        let id := land_use_seq db in
        inr (id, with_land_use db
                   (land_use db
                      ++ [mkLandUseRow id holder_id area years purpose n place
                            (crop_methods d)])
                   (id + 1))
  end end.

(** A tuple of the bulk INSERT as the columns of [land_use_parcels] store
    it: [parcel_no] INTEGER, the three areas DECIMAL(10,2), the three texts
    VARCHAR(50). *)
Definition parcel_columns (v : parcel_tuple) : exn + parcel_tuple :=
  let '(lid, pno, tot, dev, ten, use, irr, clr) := v in
  match integer pno with
  | inl e => inl e
  | inr pno =>
  match decimal_number 10 2 tot with
  | inl e => inl e
  | inr tot =>
  match decimal_number 10 2 dev with
  | inl e => inl e
  | inr dev =>
  match varchar 50 ten with
  | inl e => inl e
  | inr ten =>
  match varchar 50 use with
  | inl e => inl e
  | inr use =>
  match decimal_number 10 2 irr with
  | inl e => inl e
  | inr irr =>
  match varchar 50 clr with
  | inl e => inl e
  | inr clr => inr (lid, pno, tot, dev, ten, use, irr, clr)
  end end end end end end end.

(** The bulk INSERT of parcels under [UNIQUE(land_use_id, parcel_no)]: the
    tuples are added one after the other and the statement raises at the
    first one a column refuses or whose key is already in the table. *)
Fixpoint add_parcels (values : list parcel_tuple) (t : list parcel_row) (seq : Z)
  : exn + list parcel_row * Z :=
  match values with
  | [] => inr (t, seq)
  | v :: rest =>
      match parcel_columns v with
      | inl e => inl e
      | inr (lid, pno, tot, dev, ten, use, irr, clr) =>
          if existsb (fun r => (lp_land_use_id r =? lid) && (lp_parcel_no r =? pno)) t
          then inl (Psycopg2Error "UniqueViolation land_use_parcels(land_use_id, parcel_no)")
          else add_parcels rest
                 (t ++ [mkParcelRow seq lid pno tot dev ten use irr clr]) (seq + 1)
      end
  end.

Definition insert_parcels (values : list parcel_tuple) (db : database)
  : exn + unit * database :=
  match add_parcels values (land_use_parcels db) (land_use_parcels_seq db) with
  | inl e => inl e
  | inr (t, seq) => inr (tt, with_parcels db t seq)
  end.

(** [get_connection]: [engine.raw_connection()], [None] on failure. *)
Definition get_connection : M bool :=
  try_except (connect ;; ret true)
             (fun e => st (StError (MsgConnectionError e)) ;; ret false).

(** [if conn: conn.rollback()] and [if conn: conn.close()]: [conn] is set
    exactly when a session is open. *)
Definition if_conn (m : M unit) : M unit :=
  fun f w => match session w with Some _ => m f w | None => (Val tt, w) end.

(** [save_land_use_to_db]: one [try] around the whole body, the rollback in
    its handler, the close in its [finally]. *)
Definition save_land_use_to_db (d : land_use_data) (holder_id : Z) : M bool :=
  try_finally
    (try_except
       (conn <- get_connection ;;
        if negb conn then st (StError MsgCannotConnect) ;; ret false else
        existing <- execute select_id_sql (select_id holder_id) ;;
        land_use_id <-
          match existing with
          | Some land_use_id =>
              execute update_sql (update_land_use d land_use_id) ;;
              execute delete_parcels_sql (delete_parcels land_use_id) ;;
              ret land_use_id
          | None =>
              execute insert_sql (insert_land_use holder_id d)
          end ;;
        let parcel_values :=
          map (fun p => (land_use_id, parcel_no p, total_acres p,
                         developed_acres p, tenure p, use_of_land p,
                         irrigated_area p, land_clearing p))
              (parcels d) in
        execute_values insert_parcels_sql insert_parcels parcel_values ;;
        commit ;;
        st (StSuccess MsgLandUseSaved) ;;
        ret true)
       (fun e =>
          if_conn rollback ;;
          st (StError (MsgErrorSavingLandUse e)) ;;
          ret false))
    (if_conn close).

End LandUse.

(** ** The progress table: meaning of the statements the three modules send *)

Module ProgressTable.
Import Db.

(** SELECT id ... WHERE holder_id = :hid AND section_no = :sec, then
    [fetchone()]. *)
Definition select_by_section_no (hid sec : Z) (db : database)
  : exn + option Z * database :=
  inr (match filter (fun r => (p_holder_id r =? hid) && col_eqb (p_section_no r) sec)
                    (holder_survey_progress db) with
       | [] => None
       | r :: _ => Some (p_id r)
       end, db).

(** SELECT id ... WHERE holder_id = :hid AND section_id = :sec, then
    [fetchone()]. *)
Definition select_by_section_id (hid sec : Z) (db : database)
  : exn + option Z * database :=
  inr (match filter (fun r => (p_holder_id r =? hid) && col_eqb (p_section_id r) sec)
                    (holder_survey_progress db) with
       | [] => None
       | r :: _ => Some (p_id r)
       end, db).

(** The effect of SET completed = TRUE WHERE id = :id on one row. *)
Definition set_row_completed (id : Z) (r : progress_row) : progress_row :=
  if p_id r =? id
  then mkProgressRow (p_id r) (p_holder_id r) (p_section_id r) (p_section_no r) true
  else r.

(** UPDATE ... SET completed = TRUE WHERE id = :id *)
Definition set_completed (id : Z) (db : database) : exn + unit * database :=
  inr (tt, with_progress db
             (map (set_row_completed id) (holder_survey_progress db))
             (holder_survey_progress_seq db)).

(** INSERT ... (holder_id, section_no, completed) VALUES (:hid, :sec, TRUE) *)
Definition insert_section_no (hid sec : Z) (db : database) : exn + unit * database :=
  inr (tt, with_progress db
             (holder_survey_progress db
                ++ [mkProgressRow (holder_survey_progress_seq db) hid
                      (section_id_default db) (Some sec) true])
             (holder_survey_progress_seq db + 1)).

(** INSERT ... (holder_id, section_id, completed) VALUES (:hid, :sec, true) *)
Definition insert_section_id (hid sec : Z) (db : database) : exn + unit * database :=
  inr (tt, with_progress db
             (holder_survey_progress db
                ++ [mkProgressRow (holder_survey_progress_seq db) hid
                      (Some sec) (section_no_default db) true])
             (holder_survey_progress_seq db + 1)).

(** SELECT section_no ... WHERE holder_id = :hid AND completed = TRUE,
    then [fetchall()]; a NULL comes back as [None]. *)
Definition select_completed (hid : Z) (db : database)
  : exn + list (option Z) * database :=
  inr (map p_section_no
           (filter (fun r => (p_holder_id r =? hid) && p_completed r)
                   (holder_survey_progress db)),
       db).

(** Rows of the pair [(holder, section)] as [main_survey] keys them. *)
Definition rows_of (hid sec : Z) (db : database) : list progress_row :=
  filter (fun r => (p_holder_id r =? hid) && col_eqb (p_section_no r) sec)
         (holder_survey_progress db).

(** Rows of the pair as the labour modules key them. *)
Definition rows_of_id (hid sec : Z) (db : database) : list progress_row :=
  filter (fun r => (p_holder_id r =? hid) && col_eqb (p_section_id r) sec)
         (holder_survey_progress db).

(** The section numbers of a result of [get_completed_sections], its NULL
    entries dropped. *)
Fixpoint non_null (l : list (option Z)) : list Z :=
  match l with
  | [] => []
  | Some s :: t => s :: non_null t
  | None :: t => non_null t
  end.

End ProgressTable.

(** ** main_survey.py *)

Module MainSurvey.
Import ProgressTable.

Definition select_sql : string :=
  "SELECT id FROM holder_survey_progress WHERE holder_id = :hid AND section_no = :sec".
Definition update_sql : string :=
  "UPDATE holder_survey_progress SET completed = TRUE WHERE id = :id".
Definition insert_sql : string :=
  "INSERT INTO holder_survey_progress(holder_id, section_no, completed) VALUES(:hid, :sec, TRUE)".
Definition completed_sql : string :=
  "SELECT section_no FROM holder_survey_progress WHERE holder_id = :hid AND completed = TRUE".

Definition mark_section_complete (holder_id section_no : Z) : M unit :=
  engine_begin
    (exists_ <- execute select_sql (select_by_section_no holder_id section_no) ;;
     match exists_ with
     | Some id => execute update_sql (set_completed id)
     | None => execute insert_sql (insert_section_no holder_id section_no)
     end).

Definition get_completed_sections (holder_id : Z) : M (list (option Z)) :=
  engine_connect
    (rows <- execute completed_sql (select_completed holder_id) ;;
     ret rows).

End MainSurvey.

(** ** holding_labour.py *)

Module HoldingLabour.
Import Db ProgressTable.

Definition SECTION_NO : Z := 2.

Definition select_sql : string :=
  "SELECT id FROM holder_survey_progress WHERE holder_id=:hid AND section_id=:sec".
Definition update_sql : string :=
  "UPDATE holder_survey_progress SET completed=true WHERE id=:id".
Definition insert_sql : string :=
  "INSERT INTO holder_survey_progress (holder_id, section_id, completed) VALUES(:hid, :sec, true)".

Definition mark_section_complete (holder_id : Z) : M unit :=
  engine_begin
    (exists_ <- execute select_sql (select_by_section_id holder_id SECTION_NO) ;;
     match exists_ with
     | Some id => execute update_sql (set_completed id)
     | None => execute insert_sql (insert_section_id holder_id SECTION_NO)
     end).

Definition select_answer_sql : string :=
  "SELECT id FROM holding_labour WHERE holder_id=:hid AND question_no=:qno".
Definition update_answer_sql : string :=
  "UPDATE holding_labour SET male_count=:male_count, female_count=:female_count, total_count=:total_count, option_response=:option_response WHERE holder_id=:holder_id AND question_no=:question_no".
Definition insert_answer_sql : string :=
  "INSERT INTO holding_labour (holder_id, question_no, question_text, male_count, female_count, total_count, option_response) VALUES (:holder_id, :question_no, :question_text, :male_count, :female_count, :total_count, :option_response)".

Definition select_answer (hid qno : Z) (db : database) : exn + option Z * database :=
  inr (match filter (fun r => (hl_holder_id r =? hid) && (hl_question_no r =? qno))
                    (holding_labour db) with
       | [] => None
       | r :: _ => Some (hl_id r)
       end, db).

Definition update_answer (hid qno : Z) (male female total : option Z)
    (option_response : option string) (db : database) : exn + unit * database :=
  inr (tt, with_labour db
             (map (fun r =>
                     if (hl_holder_id r =? hid) && (hl_question_no r =? qno)
                     then mkLabourRow (hl_id r) (hl_holder_id r) (hl_question_no r)
                            (hl_question_text r) male female total option_response
                     else r)
                  (holding_labour db))
             (holding_labour_seq db)).

Definition insert_answer (hid qno : Z) (question_text : string)
    (male female total : option Z) (option_response : option string)
    (db : database) : exn + unit * database :=
  inr (tt, with_labour db
             (holding_labour db
                ++ [mkLabourRow (holding_labour_seq db) hid qno question_text
                      male female total option_response])
             (holding_labour_seq db + 1)).

(** The [if st.button("Save & Next"):] block of [labour_form_page], up to
    the rerun: the answer of [current_q] is written, and the section is
    marked complete when no question follows.  The updates of the session
    state (the question cursor and the completion flag) are left out. *)
Definition save_and_next (holder_id : Z) (questions : list labour_row)
    (labour_current_form : Z) (current_q : labour_row)
    (male female total : option Z) (option_response : option string) : M unit :=
  engine_begin
    (exists_ <- execute select_answer_sql
                  (select_answer holder_id (hl_question_no current_q)) ;;
     match exists_ with
     | Some _ =>
         execute update_answer_sql
           (update_answer holder_id (hl_question_no current_q)
              male female total option_response)
     | None =>
         execute insert_answer_sql
           (insert_answer holder_id (hl_question_no current_q)
              (hl_question_text current_q) male female total option_response)
     end) ;;
  match find (fun q => hl_question_no q =? labour_current_form + 1) questions with
  | Some _ => ret tt
  | None => mark_section_complete holder_id
  end.

End HoldingLabour.

(** ** holding_labour_permanent.py *)

Module HoldingLabourPermanent.
Import ProgressTable.

Definition SECTION_NO : Z := 3.

Definition select_sql : string :=
  "SELECT id FROM holder_survey_progress WHERE holder_id=:hid AND section_id=:sec".
Definition update_sql : string :=
  "UPDATE holder_survey_progress SET completed=true WHERE id=:id".
Definition insert_sql : string :=
  "INSERT INTO holder_survey_progress(holder_id, section_id, completed) VALUES(:hid, :sec, true)".

Definition mark_section_complete (holder_id : Z) : M unit :=
  engine_begin
    (exists_ <- execute select_sql (select_by_section_id holder_id SECTION_NO) ;;
     match exists_ with
     | Some id => execute update_sql (set_completed id)
     | None => execute insert_sql (insert_section_id holder_id SECTION_NO)
     end).

End HoldingLabourPermanent.

(** ** Notions used in the statements *)

(** Every character of [s] is white space. *)
Fixpoint all_space (s : string) : bool :=
  match s with
  | EmptyString => true
  | String c t => PyStr.isspace c && all_space t
  end.

(** The errors one machinery row produces on its own. *)
Definition row_errors (row : MachineryRows.entry) : list ui_event :=
  snd (MachineryRows.validate_row_without_open_entry row (true, [])).

Definition row_ok (row : MachineryRows.entry) : bool :=
  fst (MachineryRows.validate_row_without_open_entry row (true, [])).

(** The errors and the warnings one parcel produces on its own. *)
Definition parcel_errors (row : ParcelRows.frame_row) : list ParcelRows.parcel_error :=
  fst (ParcelRows.validate_parcel row ([], [])).

Definition parcel_warnings (row : ParcelRows.frame_row) : list ui_event :=
  snd (ParcelRows.validate_parcel row ([], [])).

(** The tuple [save_to_db] sends for a dict. *)
Definition entry_tuple (row : MachineryRows.entry) : AgriculturalMachinery.insert_tuple :=
  (MachineryRows.holder_id row, MachineryRows.has_item row,
   MachineryRows.equipment_name row, MachineryRows.quantity_new row,
   MachineryRows.quantity_used row, MachineryRows.quantity_out_of_service row,
   MachineryRows.source row).

(** The machinery table after a complete replace-on-save of [rows] for the
    holder of the first row: the holder's earlier rows gone, the new rows
    appended under fresh ids. *)
Definition replaced (rows : list MachineryRows.entry) (holder : Z) (db : Db.database)
  : Db.database :=
  Db.with_machinery db
    (filter (fun r => negb (Db.m_holder_id r =? holder)) (Db.agricultural_machinery db)
       ++ AgriculturalMachinery.number_rows (Db.agricultural_machinery_seq db)
            (map entry_tuple rows))
    (Db.agricultural_machinery_seq db + Z.of_nat (List.length rows)).

(** The store after a statement that went through. *)
Definition after (sem : Db.database -> exn + unit * Db.database) (db : Db.database)
  : Db.database :=
  match sem db with
  | inr (_, db') => db'
  | inl _ => db
  end.

(** The store after a labour module has marked its section [sec] complete
    for [h]: the first row of the pair updated, or a row inserted. *)
Definition marked_by_section_id (h sec : Z) (db : Db.database) : Db.database :=
  match ProgressTable.rows_of_id h sec db with
  | [] => after (ProgressTable.insert_section_id h sec) db
  | r :: _ => after (ProgressTable.set_completed (Db.p_id r)) db
  end.

(** What [get_completed_sections] reads on a store, when its calls go
    through. *)
Definition completed_sections (h : Z) (db : Db.database) : list (option Z) :=
  map Db.p_section_no
      (filter (fun r => (Db.p_holder_id r =? h) && Db.p_completed r)
              (Db.holder_survey_progress db)).

(** Some database call of the run [r] under the plan [f] raised. *)
Definition some_call_raised {A : Type} (f : faults) (r : outcome A * world) : Prop :=
  exists k, (k < List.length (calls r))%nat /\ f k <> None.

(** The ROLLBACK of an exception handler, when the run reached one, did not
    itself raise. *)
Definition rollback_went_through {A : Type} (f : faults) (r : outcome A * world) : Prop :=
  forall k, nth_error (calls r) k = Some "ROLLBACK" -> f k = None.

(** A plan with a single fault: call number [k] raises [e]. *)
Definition fault_at (k : nat) (e : exn) : faults :=
  fun n => if Nat.eqb n k then Some e else None.

(** ** Sample data *)

Module Sample.

Definition tractor : MachineryRows.entry :=
  MachineryRows.mkEntry 42 "Y" "Tractors (below 100 horsepower)" 1 0 0 "O".

Definition sprayer : MachineryRows.entry :=
  MachineryRows.mkEntry 42 "N" "Sprayers and dusters" 0 0 0 "O".

(** The row of the scenario of holder 42: marked "Y" with no quantity. *)
Definition tractor_without_quantity : MachineryRows.entry :=
  MachineryRows.mkEntry 42 "Y" "Tractor" 0 0 0 "O".

Definition too_many_trucks : MachineryRows.entry :=
  MachineryRows.mkEntry 42 "Y" "Trucks (including pickups)" 21 0 0 "B".

Definition over_developed : ParcelRows.frame_row :=
  ParcelRows.mkFrameRow (PyNum.Fin 1) (PyNum.Fin 5) (PyNum.Fin 7)
    (Some "Privately Owned") (Some "Temporary Crops") (PyNum.Fin 0) (Some "Regenerative").

Definition over_irrigated : ParcelRows.frame_row :=
  ParcelRows.mkFrameRow (PyNum.Fin 2) (PyNum.Fin 5) (PyNum.Fin 3)
    (Some "Privately Owned") (Some "Temporary Crops") (PyNum.Fin 6) (Some "Regenerative").

(** A row added in the editor and left empty. *)
Definition blank_row : ParcelRows.frame_row :=
  ParcelRows.mkFrameRow PyNum.NaN PyNum.NaN PyNum.NaN None None PyNum.NaN None.

Definition land : LandUse.land_use_data :=
  LandUse.mkLandUseData (5 # 1) (3 # 1) "For Sale Only/Commercial" 1 "Andros"
    ["Open Field"]
    [LandUse.mkParcel 1 (PyNum.Fin 5) (PyNum.Fin 2) "privately_owned" "temporary_crops"
       (PyNum.Fin 0) "regenerative"].

(** The store after holder 42 saved the tractor row. *)
Definition one_tractor_saved : Db.database :=
  replaced [tractor] 42 Db.empty.

(** The bulk INSERT of a save over existing rows is call number 3, after
    CONNECT, the COUNT and the DELETE. *)
Definition insert_fails : faults :=
  fault_at 3 (Psycopg2Error "server closed the connection").

End Sample.

(** ** More Python text operations *)

Module PyText.

(** [str.lower] on one character, for code points below 256. *)
Definition lower_char (c : ascii) : ascii :=
  let n := N_of_ascii c in
  if ((65 <=? n) && (n <=? 90)
      || (192 <=? n) && (n <=? 222) && negb (n =? 215))%N
  then ascii_of_N (n + 32) else c.

(** [s.lower()] *)
Fixpoint lower (s : string) : string :=
  match s with
  | EmptyString => EmptyString
  | String c t => String (lower_char c) (lower t)
  end.

(** [s.replace(old, new)] for a one-character [old]. *)
Fixpoint replace (old : ascii) (new : string) (s : string) : string :=
  match s with
  | EmptyString => EmptyString
  | String c t =>
      if Ascii.eqb c old then String.append new (replace old new t)
      else String c (replace old new t)
  end.

(** [str(n)] for an integer, as an f-string prints it. *)
Definition str (n : Z) : string := NilZero.string_of_int (Z.to_int n).

(** The character [c] occurs in [s]. *)
Fixpoint occurs (c : ascii) (s : string) : bool :=
  match s with
  | EmptyString => false
  | String d t => Ascii.eqb d c || occurs c t
  end.

End PyText.

(** ** modules/land_use.py: validation of the main record, loading, the
       submit block *)

Module LandUseForm.
Import Db ParcelRows LandUse.

(** The strings [validate_main_land_use] appends to [errors]. *)
Inductive main_error : Type :=
| TotalAreaNotPositive   (* "Total Area must be greater than 0 acres." *)
| YearsNegative          (* "Years of agricultural use cannot be negative." *)
| NoCropMethod           (* "At least one Crop Method must be selected." *)
| NoParcel               (* "Number of Parcels must be at least 1." *)
| LocationEmpty          (* "Location cannot be empty." *)
| LocationTooLong.       (* "Location must be 200 characters or less." *)

Definition validate_main_land_use (total_area years_used : Q)
    (crop_methods : list string) (num_parcels : Z) (location : string)
  : list main_error :=
  let errors := [] in
  let errors := if Qle_bool total_area 0
                then errors ++ [TotalAreaNotPositive] else errors in
  let errors := if Qlt_bool years_used 0
                then errors ++ [YearsNegative] else errors in
  let errors := match crop_methods with
                | [] => errors ++ [NoCropMethod]
                | _ :: _ => errors
                end in
  let errors := if num_parcels <? 1
                then errors ++ [NoParcel] else errors in
  let errors := if negb (PyStr.truthy (PyStr.strip location))
                then errors ++ [LocationEmpty] else errors in
  if PyStr.len location >? 200
  then errors ++ [LocationTooLong] else errors.

(** What the page shows through calls that have no constructor in
    [message]: the functions below return these beside their value, in the
    order of the calls. *)
Inductive note : Type :=
| ErrorLoadingLandUse (e : exn)          (* st.error(f"Error loading land use data: {e}") *)
| MainError (e : main_error)             (* st.error(error), error from validate_main_land_use *)
| ParcelError (e : parcel_error)         (* st.error(error), error from validate_parcels *)
| Balloons.                              (* st.balloons() *)

Definition main_tuple : Type := (Q * Q * string * Z * string * list string)%type.
Definition parcel_select_tuple : Type :=
  (Z * PyNum.number * PyNum.number * string * string * PyNum.number * string)%type.

Definition select_main_sql : string :=
  "SELECT total_area_acres, years_agriculture, main_purpose, num_parcels, location, crop_methods FROM land_use WHERE holder_id = %s".
Definition select_parcels_sql : string :=
  "SELECT parcel_no, total_acres, developed_acres, tenure, use_of_land, irrigated_area, land_clearing FROM land_use_parcels WHERE land_use_id IN (SELECT id FROM land_use WHERE holder_id = %s) ORDER BY parcel_no".

(** The first SELECT and [cur.fetchone()]. *)
Definition select_main (holder_id : Z) (db : database) : exn + option main_tuple * database :=
  inr (match filter (fun r => lu_holder_id r =? holder_id) (land_use db) with
       | [] => None
       | r :: _ => Some (lu_total_area_acres r, lu_years_agriculture r, lu_main_purpose r,
                         lu_num_parcels r, lu_location r, lu_crop_methods r)
       end, db).

(** [land_use_id IN (SELECT id FROM land_use WHERE holder_id = %s)] *)
Definition of_holder (holder_id : Z) (db : database) (p : parcel_row) : bool :=
  existsb (fun r => (lu_holder_id r =? holder_id) && (lu_id r =? lp_land_use_id p))
          (land_use db).

(** The second SELECT and [cur.fetchall()]. *)
Definition select_parcels (holder_id : Z) (db : database)
  : exn + list parcel_select_tuple * database :=
  inr (map (fun p => (lp_parcel_no p, lp_total_acres p, lp_developed_acres p, lp_tenure p,
                      lp_use_of_land p, lp_irrigated_area p, lp_land_clearing p))
           (order_by lp_parcel_no (filter (of_holder holder_id db) (land_use_parcels db))),
       db).

(** [load_existing_land_use_data]: the pair [(main_info, parcels_data)],
    [(None, None)] without a connection or after an exception, and the error
    the handler shows. *)
Definition load_existing_land_use_data (holder_id : Z)
  : M ((option main_tuple * option (list parcel_select_tuple)) * list note) :=
  try_finally
    (try_except
       (conn <- get_connection ;;
        if negb conn then ret ((None, None), []) else
        main_info <- execute select_main_sql (select_main holder_id) ;;
        parcels_data <- execute select_parcels_sql (select_parcels holder_id) ;;
        ret ((main_info, Some parcels_data), []))
       (fun e => ret ((None, None), [ErrorLoadingLandUse e])))
    (if_conn close).

(** [validate_parcels] as a page action: its warnings are shown. *)
Definition validate_parcels_shown (parcels_df : list frame_row) : M (list parcel_error) :=
  fun _ w =>
    let v := validate_parcels parcels_df in
    (Val (fst v),
     mkWorld (store w) (session w) (ui w ++ snd v) (issued w) (clock w)).

(** [row["Tenure of Land"].lower().replace(" ", "_").replace("/", "_").replace("&", "and")],
    used for the tenure and for the use of land. *)
Definition slug (s : string) : string :=
  PyText.replace "&" "and" (PyText.replace "/" "_" (PyText.replace " " "_" (PyText.lower s))).

(** [row["Land Clearing Methods"].lower().replace(" ", "_")] *)
Definition slug_clearing (s : string) : string :=
  PyText.replace " " "_" (PyText.lower s).

(** [row[...].lower()] on a text cell: an empty cell is None, which has no
    method [lower]. *)
Definition text_of (cell : option string) : exn + string :=
  match cell with
  | Some s => inr s
  | None => inl (OtherError "AttributeError: 'NoneType' object has no attribute 'lower'")
  end.

(** The dict appended to [parcels_list] for a row of the edited frame, its
    values computed in the order of the dict display: [int] of the parcel
    number, the two [float]s, the tenure, the use of land, the third
    [float], the clearing method.  [float] of a number cell is the number;
    [int] raises on NaN and [lower] on None. *)
Definition parcel_of_row (row : frame_row) : exn + parcel :=
  match PyNum.int (Parcel_No row) with
  | inl e => inl e
  | inr parcel_no =>
  match text_of (Tenure_of_Land row) with
  | inl e => inl e
  | inr tenure =>
  match text_of (Use_of_Land row) with
  | inl e => inl e
  | inr use_of_land =>
  match text_of (Land_Clearing_Methods row) with
  | inl e => inl e
  | inr land_clearing =>
      inr (mkParcel parcel_no (Total_Acres row) (Developed_Acres row)
             (slug tenure) (slug use_of_land)
             (Irrigated_Area row) (slug_clearing land_clearing))
  end end end end.

(** The loop [for _, row in edited_df.iterrows(): parcels_list.append(...)]. *)
Fixpoint parcels_of_rows (rows : list frame_row) : exn + list parcel :=
  match rows with
  | [] => inr []
  | row :: rest =>
      match parcel_of_row row with
      | inl e => inl e
      | inr p =>
          match parcels_of_rows rest with
          | inl e => inl e
          | inr ps => inr (p :: ps)
          end
      end
  end.

(** The [if submitted:] block of [land_use_section] with the [return] that
    follows it: the value is what the section returns, the notes are the
    errors shown one by one (or the balloons).  The conversion of the rows
    runs outside any [try]: its exception leaves the section. *)
Definition on_submit (holder_id : Z) (total_area years_used : Q) (main_purpose : string)
    (crop_methods : list string) (num_parcels : Z) (location : string)
    (edited_df : list frame_row) : M (bool * list note) :=
  let main_errors :=
    validate_main_land_use total_area years_used crop_methods num_parcels location in
  parcel_errors <- validate_parcels_shown edited_df ;;
  let all_errors := map MainError main_errors ++ map ParcelError parcel_errors in
  match all_errors with
  | _ :: _ => ret (false, all_errors)
  | [] =>
      match parcels_of_rows edited_df with
      | inl e => raise e
      | inr parcels_list =>
          let land_use_data :=
            mkLandUseData total_area years_used main_purpose num_parcels location
              crop_methods parcels_list in
          ok <- save_land_use_to_db land_use_data holder_id ;;
          if ok then ret (true, [Balloons]) else ret (false, [])
      end
  end.

End LandUseForm.

(** ** agricultural_machinery.py: the form loop and the summary *)

Module MachineryForm.
Import MachineryRows AgriculturalMachinery.

Definition equipment_list : list string :=
  ["Small Engine Machines (e.g. pole-saw, push mower, weed wacker, auger etc.)";
   "Tractors (below 100 horsepower)";
   "Tractors (100 horsepower or greater)";
   "Sprayers and dusters";
   "Trucks (including pickups)";
   "Cars / Jeeps / Station Wagons";
   "Open Entry 1";
   "Open Entry 2"].

(** What the widgets of row [idx] return in this run of the page, given the
    default the code passes to each: the radio buttons get the index of the
    preselected option, the inputs their initial value. *)
Record widgets : Type := mkWidgets {
  has_radio : Z -> Z -> string;
  name_input : Z -> string -> string;
  new_input : Z -> Z -> Z;
  used_input : Z -> Z -> Z;
  out_input : Z -> Z -> Z;
  source_radio : Z -> Z -> string
}.

Definition source_options : list string := ["O"; "RL"; "B"].

(** [options.index(x) if x in options else 0] *)
Fixpoint index_or_zero (x : string) (options : list string) : Z :=
  match options with
  | [] => 0
  | o :: rest =>
      if String.eqb o x then 0
      else if existsb (String.eqb x) rest then 1 + index_or_zero x rest else 0
  end.

(** [existing_data and idx <= len(existing_data)] *)
Definition has_existing (existing_data : list saved) (idx : Z) : bool :=
  match existing_data with
  | [] => false
  | _ :: _ => idx <=? Z.of_nat (List.length existing_data)
  end.

(** [default_values], after the [update] with the saved dict when there is
    one: a saved dict carries all six keys. *)
Definition default_values (existing_data : list saved) (idx : Z) (equipment : string)
  : saved :=
  let defaults := mkSaved "N" equipment 0 0 0 "O" in
  if has_existing existing_data idx
  then nth (Z.to_nat (idx - 1)) existing_data defaults
  else defaults.

(** The name of the row: the label itself, or for an "Open Entry" the text
    typed, with the numbered label when the text is empty. *)
Definition row_name (w : widgets) (existing_data : list saved) (idx : Z)
    (equipment : string) : string :=
  if PyStr.contains "Open Entry" equipment then
    let default_name :=
      if has_existing existing_data idx then
        let existing_equip_name :=
          s_equipment_name
            (nth (Z.to_nat (idx - 1)) existing_data (mkSaved "N" equipment 0 0 0 "O")) in
        if negb (String.eqb existing_equip_name equipment)
        then existing_equip_name else ""
      else "" in
    let equipment_name := name_input w idx default_name in
    if negb (PyStr.truthy equipment_name)
    then String.append "Open Entry " (PyText.str (idx - 6))
    else equipment_name
  else equipment.

(** [st.number_input("", min_value=.., max_value=.., value=.., step=1)]:
    Streamlit refuses a default [value] outside the bounds and raises;
    otherwise the call gives the widget's value [returned] in this run. *)
Definition number_input (min_value max_value value returned : Z) : exn + Z :=
  if value <? min_value then inl (OtherError "StreamlitValueBelowMinError")
  else if value >? max_value then inl (OtherError "StreamlitValueAboveMaxError")
  else inr returned.

(** Body of [for idx, equipment in enumerate(equipment_list, start=1)]: the
    dict appended to [machinery_data], or the exception of the first
    quantity input that refuses its default. *)
Definition form_row (w : widgets) (holder : Z) (existing_data : list saved)
    (idx : Z) (equipment : string) : exn + entry :=
  let d := default_values existing_data idx equipment in
  let has_item := has_radio w idx (if String.eqb (s_has_item d) "Y" then 0 else 1) in
  let equipment_name := row_name w existing_data idx equipment in
  match number_input 0 20 (s_quantity_new d) (new_input w idx (s_quantity_new d)) with
  | inl e => inl e
  | inr qty_new =>
  match number_input 0 20 (s_quantity_used d) (used_input w idx (s_quantity_used d)) with
  | inl e => inl e
  | inr qty_used =>
  match number_input 0 20 (s_quantity_out_of_service d)
          (out_input w idx (s_quantity_out_of_service d)) with
  | inl e => inl e
  | inr qty_out =>
      let source_index :=
        if existsb (String.eqb (s_source d)) source_options
        then index_or_zero (s_source d) source_options else 0 in
      let source := source_radio w idx source_index in
      inr (mkEntry holder has_item equipment_name qty_new qty_used qty_out source)
  end end end.

Fixpoint form_rows (w : widgets) (holder : Z) (existing_data : list saved)
    (idx : Z) (equipments : list string) : exn + list entry :=
  match equipments with
  | [] => inr []
  | equipment :: rest =>
      match form_row w holder existing_data idx equipment with
      | inl e => inl e
      | inr row =>
          match form_rows w holder existing_data (idx + 1) rest with
          | inl e => inl e
          | inr rows => inr (row :: rows)
          end
      end
  end.

(** [machinery_data] as the loop of [agricultural_machinery_section] leaves
    it; the loop raises when a loaded quantity is not a valid default. *)
Definition machinery_data (w : widgets) (holder : Z) (existing_data : list saved)
  : exn + list entry :=
  form_rows w holder existing_data 1 equipment_list.

(** Widgets nobody touched: each returns what the code preselected. *)
Definition untouched : widgets :=
  mkWidgets (fun _ index => nth (Z.to_nat index) ["Y"; "N"] "")
            (fun _ value => value)
            (fun _ value => value)
            (fun _ value => value)
            (fun _ value => value)
            (fun _ index => nth (Z.to_nat index) source_options "").

(** [active_equipment] of [display_machinery_summary]. *)
Definition active_equipment (existing_data : list saved) : list saved :=
  filter (fun row =>
            String.eqb (s_has_item row) "Y"
            && ((s_quantity_new row >? 0) || (s_quantity_used row >? 0)
                || (s_quantity_out_of_service row >? 0)))
         existing_data.

(** The three things [display_machinery_summary] can show. *)
Inductive summary : Type :=
| NoMachinerySaved                     (* "No machinery data saved yet." *)
| NoActiveMachinery                    (* "No active machinery data found ..." *)
| ActiveMachinery (rows : list saved). (* one block of three columns per row *)

Definition display_machinery_summary (holder : Z) : M summary :=
  existing_data <- load_existing_data holder ;;
  match existing_data with
  | [] => ret NoMachinerySaved
  | _ :: _ =>
      match active_equipment existing_data with
      | [] => ret NoActiveMachinery
      | active => ret (ActiveMachinery active)
      end
  end.

End MachineryForm.

(** ** holding_labour.py: the questions of a holder *)

Module LabourQuestions.
Import Db.

(** [default_questions]; the optional third component is the response. *)
Definition default_questions : list (Z * string * option string) :=
  [(2, "How many permanent workers including administrative staff were hired on the holding from Aug 1, 2024 to Jul 31, 2025 (excluding household)?", None);
   (3, "How many temporary workers including administrative staff were hired on the holding from Aug 1, 2024 to Jul 31, 2025 (excluding household)?", None);
   (4, "What was the number of non-Bahamian workers on the holding from Aug 1, 2024 to Jul 31, 2025?", None);
   (5, "Did any of your workers have work permits?", Some "Not Applicable");
   (6, "Were there any volunteer workers on the holding (i.e. unpaid labourers)?", Some "Not Applicable");
   (7, "Did you use any agricultural contracted services (crop protection, pruning, composting, harvesting, animal services, irrigation, farm admin etc.) on the holding?", Some "Not Applicable")].

Definition insert_default_sql : string :=
  "INSERT INTO holding_labour (holder_id, question_no, question_text, male_count, female_count, total_count, option_response) VALUES (:hid, :q_no, :q_text, 0, 0, 0, :opt)".
Definition fetch_sql : string :=
  "SELECT id, question_no, question_text, male_count, female_count, total_count, option_response FROM holding_labour WHERE holder_id=:hid ORDER BY question_no".

(** The [for] loop of [initialize_labour_questions]. *)
Fixpoint insert_defaults (holder_id : Z) (questions : list (Z * string * option string))
  : M unit :=
  match questions with
  | [] => ret tt
  | (q_no, q_text, opt_response) :: rest =>
      let default_opt :=
        match opt_response with Some o => o | None => "Not Applicable" end in
      execute insert_default_sql
        (HoldingLabour.insert_answer holder_id q_no q_text (Some 0) (Some 0) (Some 0)
           (Some default_opt)) ;;
      insert_defaults holder_id rest
  end.

Definition initialize_labour_questions (holder_id : Z) : M unit :=
  engine_begin (insert_defaults holder_id default_questions).

(** The rows of the holder by question number; a row of the result also
    carries the holder id, which the SELECT does not return. *)
Definition select_questions (holder_id : Z) (db : database)
  : exn + list labour_row * database :=
  inr (order_by hl_question_no
         (filter (fun r => hl_holder_id r =? holder_id) (holding_labour db)), db).

Definition fetch_questions (holder_id : Z) : M (list labour_row) :=
  engine_connect
    (rows <- execute fetch_sql (select_questions holder_id) ;;
     ret rows).

(** A row of [holding_labour] with the answer of "Save & Next" written. *)
Definition answered (male female total : option Z) (option_response : option string)
    (r : labour_row) : labour_row :=
  mkLabourRow (hl_id r) (hl_holder_id r) (hl_question_no r) (hl_question_text r)
    male female total option_response.

End LabourQuestions.

(** ** Notions used in the further properties *)

(** What [load_existing_data] returns for a holder when its calls go
    through. *)
Definition machinery_loaded (h : Z) (db : Db.database) : list AgriculturalMachinery.saved :=
  map (fun r => AgriculturalMachinery.mkSaved (Db.m_has_item r) (Db.m_equipment_name r)
                  (Db.m_quantity_new r) (Db.m_quantity_used r)
                  (Db.m_quantity_out_of_service r) (Db.m_source r))
      (Db.order_by Db.m_id
         (filter (fun r => Db.m_holder_id r =? h) (Db.agricultural_machinery db))).

(** The three quantities of a loaded dict are defaults the quantity inputs
    of the form accept. *)
Definition quantities_in_range (row : AgriculturalMachinery.saved) : Prop :=
  0 <= AgriculturalMachinery.s_quantity_new row <= 20
  /\ 0 <= AgriculturalMachinery.s_quantity_used row <= 20
  /\ 0 <= AgriculturalMachinery.s_quantity_out_of_service row <= 20.

(** The form loop runs through on the loaded list: the dicts it takes its
    defaults from, the first eight, carry quantities the inputs accept. *)
Definition form_renders (existing_data : list AgriculturalMachinery.saved) : Prop :=
  Forall quantities_in_range (firstn 8 existing_data).

(** A saved dict as the machinery form produces it under the label
    [equipment]: one of the two radio choices, one of the three sources, the
    label itself as name, or any non-empty name under an "Open Entry", and
    quantities between 0 and 20. *)
Definition form_made (equipment : string) (row : AgriculturalMachinery.saved) : Prop :=
  (AgriculturalMachinery.s_has_item row = "Y" \/ AgriculturalMachinery.s_has_item row = "N")
  /\ In (AgriculturalMachinery.s_source row) MachineryForm.source_options
  /\ (if PyStr.contains "Open Entry" equipment
      then AgriculturalMachinery.s_equipment_name row <> ""
      else AgriculturalMachinery.s_equipment_name row = equipment)
  /\ quantities_in_range row.

(** What [display_machinery_summary] shows for the loaded list
    [existing_data]. *)
Definition summary_of (existing_data : list AgriculturalMachinery.saved)
  : MachineryForm.summary :=
  match existing_data with
  | [] => MachineryForm.NoMachinerySaved
  | _ :: _ =>
      match MachineryForm.active_equipment existing_data with
      | [] => MachineryForm.NoActiveMachinery
      | active => MachineryForm.ActiveMachinery active
      end
  end.

(** The columns of a labour question apart from its id. *)
Definition question_view (r : Db.labour_row)
  : Z * Z * string * option Z * option Z * option Z * option string :=
  (Db.hl_holder_id r, Db.hl_question_no r, Db.hl_question_text r, Db.hl_male_count r,
   Db.hl_female_count r, Db.hl_total_count r, Db.hl_option_response r).

(** The six default questions as rows of holder [h]: counts 0 and the
    response "Not Applicable". *)
Definition default_views (h : Z)
  : list (Z * Z * string * option Z * option Z * option Z * option string) :=
  map (fun q : Z * string * option string =>
         let '(q_no, q_text, _) := q in
         (h, q_no, q_text, Some 0, Some 0, Some 0, Some "Not Applicable"))
      LabourQuestions.default_questions.

(** The store after the first transaction of "Save & Next": the answer
    updated in place, or inserted when the holder has no row for the
    question. *)
Definition answer_written (h : Z) (q : Db.labour_row) (male female total : option Z)
    (resp : option string) (db : Db.database) : Db.database :=
  match filter (fun r => (Db.hl_holder_id r =? h)
                         && (Db.hl_question_no r =? Db.hl_question_no q))
               (Db.holding_labour db) with
  | [] => after (HoldingLabour.insert_answer h (Db.hl_question_no q)
                   (Db.hl_question_text q) male female total resp) db
  | _ :: _ => after (HoldingLabour.update_answer h (Db.hl_question_no q)
                       male female total resp) db
  end.

(** A row of the edited frame with a parcel number and its three texts: the
    cells the submit block converts with [int] and [lower]. *)
Definition row_complete (row : ParcelRows.frame_row) : Prop :=
  ParcelRows.Parcel_No row <> PyNum.NaN
  /\ ParcelRows.Tenure_of_Land row <> None
  /\ ParcelRows.Use_of_Land row <> None
  /\ ParcelRows.Land_Clearing_Methods row <> None.

(** The parcel number of a loaded parcel tuple, and the key columns of a
    tuple of the bulk INSERT. *)
Definition parcel_number (t : LandUseForm.parcel_select_tuple) : Z :=
  let '(pno, _, _, _, _, _, _) := t in pno.

Definition tuple_land_use_id (v : LandUse.parcel_tuple) : Z :=
  let '(lid, _, _, _, _, _, _, _) := v in lid.

Definition tuple_parcel_no (v : LandUse.parcel_tuple) : Z :=
  let '(_, pno, _, _, _, _, _, _) := v in pno.

(** The id of the land-use record a save for holder [h] writes to: the
    holder's record, or the next serial id when there is none. *)
Definition land_use_target (h : Z) (db : Db.database) : Z :=
  match filter (fun r => Db.lu_holder_id r =? h) (Db.land_use db) with
  | r :: _ => Db.lu_id r
  | [] => Db.land_use_seq db
  end.

(** The constraints of [setup_land_use_tables] the round trip relies on:
    UNIQUE(holder_id) for holder [h], and every parcel referring to a record
    whose serial id was already given out. *)
Definition land_use_schema_ok (h : Z) (db : Db.database) : Prop :=
  (List.length (filter (fun r => (Db.lu_holder_id r =? h)%Z) (Db.land_use db)) <= 1)%nat
  /\ forall p, In p (Db.land_use_parcels db) -> Db.lp_land_use_id p < Db.land_use_seq db.

Module Sample2.

(** Widgets of a run in which the user marks the tractor row (row 2) "Y"
    with one new tractor and names the first open entry. *)
Definition one_tractor : MachineryForm.widgets :=
  MachineryForm.mkWidgets
    (fun idx _ => if idx =? 2 then "Y" else "N")
    (fun idx value => if idx =? 7 then "Plough" else value)
    (fun idx value => if idx =? 2 then 1 else value)
    (fun _ value => value)
    (fun _ value => value)
    (fun _ index => nth (Z.to_nat index) MachineryForm.source_options "").

(** The eight dicts the form saved in that run. *)
Definition saved_form : list AgriculturalMachinery.saved :=
  match MachineryForm.machinery_data one_tractor 42 [] with
  | inr rows => map AgriculturalMachinery.saved_of rows
  | inl _ => []
  end.

(** A list loaded from a table that was not filled through the form: 21 new
    tractors. *)
Definition foreign_rows : list AgriculturalMachinery.saved :=
  [AgriculturalMachinery.mkSaved "Y" "Tractors (below 100 horsepower)" 21 0 0 "O"].

(** The store after the default questions of holder 42 were created, and
    the row of its question 2 as [fetch_questions] returns it. *)
Definition labour_ready : Db.database :=
  persisted (run (LabourQuestions.initialize_labour_questions 42) no_faults Db.empty).

Definition question_two : Db.labour_row :=
  Db.mkLabourRow 1 42 2
    "How many permanent workers including administrative staff were hired on the holding from Aug 1, 2024 to Jul 31, 2025 (excluding household)?"
    (Some 0) (Some 0) (Some 0) (Some "Not Applicable").

(** The SELECT of a loader is call number 1, after CONNECT. *)
Definition select_fails : faults :=
  fault_at 1 (Psycopg2Error "server closed the connection").

(** A row of holder 7, and the store in which holders 42 and 7 each have a
    machinery row. *)
Definition neighbour : MachineryRows.entry :=
  MachineryRows.mkEntry 7 "Y" "Sprayers and dusters" 0 1 0 "RL".

Definition two_holders : Db.database :=
  replaced [neighbour] 7 Sample.one_tractor_saved.

(** The progress table after holder 8 completed section 2, and after holder
    7 completed section 1. *)
Definition progress_of_8 : Db.database :=
  persisted (run (MainSurvey.mark_section_complete 8 2) no_faults Db.empty).

Definition progress_of_7 : Db.database :=
  persisted (run (MainSurvey.mark_section_complete 7 1) no_faults Db.empty).

(** The store after holder 42 saved [Sample.land], and a second submission
    of the holder with two other parcels, entered out of order. *)
Definition land_saved : Db.database :=
  persisted (run (LandUse.save_land_use_to_db Sample.land 42) no_faults Db.empty).

Definition land_again : LandUse.land_use_data :=
  LandUse.mkLandUseData (8 # 1) (4 # 1) "For Consumption Only/Subsistence" 2 "Exuma"
    ["Greenhouse"]
    [LandUse.mkParcel 3 (PyNum.Fin 5) (PyNum.Fin 2) "borrowed" "wetland"
       (PyNum.Fin 0) "hand_clearing";
     LandUse.mkParcel 2 (PyNum.Fin 3) PyNum.NaN "privately_owned" "temporary_crops"
       (PyNum.Fin 1) "regenerative"].

End Sample2.

(** * Properties *)

(** ** Strings *)

Lemma rstrip_empty_all_space (s : string) :
  PyStr.rstrip s = EmptyString -> all_space s = true.
Proof.
  induction s as [|c t IH]; simpl; [reflexivity|].
  destruct (PyStr.rstrip t) eqn:Et.
  - destruct (PyStr.isspace c); [intros _; simpl; now apply IH | discriminate].
  - discriminate.
Qed.

Lemma lstrip_all_space (s : string) :
  all_space (PyStr.lstrip s) = true -> all_space s = true.
Proof.
  induction s as [|c t IH]; simpl; [reflexivity|].
  destruct (PyStr.isspace c) eqn:Ec; simpl.
  - exact IH.
  - rewrite Ec. simpl. intros H; exact H.
Qed.

Lemma strip_empty_all_space (s : string) :
  PyStr.truthy (PyStr.strip s) = false -> all_space s = true.
Proof.
  unfold PyStr.strip. intros H.
  apply lstrip_all_space, rstrip_empty_all_space.
  destruct (PyStr.rstrip (PyStr.lstrip s)); [reflexivity | discriminate].
Qed.

Lemma all_space_strip_empty (s : string) :
  all_space s = true -> PyStr.strip s = EmptyString.
Proof.
  unfold PyStr.strip.
  induction s as [|c t IH]; simpl; [reflexivity|].
  intros H. apply andb_prop in H as [Hc Ht]. rewrite Hc. now apply IH.
Qed.

Lemma contains_open_entry_not_all_space (s : string) :
  PyStr.contains "Open Entry" s = true -> all_space s = false.
Proof.
  induction s as [|c t IH].
  - simpl. discriminate.
  - intros H. cbn [PyStr.contains] in H. apply orb_prop in H as [H|H].
    + cbn [String.prefix] in H.
      destruct (Ascii.ascii_dec "O"%char c) as [<-|]; [reflexivity | discriminate].
    + cbn [all_space]. rewrite (IH H). apply andb_false_r.
Qed.

(** The guard of the "Open Entry" branch is false for every string. *)
Lemma open_entry_guard_false (s : string) :
  PyStr.contains "Open Entry" s && negb (PyStr.truthy (PyStr.strip s)) = false.
Proof.
  destruct (PyStr.contains "Open Entry" s) eqn:Hc; [|reflexivity].
  destruct (PyStr.truthy (PyStr.strip s)) eqn:Ht; [reflexivity|].
  apply strip_empty_all_space in Ht.
  apply contains_open_entry_not_all_space in Hc. congruence.
Qed.

Lemma check_open_entry_id (i : Z) (row : MachineryRows.entry) (st : MachineryRows.vstate) :
  MachineryRows.check_open_entry i row st = st.
Proof.
  unfold MachineryRows.check_open_entry. now rewrite open_entry_guard_false.
Qed.

Lemma validate_loop_without_open_entry (rows : list MachineryRows.entry) :
  forall i st,
    MachineryRows.validate_loop i rows st
    = fold_left (fun st row => MachineryRows.validate_row_without_open_entry row st) rows st.
Proof.
  induction rows as [|row rest IH]; intros i st; simpl; [reflexivity|].
  rewrite IH. unfold MachineryRows.validate_row. now rewrite check_open_entry_id.
Qed.

(** ** Machinery validation *)

Ltac unfold_checks :=
  unfold row_errors, row_ok, MachineryRows.validate_row_without_open_entry,
    MachineryRows.check_name_length, MachineryRows.check_has_item,
    MachineryRows.check_quantity, MachineryRows.qty_types, MachineryRows.fail,
    MachineryRows.get; cbn [fold_left fst snd].

(** A row adds its own errors to the log and clears the flag when it has any,
    whatever the rows before it did. *)
Lemma validate_row_decompose (row : MachineryRows.entry) (st : MachineryRows.vstate) :
  MachineryRows.validate_row_without_open_entry row st
  = (fst st && row_ok row, snd st ++ row_errors row).
Proof.
  destruct st as [b log]. unfold_checks.
  destruct (PyStr.len (MachineryRows.equipment_name row) >? 100);
    destruct (String.eqb (MachineryRows.has_item row) "Y");
    try destruct (MachineryRows.quantity_new row + MachineryRows.quantity_used row
                  + MachineryRows.quantity_out_of_service row =? 0);
    destruct ((MachineryRows.quantity_new row <? 0) || (MachineryRows.quantity_new row >? 20));
    destruct ((MachineryRows.quantity_used row <? 0) || (MachineryRows.quantity_used row >? 20));
    destruct ((MachineryRows.quantity_out_of_service row <? 0)
              || (MachineryRows.quantity_out_of_service row >? 20));
    cbn [fst snd app andb]; rewrite <- ?app_assoc; cbn [app];
    rewrite ?app_nil_r, ?andb_true_r, ?andb_false_r; reflexivity.
Qed.

Lemma row_ok_errors (row : MachineryRows.entry) :
  row_ok row = match row_errors row with [] => true | _ => false end.
Proof.
  unfold_checks.
  destruct (PyStr.len (MachineryRows.equipment_name row) >? 100);
    destruct (String.eqb (MachineryRows.has_item row) "Y");
    try destruct (MachineryRows.quantity_new row + MachineryRows.quantity_used row
                  + MachineryRows.quantity_out_of_service row =? 0);
    destruct ((MachineryRows.quantity_new row <? 0) || (MachineryRows.quantity_new row >? 20));
    destruct ((MachineryRows.quantity_used row <? 0) || (MachineryRows.quantity_used row >? 20));
    destruct ((MachineryRows.quantity_out_of_service row <? 0)
              || (MachineryRows.quantity_out_of_service row >? 20));
    reflexivity.
Qed.

Lemma fold_validate_decompose (rows : list MachineryRows.entry) :
  forall st,
    fold_left (fun st row => MachineryRows.validate_row_without_open_entry row st) rows st
    = (fst st && forallb row_ok rows, snd st ++ flat_map row_errors rows).
Proof.
  induction rows as [|row rest IH]; intros st; cbn [fold_left forallb flat_map].
  - destruct st; cbn. now rewrite andb_true_r, app_nil_r.
  - rewrite IH, validate_row_decompose. cbn [fst snd].
    now rewrite andb_assoc, app_assoc.
Qed.

(** The validator's flag and log, row by row. *)
Lemma validate_machinery_data_rows (rows : list MachineryRows.entry) :
  MachineryRows.validate_machinery_data rows
  = (forallb row_ok rows, flat_map row_errors rows).
Proof.
  unfold MachineryRows.validate_machinery_data.
  now rewrite validate_loop_without_open_entry, fold_validate_decompose.
Qed.

Lemma row_with_error_fails (rows : list MachineryRows.entry) (row : MachineryRows.entry)
    (e : ui_event) :
  In row rows -> In e (row_errors row) ->
  fst (MachineryRows.validate_machinery_data rows) = false
  /\ In e (snd (MachineryRows.validate_machinery_data rows)).
Proof.
  intros Hin He. rewrite validate_machinery_data_rows. cbn [fst snd]. split.
  - destruct (forallb row_ok rows) eqn:Hall; [|reflexivity].
    rewrite forallb_forall in Hall. specialize (Hall row Hin).
    rewrite row_ok_errors in Hall. destruct (row_errors row); [destruct He | discriminate].
  - apply in_flat_map. now exists row.
Qed.

Lemma out_of_range_error (row : MachineryRows.entry) (q : MachineryRows.qty_type) :
  ~ MachineryRows.in_range (MachineryRows.get row q) ->
  In (StError (MsgQuantityRange (MachineryRows.equipment_name row) (MachineryRows.qty_label q)))
     (row_errors row).
Proof.
  unfold MachineryRows.in_range. intros Hq.
  assert (Hb : (MachineryRows.get row q <? 0) || (MachineryRows.get row q >? 20) = true).
  { apply orb_true_iff. rewrite Z.ltb_lt, Z.gtb_gt. lia. }
  unfold_checks.
  destruct (PyStr.len (MachineryRows.equipment_name row) >? 100);
    destruct (String.eqb (MachineryRows.has_item row) "Y");
    try destruct (MachineryRows.quantity_new row + MachineryRows.quantity_used row
                  + MachineryRows.quantity_out_of_service row =? 0);
    destruct q; cbn [MachineryRows.get] in Hb; rewrite ?Hb;
    repeat match goal with
           | |- context [if ?c then _ else _] => destruct c
           end;
    cbn [snd app MachineryRows.qty_label In]; rewrite ?in_app_iff; cbn [In]; tauto.
Qed.

Lemma range_error_out_of_range (row : MachineryRows.entry) (name label : string) :
  In (StError (MsgQuantityRange name label)) (row_errors row) ->
  exists q, name = MachineryRows.equipment_name row
            /\ label = MachineryRows.qty_label q
            /\ ~ MachineryRows.in_range (MachineryRows.get row q).
Proof.
  unfold MachineryRows.in_range. unfold_checks.
  destruct (PyStr.len (MachineryRows.equipment_name row) >? 100);
    destruct (String.eqb (MachineryRows.has_item row) "Y");
    try destruct (MachineryRows.quantity_new row + MachineryRows.quantity_used row
                  + MachineryRows.quantity_out_of_service row =? 0);
    destruct ((MachineryRows.quantity_new row <? 0) || (MachineryRows.quantity_new row >? 20)) eqn:E1;
    destruct ((MachineryRows.quantity_used row <? 0) || (MachineryRows.quantity_used row >? 20)) eqn:E2;
    destruct ((MachineryRows.quantity_out_of_service row <? 0)
              || (MachineryRows.quantity_out_of_service row >? 20)) eqn:E3;
    cbn [snd app In]; intros H;
    repeat match goal with
           | H : _ \/ _ |- _ => destruct H as [H|H]
           | H : False |- _ => destruct H
           | H : StError _ = StError _ |- _ => inversion H; clear H; subst
           end.
  all: try match goal with
       | |- exists q, _ /\ "quantity new" = _ /\ _ =>
           exists MachineryRows.Quantity_new
       | |- exists q, _ /\ "quantity used" = _ /\ _ =>
           exists MachineryRows.Quantity_used
       | |- exists q, _ /\ "quantity out of service" = _ /\ _ =>
           exists MachineryRows.Quantity_out_of_service
       end.
  all: cbn [MachineryRows.get MachineryRows.qty_label];
    repeat split;
    match goal with
    | E : (_ <? 0) || (_ >? 20) = true |- ~ _ =>
        apply orb_true_iff in E; rewrite Z.ltb_lt, Z.gtb_gt in E; lia
    end.
Qed.

Lemma enter_quantities_error (row : MachineryRows.entry) :
  MachineryRows.has_item row = "Y" ->
  MachineryRows.quantity_new row + MachineryRows.quantity_used row
    + MachineryRows.quantity_out_of_service row = 0 ->
  In (StError (MsgEnterQuantities (MachineryRows.equipment_name row))) (row_errors row).
Proof.
  intros Hy H0. unfold_checks. rewrite Hy, H0. cbn [String.eqb Ascii.eqb Bool.eqb Z.eqb andb].
  repeat match goal with
         | |- context [if ?c then _ else _] => destruct c
         end;
    cbn [snd app In]; rewrite ?in_app_iff; cbn [In]; tauto.
Qed.

(** When validation fails the submit handler shows the errors and makes no
    database call at all. *)
Lemma on_submit_invalid (rows : list MachineryRows.entry) (f : faults) (db : Db.database) :
  fst (MachineryRows.validate_machinery_data rows) = false ->
  run (AgriculturalMachinery.on_submit rows) f db
  = (Val tt, mkWorld db None (snd (MachineryRows.validate_machinery_data rows)) [] 0%nat).
Proof.
  intros H. unfold run, AgriculturalMachinery.on_submit, bind, AgriculturalMachinery.validate.
  cbn. rewrite H. reflexivity.
Qed.

(** For a holder without rows the loader returns the empty list, whether its
    database calls go through or not. *)
Lemma load_first_time (h : Z) (f : faults) (db : Db.database) :
  filter (fun r => Db.m_holder_id r =? h) (Db.agricultural_machinery db) = [] ->
  result (run (AgriculturalMachinery.load_existing_data h) f db) = Val [].
Proof.
  intros H.
  unfold result, run, AgriculturalMachinery.load_existing_data,
    AgriculturalMachinery.get_connection, bind, try_except, try_finally, connect,
    execute, db_call, close, st, ret, AgriculturalMachinery.select_rows.
  cbn. destruct (f 0%nat); cbn; [reflexivity|].
  destruct (f 1%nat); cbn; [reflexivity|].
  rewrite H. reflexivity.
Qed.

(** C10. In [validate_machinery_data] the branch reporting "Please specify the
    equipment type for Open Entry" never fires: no equipment name both
    contains "Open Entry" and strips to the empty string, so the message is
    never shown and the validator computes the same flag and log as the loop
    without that branch. *)
Theorem open_entry_branch_unreachable :
  (forall s : string,
      PyStr.contains "Open Entry" s && negb (PyStr.truthy (PyStr.strip s)) = false)
  /\ (forall rows : list MachineryRows.entry,
         MachineryRows.validate_machinery_data rows
         = MachineryRows.validate_without_open_entry rows)
  /\ (forall (rows : list MachineryRows.entry) (n : Z),
         ~ In (StError (MsgOpenEntryUnspecified n))
              (snd (MachineryRows.validate_machinery_data rows))).
Proof.
  split; [exact open_entry_guard_false|]. split.
  - intros rows. unfold MachineryRows.validate_machinery_data,
      MachineryRows.validate_without_open_entry.
    apply validate_loop_without_open_entry.
  - intros rows n. rewrite validate_machinery_data_rows. cbn [snd].
    rewrite in_flat_map. intros [row [_ H]]. revert H. unfold_checks.
    repeat match goal with
           | |- context [if ?c then _ else _] => destruct c
           end;
      cbn [snd app In]; intros H;
      repeat match goal with
             | H : _ \/ _ |- _ => destruct H as [H|H]
             | H : False |- _ => destruct H
             | H : StError _ = StError _ |- _ => discriminate H
             end.
Qed.

(** C4. A quantity field outside [0, 20] in any row makes
    [validate_machinery_data] return False with the range error shown, and the
    submit handler then makes no database call and leaves the store as it
    was; conversely a range error is only ever reported for a row and field
    whose value is outside [0, 20]. *)
Theorem quantity_range_enforced (rows : list MachineryRows.entry) :
  (forall row q,
      In row rows -> ~ MachineryRows.in_range (MachineryRows.get row q) ->
      fst (MachineryRows.validate_machinery_data rows) = false
      /\ In (StError (MsgQuantityRange (MachineryRows.equipment_name row)
                                       (MachineryRows.qty_label q)))
            (snd (MachineryRows.validate_machinery_data rows))
      /\ forall f db,
           calls (run (AgriculturalMachinery.on_submit rows) f db) = []
           /\ persisted (run (AgriculturalMachinery.on_submit rows) f db) = db)
  /\ (forall name label,
         In (StError (MsgQuantityRange name label))
            (snd (MachineryRows.validate_machinery_data rows)) ->
         exists row q,
           In row rows
           /\ name = MachineryRows.equipment_name row
           /\ label = MachineryRows.qty_label q
           /\ ~ MachineryRows.in_range (MachineryRows.get row q)).
Proof.
  split.
  - intros row q Hin Hq.
    destruct (row_with_error_fails rows row _ Hin (out_of_range_error row q Hq))
      as [Hf He].
    repeat split; try assumption; rewrite on_submit_invalid by exact Hf; reflexivity.
  - intros name label H. rewrite validate_machinery_data_rows in H. cbn [snd] in H.
    apply in_flat_map in H as [row [Hin H]].
    destruct (range_error_out_of_range row name label H) as [q Hq].
    exists row, q. tauto.
Qed.

(** C5. A row marked "Y" whose three quantities add up to 0 makes
    [validate_machinery_data] return False and report "please enter
    quantities" for it wherever the row stands in the list; the errors of the
    rows before and after it are reported as well (the loop does not stop at
    the first failure); the submit handler makes no database call, so the
    store is unchanged and a first-time holder still loads the empty list. *)
Theorem has_item_requires_quantity
    (before after : list MachineryRows.entry) (row : MachineryRows.entry)
    (Hy : MachineryRows.has_item row = "Y")
    (H0 : MachineryRows.quantity_new row + MachineryRows.quantity_used row
          + MachineryRows.quantity_out_of_service row = 0) :
  let rows := before ++ row :: after in
  fst (MachineryRows.validate_machinery_data rows) = false
  /\ In (StError (MsgEnterQuantities (MachineryRows.equipment_name row)))
        (snd (MachineryRows.validate_machinery_data rows))
  /\ (forall e,
         In e (snd (MachineryRows.validate_machinery_data before))
         \/ In e (snd (MachineryRows.validate_machinery_data after)) ->
         In e (snd (MachineryRows.validate_machinery_data rows)))
  /\ forall f db,
       calls (run (AgriculturalMachinery.on_submit rows) f db) = []
       /\ persisted (run (AgriculturalMachinery.on_submit rows) f db) = db
       /\ forall h f',
            filter (fun r => Db.m_holder_id r =? h) (Db.agricultural_machinery db) = [] ->
            result (run (AgriculturalMachinery.load_existing_data h) f'
                        (persisted (run (AgriculturalMachinery.on_submit rows) f db)))
            = Val [].
Proof.
  intros rows.
  assert (Hin : In row rows) by (apply in_elt).
  destruct (row_with_error_fails rows row _ Hin (enter_quantities_error row Hy H0))
    as [Hf He].
  repeat split; try assumption.
  - intros e. rewrite !validate_machinery_data_rows. cbn [snd]. unfold rows.
    rewrite flat_map_app. cbn [flat_map]. rewrite !in_app_iff. tauto.
  - rewrite on_submit_invalid by exact Hf. reflexivity.
  - rewrite on_submit_invalid by exact Hf. reflexivity.
  - intros h f' Hnone. rewrite on_submit_invalid by exact Hf.
    now apply load_first_time.
Qed.

(** ** Parcel validation *)

Lemma Qlt_bool_true (x y : Q) : ParcelRows.Qlt_bool x y = true <-> (x < y)%Q.
Proof.
  unfold ParcelRows.Qlt_bool. rewrite negb_true_iff. split.
  - intros H. apply Qnot_le_lt. intros Hle. apply Qle_bool_iff in Hle. congruence.
  - intros H. destruct (Qle_bool y x) eqn:E; [|reflexivity].
    apply Qle_bool_iff in E. exfalso. exact (Qlt_not_le _ _ H E).
Qed.

Lemma Qlt_bool_false (x y : Q) : ParcelRows.Qlt_bool x y = false <-> (y <= x)%Q.
Proof.
  unfold ParcelRows.Qlt_bool. rewrite negb_false_iff. apply Qle_bool_iff.
Qed.

Ltac unfold_parcel :=
  unfold parcel_errors, parcel_warnings, ParcelRows.validate_parcel,
    ParcelRows.append, ParcelRows.warn; cbn [fst snd].

Lemma validate_parcel_decompose (row : ParcelRows.frame_row) (st : ParcelRows.pstate) :
  ParcelRows.validate_parcel row st
  = (fst st ++ parcel_errors row, snd st ++ parcel_warnings row).
Proof.
  destruct st as [errs warns]. unfold_parcel.
  repeat match goal with
         | |- context [if ?c then _ else _] => destruct c; cbn [fst snd]
         end;
    rewrite <- ?app_assoc; cbn [app]; rewrite ?app_nil_r; reflexivity.
Qed.

Lemma validate_parcels_rows (rows : list ParcelRows.frame_row) :
  ParcelRows.validate_parcels rows
  = (flat_map parcel_errors rows, flat_map parcel_warnings rows).
Proof.
  unfold ParcelRows.validate_parcels.
  enough (G : forall st,
             fold_left (fun st row => ParcelRows.validate_parcel row st) rows st
             = (fst st ++ flat_map parcel_errors rows,
                snd st ++ flat_map parcel_warnings rows)) by (rewrite G; reflexivity).
  induction rows as [|row rest IH]; intros st; cbn [fold_left flat_map].
  - destruct st; cbn. now rewrite !app_nil_r.
  - rewrite IH, validate_parcel_decompose. cbn [fst snd]. now rewrite !app_assoc.
Qed.

Lemma ltb_lt (x y : PyNum.number) : PyNum.ltb x y = true <-> PyNum.lt x y.
Proof.
  destruct x as [a|], y as [b|]; cbn [PyNum.ltb PyNum.lt];
    try (split; [discriminate | contradiction]).
  apply Qlt_bool_true.
Qed.

Lemma ltb_not_lt (x y : PyNum.number) : PyNum.ltb x y = false <-> ~ PyNum.lt x y.
Proof.
  rewrite <- ltb_lt. destruct (PyNum.ltb x y); split; congruence.
Qed.

Lemma developed_excess_error (row : ParcelRows.frame_row) :
  PyNum.lt (ParcelRows.Total_Acres row) (ParcelRows.Developed_Acres row) ->
  In (ParcelRows.DevelopedExceedsTotal (ParcelRows.Parcel_No row)) (parcel_errors row).
Proof.
  intros H. apply ltb_lt in H. unfold_parcel. rewrite H.
  repeat match goal with
         | |- context [if ?c then _ else _] => destruct c; cbn [fst snd]
         end;
    rewrite ?in_app_iff; cbn [In]; tauto.
Qed.

Lemma sound_parcel_no_error (row : ParcelRows.frame_row) :
  ~ PyNum.lt (ParcelRows.Total_Acres row) (PyNum.Fin 0) ->
  ~ PyNum.lt (ParcelRows.Developed_Acres row) (PyNum.Fin 0) ->
  ~ PyNum.lt (ParcelRows.Total_Acres row) (ParcelRows.Developed_Acres row) ->
  ~ PyNum.lt (ParcelRows.Irrigated_Area row) (PyNum.Fin 0) ->
  parcel_errors row = [].
Proof.
  intros Ht Hd Hdt Hi.
  apply ltb_not_lt in Ht, Hd, Hdt, Hi.
  unfold_parcel. rewrite Ht, Hd, Hdt, Hi. cbn [fst snd].
  match goal with
  | |- context [if ?c then _ else _] => destruct c; reflexivity
  end.
Qed.

Lemma irrigated_excess_warning (row : ParcelRows.frame_row) :
  PyNum.lt (ParcelRows.Total_Acres row) (ParcelRows.Irrigated_Area row) ->
  In (StWarning (MsgIrrigatedExceedsTotal (ParcelRows.Parcel_No row)))
     (parcel_warnings row).
Proof.
  intros H. apply ltb_lt in H. unfold_parcel. rewrite H.
  repeat match goal with
         | |- context [if ?c then _ else _] => destruct c; cbn [fst snd]
         end;
    rewrite ?in_app_iff; cbn [In]; tauto.
Qed.

(** C3. For every parcel row of the frame, [developed_acres > total_acres]
    puts "Developed Acres cannot exceed Total Acres" into the list
    [validate_parcels] returns, so the form is not saved; and when no row
    has a total, developed or irrigated area below zero or a developed area
    above the total, the returned list is empty whatever the irrigated areas
    are: a row whose irrigated area exceeds its total acres only gets the
    warning.  The rows may have empty (NaN) cells, with which no comparison
    holds. *)
Theorem developed_hard_irrigated_soft (rows : list ParcelRows.frame_row) :
  (forall row,
      In row rows ->
      PyNum.lt (ParcelRows.Total_Acres row) (ParcelRows.Developed_Acres row) ->
      In (ParcelRows.DevelopedExceedsTotal (ParcelRows.Parcel_No row))
         (fst (ParcelRows.validate_parcels rows))
      /\ ParcelRows.accepted rows = false)
  /\ ((forall row,
          In row rows ->
          ~ PyNum.lt (ParcelRows.Total_Acres row) (PyNum.Fin 0)
          /\ ~ PyNum.lt (ParcelRows.Developed_Acres row) (PyNum.Fin 0)
          /\ ~ PyNum.lt (ParcelRows.Total_Acres row) (ParcelRows.Developed_Acres row)
          /\ ~ PyNum.lt (ParcelRows.Irrigated_Area row) (PyNum.Fin 0)) ->
      fst (ParcelRows.validate_parcels rows) = []
      /\ ParcelRows.accepted rows = true
      /\ forall row,
           In row rows ->
           PyNum.lt (ParcelRows.Total_Acres row) (ParcelRows.Irrigated_Area row) ->
           In (StWarning (MsgIrrigatedExceedsTotal (ParcelRows.Parcel_No row)))
              (snd (ParcelRows.validate_parcels rows))).
Proof.
  unfold ParcelRows.accepted. rewrite validate_parcels_rows. cbn [fst snd]. split.
  - intros row Hin Hdev.
    assert (H : In (ParcelRows.DevelopedExceedsTotal (ParcelRows.Parcel_No row))
                   (flat_map parcel_errors rows)).
    { apply in_flat_map. exists row. split; [exact Hin | now apply developed_excess_error]. }
    split; [exact H|]. destruct (flat_map parcel_errors rows); [destruct H | reflexivity].
  - intros Hsound.
    assert (H : flat_map parcel_errors rows = []).
    { induction rows as [|r rest IH]; cbn [flat_map]; [reflexivity|].
      destruct (Hsound r (or_introl eq_refl)) as (Ht & Hd & Hdt & Hi).
      rewrite (sound_parcel_no_error r Ht Hd Hdt Hi). cbn [app].
      apply IH. intros row Hin. apply Hsound. now right. }
    rewrite H. repeat split.
    intros row Hin Hirr. apply in_flat_map. exists row.
    split; [exact Hin | now apply irrigated_excess_warning].
Qed.

(** On rows without empty cells the conditions of C3 are the usual order of
    the rationals. *)
Lemma lt_Fin (a b : Q) : PyNum.lt (PyNum.Fin a) (PyNum.Fin b) <-> (a < b)%Q.
Proof. reflexivity. Qed.

Lemma not_lt_Fin (a b : Q) : ~ PyNum.lt (PyNum.Fin a) (PyNum.Fin b) <-> (b <= a)%Q.
Proof.
  cbn [PyNum.lt]. split; [apply Qnot_lt_le | intros H Hlt; exact (Qlt_not_le _ _ Hlt H)].
Qed.

(** ** Running page code: case analysis over the fault plan *)

Ltac unfold_page :=
  unfold result, persisted, calls, shown, run,
    AgriculturalMachinery.save_to_db, AgriculturalMachinery.load_existing_data,
    AgriculturalMachinery.get_connection,
    LandUse.save_land_use_to_db, LandUse.get_connection, LandUse.if_conn,
    MainSurvey.mark_section_complete, MainSurvey.get_completed_sections,
    HoldingLabour.save_and_next, HoldingLabour.mark_section_complete,
    HoldingLabourPermanent.mark_section_complete,
    engine_begin, engine_connect, execute_values,
    bind, try_except, try_finally, connect, commit, rollback, close,
    execute, db_call, st, ret, raise.

Ltac page_cbn :=
  cbn -[filter Z.gtb AgriculturalMachinery.number_rows LandUse.add_parcels
        LandUse.main_columns Db.integer nth_error List.length existsb find].

Ltac page_step :=
  match goal with
  | |- context [match ?f ?k with Some _ => _ | None => _ end] =>
      destruct (f k) eqn:?
  | |- context [match ?e with Psycopg2Error _ => _ | OtherError _ => _ end] =>
      destruct e
  | |- context [match filter ?p ?l with [] => _ | _ :: _ => _ end] =>
      destruct (filter p l) eqn:?
  | |- context [match map ?g ?l with [] => _ | _ :: _ => _ end] =>
      destruct l eqn:?
  | |- context [match find ?p ?l with Some _ => _ | None => _ end] =>
      destruct (find p l) eqn:?
  | |- context [match LandUse.add_parcels ?a ?b ?c with inl _ => _ | inr _ => _ end] =>
      destruct (LandUse.add_parcels a b c) as [?|[? ?]] eqn:?
  | |- context [match Db.integer ?n with inl _ => _ | inr _ => _ end] =>
      destruct (Db.integer n) eqn:?
  | |- context [match LandUse.main_columns ?d with inl _ => _ | inr _ => _ end] =>
      destruct (LandUse.main_columns d) as [?|[[[[? ?] ?] ?] ?]] eqn:?
  | |- context [if ?c then _ else _] => destruct c eqn:?
  end; page_cbn.

(** Unfolds the page code and the statements' meanings [sems], then splits on
    every fault and every test on the store. *)
Tactic Notation "page_cases" "with" tactic(sems) :=
  unfold_page; sems; page_cbn; repeat page_step.

(** Picks the call that raised among the first few. *)
Ltac raised_at k := exists k; split; [cbn; lia | congruence].

Ltac find_raised :=
  first [ raised_at 0%nat | raised_at 1%nat | raised_at 2%nat | raised_at 3%nat
        | raised_at 4%nat | raised_at 5%nat | raised_at 6%nat | raised_at 7%nat
        | raised_at 8%nat | raised_at 9%nat ].

(** Some error message is among the messages shown. *)
Ltac error_shown :=
  eexists; cbn; repeat first [left; reflexivity | right].

(** Only the connection was attempted, or a ROLLBACK was sent. *)
Ltac rolled_back :=
  first [ left; reflexivity
        | right; cbn; repeat first [left; reflexivity | right] ].

Ltac none_raised :=
  let k := fresh "k" in
  let Hk := fresh "Hk" in
  let Hf := fresh "Hf" in
  intros [k [Hk Hf]]; cbn in Hk;
  do 10 (try (destruct k as [|k]; [congruence|])); lia.

Ltac rollback_raised :=
  let H := fresh "H" in
  intros H;
  first [ pose proof (H 1%nat eq_refl) | pose proof (H 2%nat eq_refl)
        | pose proof (H 3%nat eq_refl) | pose proof (H 4%nat eq_refl)
        | pose proof (H 5%nat eq_refl) | pose proof (H 6%nat eq_refl) ];
  congruence.

Lemma no_prior_rows_filter {A : Type} (p : A -> bool) (l : list A) :
  (Z.of_nat (List.length (filter p l)) >? 0) = false ->
  filter (fun x => negb (p x)) l = l.
Proof.
  intros H.
  assert (E : filter p l = []).
  { destruct (filter p l); [reflexivity|]. cbn [List.length] in H.
    rewrite Z.gtb_ltb, Z.ltb_ge in H. lia. }
  clear H. induction l as [|x t IH]; cbn [filter] in *; [reflexivity|].
  destruct (p x); [discriminate|]. cbn [negb]. f_equal. exact (IH E).
Qed.

(** Every way a save of a non-empty row list can go. *)
Lemma save_to_db_outcomes (first : MachineryRows.entry) (rest : list MachineryRows.entry)
    (f : faults) (db : Db.database) :
  let rows := first :: rest in
  let r := run (AgriculturalMachinery.save_to_db rows) f db in
  (result r = Val true
   /\ persisted r = replaced rows (MachineryRows.holder_id first) db
   /\ ~ some_call_raised f r)
  \/ (persisted r = db
      /\ some_call_raised f r
      /\ (result r = Val false /\ (exists m, In (StError m) (shown r))
          \/ (exists e, result r = Exc e) /\ ~ rollback_went_through f r)
      /\ (calls r = ["CONNECT"] \/ In "ROLLBACK" (calls r))).
Proof.
  intros rows r. subst rows r.
  unfold some_call_raised, rollback_went_through, replaced.
  page_cases with idtac.
  all: try (right; split; [reflexivity|]; split; [find_raised|];
            split; [|rolled_back];
            first [ left; split; [reflexivity | error_shown]
                  | right; split; [eexists; reflexivity | rollback_raised] ]).
  - left. split; [reflexivity|]. split; [|none_raised].
    unfold Db.with_machinery. cbn. rewrite length_map. reflexivity.
  - left. split; [reflexivity|]. split; [|none_raised].
    unfold Db.with_machinery. cbn. rewrite length_map.
    rewrite no_prior_rows_filter by eassumption. reflexivity.
Qed.

(** Every way a land-use save can go: either all of it is committed and no
    call raised, or nothing is. *)
Lemma save_land_use_to_db_outcomes (d : LandUse.land_use_data) (h : Z)
    (f : faults) (db : Db.database) :
  let r := run (LandUse.save_land_use_to_db d h) f db in
  (result r = Val true /\ ~ some_call_raised f r)
  \/ (persisted r = db
      /\ (result r = Val false /\ (exists m, In (StError m) (shown r))
          \/ (exists e, result r = Exc e) /\ ~ rollback_went_through f r)
      /\ (calls r = ["CONNECT"] \/ In "ROLLBACK" (calls r))).
Proof.
  intros r. subst r. unfold some_call_raised, rollback_went_through.
  page_cases with
    (unfold LandUse.select_id, LandUse.update_land_use, LandUse.delete_parcels,
       LandUse.insert_land_use, LandUse.insert_parcels).
  all: try (right; split; [reflexivity|];
            split; [|rolled_back];
            first [ left; split; [reflexivity | error_shown]
                  | right; split; [eexists; reflexivity | rollback_raised] ]).
  all: left; split; [reflexivity | none_raised].
Qed.

(** The three [mark_section_complete] functions run without a handler: the
    first call that raises ends them with an exception and nothing is
    committed. *)
Lemma main_mark_outcomes (h s : Z) (f : faults) (db : Db.database) :
  let r := run (MainSurvey.mark_section_complete h s) f db in
  (result r = Val tt /\ ~ some_call_raised f r)
  \/ ((exists e, result r = Exc e) /\ persisted r = db /\ some_call_raised f r).
Proof.
  intros r. subst r. unfold some_call_raised.
  page_cases with
    (unfold ProgressTable.select_by_section_no, ProgressTable.set_completed,
       ProgressTable.insert_section_no).
  all: try (right; split; [eexists; reflexivity|]; split; [reflexivity | find_raised]).
  all: left; split; [reflexivity | none_raised].
Qed.

Lemma labour_mark_outcomes (h : Z) (f : faults) (db : Db.database) :
  let r := run (HoldingLabour.mark_section_complete h) f db in
  (result r = Val tt /\ ~ some_call_raised f r)
  \/ ((exists e, result r = Exc e) /\ persisted r = db /\ some_call_raised f r).
Proof.
  intros r. subst r. unfold some_call_raised.
  page_cases with
    (unfold ProgressTable.select_by_section_id, ProgressTable.set_completed,
       ProgressTable.insert_section_id).
  all: try (right; split; [eexists; reflexivity|]; split; [reflexivity | find_raised]).
  all: left; split; [reflexivity | none_raised].
Qed.

Lemma permanent_mark_outcomes (h : Z) (f : faults) (db : Db.database) :
  let r := run (HoldingLabourPermanent.mark_section_complete h) f db in
  (result r = Val tt /\ ~ some_call_raised f r)
  \/ ((exists e, result r = Exc e) /\ persisted r = db /\ some_call_raised f r).
Proof.
  intros r. subst r. unfold some_call_raised.
  page_cases with
    (unfold ProgressTable.select_by_section_id, ProgressTable.set_completed,
       ProgressTable.insert_section_id).
  all: try (right; split; [eexists; reflexivity|]; split; [reflexivity | find_raised]).
  all: left; split; [reflexivity | none_raised].
Qed.

(** The "Save & Next" block of the labour form: its two transactions run
    without a handler as well. *)
Lemma save_and_next_outcomes (h : Z) (questions : list Db.labour_row) (cur : Z)
    (q : Db.labour_row) (male female total : option Z) (resp : option string)
    (f : faults) (db : Db.database) :
  let r := run (HoldingLabour.save_and_next h questions cur q male female total resp) f db in
  (result r = Val tt /\ ~ some_call_raised f r)
  \/ ((exists e, result r = Exc e) /\ some_call_raised f r).
Proof.
  intros r. subst r. unfold some_call_raised.
  page_cases with
    (unfold ProgressTable.select_by_section_id, ProgressTable.set_completed,
       ProgressTable.insert_section_id, HoldingLabour.select_answer,
       HoldingLabour.update_answer, HoldingLabour.insert_answer).
  all: try (right; split; [eexists; reflexivity | find_raised]).
  all: left; split; [reflexivity | none_raised].
Qed.

(** ** Saving: empty input, atomicity, exceptions *)

(** C8. [save_to_db] on an empty row list makes no database call (no
    connection, no DELETE, no INSERT), leaves the store as it was, returns
    False and reports "No data to save." as a warning, not as an error. *)
Theorem empty_save_is_noop (f : faults) (db : Db.database) :
  let r := run (AgriculturalMachinery.save_to_db []) f db in
  result r = Val false
  /\ calls r = []
  /\ persisted r = db
  /\ shown r = [StWarning MsgNoDataToSave].
Proof.
  cbv zeta. repeat split.
Qed.

(** C6. Whenever a database call of [save_to_db] or [save_land_use_to_db]
    raises, and more generally whenever the save does not return True, the
    committed state is exactly the state before the save: the earlier rows
    are not lost and none of the new rows is stored; unless the failure was
    the connection attempt itself, a ROLLBACK has been sent.  When
    [save_to_db] returns True the holder's rows are the complete new set. *)
Theorem save_is_atomic (rows : list MachineryRows.entry) (d : LandUse.land_use_data)
    (h : Z) (f : faults) (db : Db.database) :
  let rm := run (AgriculturalMachinery.save_to_db rows) f db in
  let rl := run (LandUse.save_land_use_to_db d h) f db in
  (some_call_raised f rm ->
   persisted rm = db /\ result rm <> Val true
   /\ (calls rm = ["CONNECT"] \/ In "ROLLBACK" (calls rm)))
  /\ (result rm <> Val true -> persisted rm = db)
  /\ (result rm = Val true ->
      exists first, hd_error rows = Some first
                    /\ persisted rm = replaced rows (MachineryRows.holder_id first) db)
  /\ (some_call_raised f rl ->
      persisted rl = db /\ result rl <> Val true
      /\ (calls rl = ["CONNECT"] \/ In "ROLLBACK" (calls rl)))
  /\ (result rl <> Val true -> persisted rl = db).
Proof.
  intros rm rl.
  assert (Hm : (exists first, hd_error rows = Some first
                  /\ result rm = Val true
                  /\ persisted rm = replaced rows (MachineryRows.holder_id first) db
                  /\ ~ some_call_raised f rm)
               \/ (persisted rm = db /\ result rm <> Val true
                   /\ (some_call_raised f rm ->
                       calls rm = ["CONNECT"] \/ In "ROLLBACK" (calls rm)))).
  { subst rm. destruct rows as [|first rest].
    - right. split; [reflexivity|]. split; [discriminate|].
      intros [k [Hk _]]. cbn in Hk. lia.
    - destruct (save_to_db_outcomes first rest f db)
        as [(Hr & Hp & Hn)|(Hp & _ & Hr & Hrb)].
      + left. exists first. repeat split; assumption.
      + right. split; [exact Hp|]. split; [|intros _; exact Hrb].
        destruct Hr as [[Hr _]|[[e Hr] _]]; rewrite Hr; discriminate. }
  assert (Hl : (result rl = Val true /\ ~ some_call_raised f rl)
               \/ (persisted rl = db /\ result rl <> Val true
                   /\ (calls rl = ["CONNECT"] \/ In "ROLLBACK" (calls rl)))).
  { subst rl. destruct (save_land_use_to_db_outcomes d h f db) as [H|(Hp & Hr & Hrb)].
    - left. exact H.
    - right. split; [exact Hp|]. split; [|exact Hrb].
      destruct Hr as [[Hr _]|[[e Hr] _]]; rewrite Hr; discriminate. }
  split; [|split; [|split; [|split]]].
  - intros Hs. destruct Hm as [(first & _ & _ & _ & Hn)|(Hp & Hr & Hrb)];
      [contradiction | auto].
  - intros Hr. destruct Hm as [(first & _ & Ht & _)|[Hp _]]; [contradiction | exact Hp].
  - intros Hr. destruct Hm as [(first & Hh & _ & Hp & _)|(_ & Hn & _)]; [|contradiction].
    exists first. now split.
  - intros Hs. destruct Hl as [[_ Hn]|H]; [contradiction | exact H].
  - intros Hr. destruct Hl as [[Ht _]|[Hp _]]; [contradiction | exact Hp].
Qed.

(** A statement can also raise by itself: two parcels with the same number
    violate UNIQUE(land_use_id, parcel_no).  The UPDATE of the main record and
    the DELETE of the earlier parcels that ran before the INSERT are rolled
    back with it. *)
Example duplicate_parcel_rolls_back :
  let p := LandUse.mkParcel 1 (PyNum.Fin 5) (PyNum.Fin 2) "privately_owned"
             "temporary_crops" (PyNum.Fin 0) "regenerative" in
  let d1 := LandUse.mkLandUseData (5 # 1) (3 # 1) "For Sale Only/Commercial" 1
              "Andros" ["Open Field"] [p] in
  let d2 := LandUse.mkLandUseData (9 # 1) (4 # 1) "For Sale Only/Commercial" 2
              "Andros" ["Open Field"] [p; p] in
  let db1 := persisted (run (LandUse.save_land_use_to_db d1 42) no_faults Db.empty) in
  let r := run (LandUse.save_land_use_to_db d2 42) no_faults db1 in
  result r = Val false
  /\ persisted r = db1
  /\ List.length (Db.land_use_parcels db1) = 1%nat
  /\ calls r = ["CONNECT"; LandUse.select_id_sql; LandUse.update_sql;
                LandUse.delete_parcels_sql; LandUse.insert_parcels_sql; "ROLLBACK"].
Proof.
  cbv zeta. repeat split.
Qed.

(** So does a value its column refuses: a total area of 100000000 acres does
    not fit DECIMAL(10,2), the INSERT raises and the save returns False.  A
    value that fits is stored rounded: 5.125 acres come back as 5.13. *)
Example oversized_area_refused :
  let d := LandUse.mkLandUseData (100000000 # 1) (3 # 1) "For Sale Only/Commercial" 1
             "Andros" ["Open Field"] [] in
  let r := run (LandUse.save_land_use_to_db d 42) no_faults Db.empty in
  result r = Val false
  /\ persisted r = Db.empty
  /\ calls r = ["CONNECT"; LandUse.select_id_sql; LandUse.insert_sql; "ROLLBACK"].
Proof.
  cbv zeta. repeat split.
Qed.

Example area_stored_rounded :
  let d := LandUse.mkLandUseData (5125 # 1000) (3 # 1) "For Sale Only/Commercial" 1
             "Andros" ["Open Field"] [] in
  let r := run (LandUse.save_land_use_to_db d 42) no_faults Db.empty in
  result r = Val true
  /\ map Db.lu_total_area_acres (Db.land_use (persisted r)) = [(513 # 100)%Q].
Proof.
  cbv zeta. split; reflexivity.
Qed.

(** C7 fails as stated: [mark_section_complete] of holding_labour.py has no
    handler, so when its SELECT raises, the exception leaves the function. *)
Lemma mark_section_complete_raises :
  let r := run (HoldingLabour.mark_section_complete 7)
               (fault_at 1 (Psycopg2Error "server closed the connection"))
               Db.empty in
  result r = Exc (Psycopg2Error "server closed the connection")
  /\ ~ (exists v, result r = Val v).
Proof.
  cbv zeta. split; [reflexivity|]. intros [v H]. discriminate H.
Qed.

(** C7, amended. [save_to_db] and [save_land_use_to_db] turn every exception
    of their connection attempt, statements and commit into the return value
    False with an error message on the page, provided the rollback of the
    handler does not itself raise: they then always return a flag, and the
    flag is False with an error shown as soon as one of their database calls
    raised.  The three [mark_section_complete] functions have no handler and
    return no flag: as soon as one of their database calls raises, an
    exception leaves the function. *)
Theorem exceptions_contained_by_saves_only
    (rows : list MachineryRows.entry) (d : LandUse.land_use_data) (h s : Z)
    (f : faults) (db : Db.database) :
  let rm := run (AgriculturalMachinery.save_to_db rows) f db in
  let rl := run (LandUse.save_land_use_to_db d h) f db in
  let r1 := run (MainSurvey.mark_section_complete h s) f db in
  let r2 := run (HoldingLabour.mark_section_complete h) f db in
  let r3 := run (HoldingLabourPermanent.mark_section_complete h) f db in
  (rollback_went_through f rm ->
   (result rm = Val true
    \/ result rm = Val false
       /\ exists m, In (StWarning m) (shown rm) \/ In (StError m) (shown rm))
   /\ (some_call_raised f rm ->
       result rm = Val false /\ exists m, In (StError m) (shown rm)))
  /\ (rollback_went_through f rl ->
      (result rl = Val true
       \/ result rl = Val false /\ exists m, In (StError m) (shown rl))
      /\ (some_call_raised f rl ->
          result rl = Val false /\ exists m, In (StError m) (shown rl)))
  /\ (some_call_raised f r1 -> exists e, result r1 = Exc e)
  /\ (some_call_raised f r2 -> exists e, result r2 = Exc e)
  /\ (some_call_raised f r3 -> exists e, result r3 = Exc e).
Proof.
  cbv zeta. split; [|split; [|split; [|split]]].
  - intros Hrb. destruct rows as [|first rest].
    + split.
      * right. split; [reflexivity|]. exists MsgNoDataToSave. left. now left.
      * intros [k [Hk _]]. cbn in Hk. lia.
    + destruct (save_to_db_outcomes first rest f db)
        as [(Hr & _ & Hn)|(_ & _ & [[Hr [m Hm]]|[_ Hn]] & _)].
      * split; [now left | intros Hs; contradiction].
      * split; [right; eauto | intros _; eauto].
      * contradiction.
  - intros Hrb.
    destruct (save_land_use_to_db_outcomes d h f db)
      as [(Hr & Hn)|(_ & [[Hr Hm]|[_ Hn]] & _)].
    + split; [now left | intros Hs; contradiction].
    + split; [right; now split | intros _; now split].
    + contradiction.
  - intros Hr. destruct (main_mark_outcomes h s f db) as [[_ Hn]|[He _]];
      [contradiction | exact He].
  - intros Hr. destruct (labour_mark_outcomes h f db) as [[_ Hn]|[He _]];
      [contradiction | exact He].
  - intros Hr. destruct (permanent_mark_outcomes h f db) as [[_ Hn]|[He _]];
      [contradiction | exact He].
Qed.

(** ** Replace-on-save round trip *)

Lemma insert_by_last {A : Type} (key : A -> Z) (x : A) (l : list A) :
  Forall (fun y => key y <= key x) l -> Db.insert_by key x l = l ++ [x].
Proof.
  induction 1 as [|y t Hy _ IH]; cbn [Db.insert_by app]; [reflexivity|].
  destruct (key x <? key y) eqn:E; [apply Z.ltb_lt in E; lia|].
  now rewrite IH.
Qed.

Lemma number_rows_ids (vs : list AgriculturalMachinery.insert_tuple) :
  forall seq, Forall (fun r => seq <= Db.m_id r)
                     (AgriculturalMachinery.number_rows seq vs).
Proof.
  induction vs as [|v rest IH]; intros seq; cbn [AgriculturalMachinery.number_rows].
  - constructor.
  - destruct v as [[[[[[h has] name] qn] qu] qo] src]. constructor; [cbn; lia|].
    eapply Forall_impl; [|apply (IH (seq + 1))]. cbn beta. intros r Hr. lia.
Qed.

Lemma order_by_number_rows (vs : list AgriculturalMachinery.insert_tuple) (seq : Z) :
  Db.order_by Db.m_id (AgriculturalMachinery.number_rows seq vs)
  = AgriculturalMachinery.number_rows seq vs.
Proof.
  unfold Db.order_by.
  enough (G : forall vs seq acc,
             Forall (fun r => Db.m_id r < seq) acc ->
             fold_left (fun acc x => Db.insert_by Db.m_id x acc)
                       (AgriculturalMachinery.number_rows seq vs) acc
             = acc ++ AgriculturalMachinery.number_rows seq vs)
    by (now rewrite G).
  clear. induction vs as [|v rest IH]; intros seq acc Hacc;
    cbn [AgriculturalMachinery.number_rows].
  - cbn. now rewrite app_nil_r.
  - destruct v as [[[[[[h has] name] qn] qu] qo] src]. cbn [fold_left].
    rewrite insert_by_last.
    + rewrite IH.
      * now rewrite <- app_assoc.
      * apply Forall_app. split.
        -- eapply Forall_impl; [|exact Hacc]. cbn beta. intros r Hr. lia.
        -- constructor; [cbn; lia | constructor].
    + eapply Forall_impl; [|exact Hacc]. cbn beta. intros r Hr. cbn. lia.
Qed.

Lemma filter_number_rows (h : Z) (rows : list MachineryRows.entry) :
  Forall (fun row => MachineryRows.holder_id row = h) rows ->
  forall seq,
    filter (fun r => Db.m_holder_id r =? h)
           (AgriculturalMachinery.number_rows seq (map entry_tuple rows))
    = AgriculturalMachinery.number_rows seq (map entry_tuple rows).
Proof.
  induction 1 as [|row rest Hrow _ IH]; intros seq; [reflexivity|].
  cbn [map entry_tuple AgriculturalMachinery.number_rows filter Db.m_holder_id].
  rewrite Hrow, Z.eqb_refl. f_equal. apply IH.
Qed.

Lemma filter_out_in {A : Type} (p : A -> bool) (l : list A) :
  filter p (filter (fun x => negb (p x)) l) = [].
Proof.
  induction l as [|x t IH]; [reflexivity|]. cbn [filter].
  destruct (p x) eqn:E; cbn [negb filter]; [exact IH | now rewrite E].
Qed.

Lemma loaded_number_rows (rows : list MachineryRows.entry) :
  forall seq,
    map (fun row : AgriculturalMachinery.select_tuple =>
           let '(r0, r1, r2, r3, r4, r5) := row in
           AgriculturalMachinery.mkSaved r0 r1 r2 r3 r4 r5)
        (map (fun r => (Db.m_has_item r, Db.m_equipment_name r, Db.m_quantity_new r,
                        Db.m_quantity_used r, Db.m_quantity_out_of_service r,
                        Db.m_source r))
             (AgriculturalMachinery.number_rows seq (map entry_tuple rows)))
    = map AgriculturalMachinery.saved_of rows.
Proof.
  induction rows as [|row rest IH]; intros seq; [reflexivity|].
  cbn [map entry_tuple AgriculturalMachinery.number_rows]. rewrite IH. reflexivity.
Qed.

(** Without faults a save of a non-empty list for one holder succeeds and
    replaces the holder's rows. *)
Lemma save_to_db_succeeds (rows : list MachineryRows.entry) (h : Z) (db : Db.database) :
  rows <> [] ->
  Forall (fun row => MachineryRows.holder_id row = h) rows ->
  result (run (AgriculturalMachinery.save_to_db rows) no_faults db) = Val true
  /\ persisted (run (AgriculturalMachinery.save_to_db rows) no_faults db)
     = replaced rows h db.
Proof.
  intros Hne Hh. destruct rows as [|first rest]; [congruence|].
  assert (Hfirst : MachineryRows.holder_id first = h) by (now inversion Hh).
  destruct (save_to_db_outcomes first rest no_faults db)
    as [(Hr & Hp & _)|(_ & [k [_ Hk]] & _)].
  - rewrite <- Hfirst. now split.
  - exfalso. now apply Hk.
Qed.

(** Without faults, loading a holder right after the replacement of its rows
    gives the saved rows back, in order. *)
Lemma load_after_replace (rows : list MachineryRows.entry) (h : Z) (db : Db.database) :
  Forall (fun row => MachineryRows.holder_id row = h) rows ->
  result (run (AgriculturalMachinery.load_existing_data h) no_faults (replaced rows h db))
  = Val (map AgriculturalMachinery.saved_of rows).
Proof.
  intros Hh.
  unfold_page. unfold AgriculturalMachinery.select_rows, no_faults, replaced.
  cbn -[filter Db.order_by AgriculturalMachinery.number_rows map].
  rewrite filter_app, filter_out_in. cbn [app].
  fold entry_tuple.
  rewrite (filter_number_rows h rows Hh), order_by_number_rows, loaded_number_rows.
  reflexivity.
Qed.

(** C1. For every holder and every non-empty row list carrying that holder's
    id, a save that goes through followed by a load of the holder returns the
    saved rows, in order (the six loaded columns of each); and a second save
    for the same holder, of whatever length, supersedes the first: the load
    then returns exactly the second row list. *)
Theorem replace_on_save_round_trip
    (rows : list MachineryRows.entry) (h : Z) (db : Db.database)
    (Hne : rows <> [])
    (Hh : Forall (fun row => MachineryRows.holder_id row = h) rows) :
  let r1 := run (AgriculturalMachinery.save_to_db rows) no_faults db in
  result r1 = Val true
  /\ result (run (AgriculturalMachinery.load_existing_data h) no_faults (persisted r1))
     = Val (map AgriculturalMachinery.saved_of rows)
  /\ forall rows2,
       rows2 <> [] ->
       Forall (fun row => MachineryRows.holder_id row = h) rows2 ->
       let r2 := run (AgriculturalMachinery.save_to_db rows2) no_faults (persisted r1) in
       result r2 = Val true
       /\ result (run (AgriculturalMachinery.load_existing_data h) no_faults (persisted r2))
          = Val (map AgriculturalMachinery.saved_of rows2).
Proof.
  cbv zeta.
  destruct (save_to_db_succeeds rows h db Hne Hh) as [Hr Hp].
  split; [exact Hr|]. rewrite Hp. split; [now apply load_after_replace|].
  intros rows2 Hne2 Hh2.
  destruct (save_to_db_succeeds rows2 h (replaced rows h db) Hne2 Hh2) as [Hr2 Hp2].
  split; [exact Hr2|]. rewrite Hp2. now apply load_after_replace.
Qed.

(** ** Progress tracker *)

Lemma main_mark_run (h s : Z) (db : Db.database) :
  run (MainSurvey.mark_section_complete h s) no_faults db
  = match ProgressTable.rows_of h s db with
    | [] =>
        (Val tt,
         mkWorld (after (ProgressTable.insert_section_no h s) db) None []
           ["CONNECT"; MainSurvey.select_sql; MainSurvey.insert_sql; "COMMIT"] 4%nat)
    | r :: _ =>
        (Val tt,
         mkWorld (after (ProgressTable.set_completed (Db.p_id r)) db) None []
           ["CONNECT"; MainSurvey.select_sql; MainSurvey.update_sql; "COMMIT"] 4%nat)
    end.
Proof.
  unfold ProgressTable.rows_of, after.
  unfold_page. unfold no_faults, ProgressTable.select_by_section_no,
    ProgressTable.set_completed, ProgressTable.insert_section_no.
  page_cbn.
  destruct (filter _ (Db.holder_survey_progress db)); reflexivity.
Qed.

Lemma labour_mark_run (h : Z) (db : Db.database) :
  result (run (HoldingLabour.mark_section_complete h) no_faults db) = Val tt
  /\ persisted (run (HoldingLabour.mark_section_complete h) no_faults db)
     = marked_by_section_id h HoldingLabour.SECTION_NO db.
Proof.
  unfold marked_by_section_id, ProgressTable.rows_of_id, after.
  unfold_page. unfold no_faults, ProgressTable.select_by_section_id,
    ProgressTable.set_completed, ProgressTable.insert_section_id.
  page_cbn.
  destruct (filter _ (Db.holder_survey_progress db)); split; reflexivity.
Qed.

Lemma permanent_mark_run (h : Z) (db : Db.database) :
  result (run (HoldingLabourPermanent.mark_section_complete h) no_faults db) = Val tt
  /\ persisted (run (HoldingLabourPermanent.mark_section_complete h) no_faults db)
     = marked_by_section_id h HoldingLabourPermanent.SECTION_NO db.
Proof.
  unfold marked_by_section_id, ProgressTable.rows_of_id, after.
  unfold_page. unfold no_faults, ProgressTable.select_by_section_id,
    ProgressTable.set_completed, ProgressTable.insert_section_id.
  page_cbn.
  destruct (filter _ (Db.holder_survey_progress db)); split; reflexivity.
Qed.

Lemma get_completed_sections_run (h : Z) (db : Db.database) :
  result (run (MainSurvey.get_completed_sections h) no_faults db)
  = Val (completed_sections h db).
Proof. reflexivity. Qed.

Lemma filter_map_stable {A : Type} (p : A -> bool) (g : A -> A) (l : list A) :
  (forall x, p (g x) = p x) -> filter p (map g l) = map g (filter p l).
Proof.
  intros Hp. induction l as [|x t IH]; [reflexivity|].
  cbn [map filter]. rewrite Hp. destruct (p x); cbn [map]; now rewrite IH.
Qed.

Lemma rows_of_set_completed (id h s : Z) (db : Db.database) :
  ProgressTable.rows_of h s (after (ProgressTable.set_completed id) db)
  = map (ProgressTable.set_row_completed id) (ProgressTable.rows_of h s db).
Proof.
  unfold ProgressTable.rows_of, after, ProgressTable.set_completed. cbn.
  apply filter_map_stable. intros x. unfold ProgressTable.set_row_completed.
  destruct (Db.p_id x =? id); reflexivity.
Qed.

Lemma rows_of_insert_section_no (h s : Z) (db : Db.database) :
  ProgressTable.rows_of h s (after (ProgressTable.insert_section_no h s) db)
  = ProgressTable.rows_of h s db
    ++ [Db.mkProgressRow (Db.holder_survey_progress_seq db) h
          (Db.section_id_default db) (Some s) true].
Proof.
  unfold ProgressTable.rows_of, after, ProgressTable.insert_section_no. cbn.
  rewrite filter_app. cbn. now rewrite !Z.eqb_refl.
Qed.

Lemma set_row_completed_own (r : Db.progress_row) :
  Db.p_completed (ProgressTable.set_row_completed (Db.p_id r) r) = true
  /\ Db.p_id (ProgressTable.set_row_completed (Db.p_id r) r) = Db.p_id r.
Proof.
  unfold ProgressTable.set_row_completed. rewrite Z.eqb_refl. split; reflexivity.
Qed.

(** C2. [mark_section_complete] of main_survey.py is idempotent: on a table
    holding at most one row for the pair (holder, section), two calls in
    succession that go through leave exactly one row for the pair, with
    [completed] true; the second call takes the UPDATE branch and leaves the
    number of rows as the first call left it. *)
Theorem mark_section_complete_idempotent (h s : Z) (db : Db.database)
    (Huniq : (List.length (ProgressTable.rows_of h s db) <= 1)%nat) :
  let r1 := run (MainSurvey.mark_section_complete h s) no_faults db in
  let r2 := run (MainSurvey.mark_section_complete h s) no_faults (persisted r1) in
  result r1 = Val tt
  /\ result r2 = Val tt
  /\ (exists row, ProgressTable.rows_of h s (persisted r1) = [row]
                  /\ Db.p_completed row = true)
  /\ (exists row, ProgressTable.rows_of h s (persisted r2) = [row]
                  /\ Db.p_completed row = true)
  /\ calls r2 = ["CONNECT"; MainSurvey.select_sql; MainSurvey.update_sql; "COMMIT"]
  /\ List.length (Db.holder_survey_progress (persisted r2))
     = List.length (Db.holder_survey_progress (persisted r1)).
Proof.
  cbv zeta.
  assert (H1 : result (run (MainSurvey.mark_section_complete h s) no_faults db) = Val tt
               /\ exists row,
                    ProgressTable.rows_of h s
                      (persisted (run (MainSurvey.mark_section_complete h s) no_faults db))
                    = [row]
                    /\ Db.p_completed row = true).
  { rewrite main_mark_run.
    destruct (ProgressTable.rows_of h s db) as [|r [|r' rest]] eqn:E.
    - split; [reflexivity|]. unfold persisted. cbn [snd store].
      rewrite rows_of_insert_section_no, E. eexists. split; reflexivity.
    - split; [reflexivity|]. unfold persisted. cbn [snd store].
      rewrite rows_of_set_completed, E. eexists. split; [reflexivity|].
      apply set_row_completed_own.
    - cbn in Huniq. lia. }
  destruct H1 as [Hr1 [row [Hrows Hc]]].
  set (db1 := persisted (run (MainSurvey.mark_section_complete h s) no_faults db)) in *.
  split; [exact Hr1|].
  rewrite (main_mark_run h s db1), Hrows.
  split; [reflexivity|]. split; [now exists row|].
  unfold persisted, calls. cbn [snd store issued]. split; [|split; [reflexivity|]].
  - rewrite rows_of_set_completed, Hrows. eexists. split; [reflexivity|].
    apply set_row_completed_own.
  - unfold after, ProgressTable.set_completed. cbn. apply length_map.
Qed.

Lemma NoDup_map_eq {A B : Type} (f : A -> B) (l : list A) (a b : A) :
  NoDup (map f l) -> In a l -> In b l -> f a = f b -> a = b.
Proof.
  induction l as [|x t IH]; cbn [map In]; intros Hnd Ha Hb Hf; [destruct Ha|].
  inversion Hnd as [|y ys Hx Ht]; subst.
  destruct Ha as [<-|Ha], Hb as [<-|Hb].
  - reflexivity.
  - exfalso. apply Hx. rewrite Hf. now apply in_map.
  - exfalso. apply Hx. rewrite <- Hf. now apply in_map.
  - now apply IH.
Qed.

Lemma non_null_app (l1 l2 : list (option Z)) :
  ProgressTable.non_null (l1 ++ l2)
  = ProgressTable.non_null l1 ++ ProgressTable.non_null l2.
Proof.
  induction l1 as [|[x|] t IH]; cbn [app ProgressTable.non_null]; [reflexivity| |exact IH].
  now rewrite IH.
Qed.

(** Setting [completed] on rows whose [section_no] is NULL does not change
    the non-NULL section numbers a holder's completed rows carry. *)
Lemma non_null_set_completed (id h : Z) (t : list Db.progress_row) :
  (forall x, In x t -> Db.p_id x = id -> Db.p_section_no x = None) ->
  ProgressTable.non_null
    (map Db.p_section_no
         (filter (fun r => (Db.p_holder_id r =? h) && Db.p_completed r)
                 (map (ProgressTable.set_row_completed id) t)))
  = ProgressTable.non_null
      (map Db.p_section_no
           (filter (fun r => (Db.p_holder_id r =? h) && Db.p_completed r) t)).
Proof.
  induction t as [|x rest IH]; intros Hnull; [reflexivity|].
  assert (IH' := IH (fun y Hy => Hnull y (or_intror Hy))).
  assert (Hh : Db.p_holder_id (ProgressTable.set_row_completed id x) = Db.p_holder_id x)
    by (unfold ProgressTable.set_row_completed; destruct (Db.p_id x =? id); reflexivity).
  assert (Hs : Db.p_section_no (ProgressTable.set_row_completed id x) = Db.p_section_no x)
    by (unfold ProgressTable.set_row_completed; destruct (Db.p_id x =? id); reflexivity).
  assert (Hc : Db.p_completed (ProgressTable.set_row_completed id x)
               = (Db.p_id x =? id) || Db.p_completed x)
    by (unfold ProgressTable.set_row_completed; destruct (Db.p_id x =? id); reflexivity).
  cbn [map filter]. rewrite Hh, Hc.
  destruct (Db.p_id x =? id) eqn:E.
  - apply Z.eqb_eq in E. pose proof (Hnull x (or_introl eq_refl) E) as Hx.
    destruct (Db.p_holder_id x =? h), (Db.p_completed x);
      cbn [andb orb map ProgressTable.non_null];
      rewrite ?Hs, ?Hx; cbn [ProgressTable.non_null]; exact IH'.
  - cbn [orb].
    destruct ((Db.p_holder_id x =? h) && Db.p_completed x);
      cbn [map]; [|exact IH'].
    rewrite Hs. destruct (Db.p_section_no x); cbn [ProgressTable.non_null]; now rewrite IH'.
Qed.

(** C9, at the failing input.  From the empty table, completing section 2 of
    holder 7 through holding_labour.py changes what [get_completed_sections]
    returns for that holder: the list gains the NULL [section_no] of the row
    the labour module inserted.  The reader is documented to return the
    completed section numbers, and the writer of main_survey.py stores the
    number in [section_no]; the labour writers store it in [section_id]. *)
Lemma labour_completion_changes_reader :
  let db' := persisted (run (HoldingLabour.mark_section_complete 7) no_faults Db.empty) in
  result (run (MainSurvey.get_completed_sections 7) no_faults Db.empty) = Val []
  /\ result (run (MainSurvey.get_completed_sections 7) no_faults db') = Val [None]
  /\ result (run (MainSurvey.get_completed_sections 7) no_faults db')
     <> result (run (MainSurvey.get_completed_sections 7) no_faults Db.empty).
Proof.
  cbv zeta. split; [reflexivity|]. split; [reflexivity|]. discriminate.
Qed.

(** The reader after a labour module marked section [sec]. *)
Lemma completed_after_marked (h h' sec : Z) (db : Db.database) :
  NoDup (map Db.p_id (Db.holder_survey_progress db)) ->
  Db.section_no_default db = None ->
  (forall r, In r (Db.holder_survey_progress db) ->
             Db.p_section_id r <> None -> Db.p_section_no r = None) ->
  ProgressTable.non_null (completed_sections h' (marked_by_section_id h sec db))
  = ProgressTable.non_null (completed_sections h' db)
  /\ (ProgressTable.rows_of_id h sec db = [] ->
      completed_sections h (marked_by_section_id h sec db)
      = completed_sections h db ++ [None]).
Proof.
  intros Hpk Hdef Hrows.
  unfold marked_by_section_id, completed_sections.
  destruct (ProgressTable.rows_of_id h sec db) as [|r rest] eqn:E.
  - unfold after, ProgressTable.insert_section_id. cbn. rewrite Hdef.
    split.
    + rewrite filter_app, map_app, non_null_app. cbn.
      destruct (h =? h'); cbn; now rewrite app_nil_r.
    + intros _. rewrite filter_app, map_app. cbn. now rewrite Z.eqb_refl.
  - split; [|discriminate].
    unfold after, ProgressTable.set_completed. cbn.
    apply non_null_set_completed.
    assert (Hin : In r (ProgressTable.rows_of_id h sec db)) by (rewrite E; now left).
    apply filter_In in Hin as [Hin Hkey].
    intros x Hx Hid.
    assert (x = r) by (eapply NoDup_map_eq; eauto). subst x.
    apply Hrows; [exact Hin|].
    apply andb_prop in Hkey as [_ Hkey].
    destruct (Db.p_section_id r); [discriminate | discriminate Hkey].
Qed.

(** How far the defect goes.  On a progress table with unique ids whose
    [section_no] defaults to NULL and whose rows keyed by [section_id] carry
    no [section_no], a completion through holding_labour.py or
    holding_labour_permanent.py leaves the non-NULL section numbers that
    [get_completed_sections] returns unchanged, for every holder; what the
    reader gains, when the labour module inserts its row, is one NULL
    entry. *)
Theorem labour_completion_adds_null_only (h h' : Z) (db : Db.database)
    (Hpk : NoDup (map Db.p_id (Db.holder_survey_progress db)))
    (Hdef : Db.section_no_default db = None)
    (Hrows : forall r, In r (Db.holder_survey_progress db) ->
                       Db.p_section_id r <> None -> Db.p_section_no r = None) :
  let read := fun who d => result (run (MainSurvey.get_completed_sections who) no_faults d) in
  let db2 := persisted (run (HoldingLabour.mark_section_complete h) no_faults db) in
  let db3 := persisted (run (HoldingLabourPermanent.mark_section_complete h) no_faults db) in
  (exists before after2 after3,
      read h' db = Val before /\ read h' db2 = Val after2 /\ read h' db3 = Val after3
      /\ ProgressTable.non_null after2 = ProgressTable.non_null before
      /\ ProgressTable.non_null after3 = ProgressTable.non_null before)
  /\ (ProgressTable.rows_of_id h HoldingLabour.SECTION_NO db = [] ->
      read h db2 = Val (completed_sections h db ++ [None]))
  /\ (ProgressTable.rows_of_id h HoldingLabourPermanent.SECTION_NO db = [] ->
      read h db3 = Val (completed_sections h db ++ [None])).
Proof.
  cbv zeta.
  destruct (labour_mark_run h db) as [_ ->].
  destruct (permanent_mark_run h db) as [_ ->].
  rewrite !get_completed_sections_run.
  split; [|split].
  - exists (completed_sections h' db),
      (completed_sections h' (marked_by_section_id h HoldingLabour.SECTION_NO db)),
      (completed_sections h' (marked_by_section_id h HoldingLabourPermanent.SECTION_NO db)).
    repeat split; now apply completed_after_marked.
  - intros Hnone. f_equal. now apply completed_after_marked.
  - intros Hnone. f_equal. now apply completed_after_marked.
Qed.

(** ** The theorems at concrete inputs *)

Lemma replace_on_save_round_trip_witness :
  let rows := [Sample.tractor; Sample.sprayer] in
  let r1 := run (AgriculturalMachinery.save_to_db rows) no_faults Db.empty in
  result r1 = Val true
  /\ result (run (AgriculturalMachinery.load_existing_data 42) no_faults (persisted r1))
     = Val (map AgriculturalMachinery.saved_of rows)
  /\ forall rows2,
       rows2 <> [] ->
       Forall (fun row => MachineryRows.holder_id row = 42) rows2 ->
       let r2 := run (AgriculturalMachinery.save_to_db rows2) no_faults (persisted r1) in
       result r2 = Val true
       /\ result (run (AgriculturalMachinery.load_existing_data 42) no_faults (persisted r2))
          = Val (map AgriculturalMachinery.saved_of rows2).
Proof.
  apply (replace_on_save_round_trip [Sample.tractor; Sample.sprayer] 42 Db.empty).
  - discriminate.
  - repeat constructor.
Defined.

Lemma mark_section_complete_idempotent_witness :
  let r1 := run (MainSurvey.mark_section_complete 7 1) no_faults Db.empty in
  let r2 := run (MainSurvey.mark_section_complete 7 1) no_faults (persisted r1) in
  result r1 = Val tt
  /\ result r2 = Val tt
  /\ (exists row, ProgressTable.rows_of 7 1 (persisted r1) = [row]
                  /\ Db.p_completed row = true)
  /\ (exists row, ProgressTable.rows_of 7 1 (persisted r2) = [row]
                  /\ Db.p_completed row = true)
  /\ calls r2 = ["CONNECT"; MainSurvey.select_sql; MainSurvey.update_sql; "COMMIT"]
  /\ List.length (Db.holder_survey_progress (persisted r2))
     = List.length (Db.holder_survey_progress (persisted r1)).
Proof.
  apply (mark_section_complete_idempotent 7 1 Db.empty). cbn. lia.
Defined.

Lemma developed_hard_irrigated_soft_witness :
  (In (ParcelRows.DevelopedExceedsTotal (PyNum.Fin 1))
      (fst (ParcelRows.validate_parcels [Sample.over_developed]))
   /\ ParcelRows.accepted [Sample.over_developed] = false)
  /\ (fst (ParcelRows.validate_parcels [Sample.over_irrigated]) = []
      /\ ParcelRows.accepted [Sample.over_irrigated] = true).
Proof.
  split.
  - apply (proj1 (developed_hard_irrigated_soft [Sample.over_developed])
                 Sample.over_developed).
    + now left.
    + reflexivity.
  - destruct (proj2 (developed_hard_irrigated_soft [Sample.over_irrigated]))
      as (He & Ha & _).
    + intros row [<-|[]]. repeat split; intros H; vm_compute in H; discriminate H.
    + now split.
Defined.

Lemma quantity_range_enforced_witness :
  fst (MachineryRows.validate_machinery_data [Sample.tractor; Sample.too_many_trucks])
  = false.
Proof.
  apply (proj1 (quantity_range_enforced [Sample.tractor; Sample.too_many_trucks])
               Sample.too_many_trucks MachineryRows.Quantity_new).
  - right. now left.
  - unfold MachineryRows.in_range. cbn. lia.
Defined.

Lemma has_item_requires_quantity_witness :
  fst (MachineryRows.validate_machinery_data [Sample.tractor_without_quantity]) = false
  /\ forall f,
       result (run (AgriculturalMachinery.load_existing_data 42) f
                   (persisted (run (AgriculturalMachinery.on_submit
                                      [Sample.tractor_without_quantity])
                                   no_faults Db.empty)))
       = Val [].
Proof.
  destruct (has_item_requires_quantity [] [] Sample.tractor_without_quantity
              eq_refl eq_refl) as (Hf & _ & _ & Hsub).
  split; [exact Hf|]. intros f.
  destruct (Hsub no_faults Db.empty) as (_ & _ & Hload).
  apply Hload. reflexivity.
Defined.

Lemma save_is_atomic_witness :
  let r := run (AgriculturalMachinery.save_to_db [Sample.sprayer; Sample.tractor])
               Sample.insert_fails Sample.one_tractor_saved in
  persisted r = Sample.one_tractor_saved /\ result r <> Val true
  /\ (calls r = ["CONNECT"] \/ In "ROLLBACK" (calls r)).
Proof.
  apply (proj1 (save_is_atomic [Sample.sprayer; Sample.tractor] Sample.land 42
                  Sample.insert_fails Sample.one_tractor_saved)).
  exists 3%nat. split; [cbn; lia | discriminate].
Defined.

Lemma exceptions_contained_by_saves_only_witness :
  let r := run (AgriculturalMachinery.save_to_db [Sample.sprayer; Sample.tractor])
               Sample.insert_fails Sample.one_tractor_saved in
  result r = Val false /\ exists m, In (StError m) (shown r).
Proof.
  apply (proj1 (exceptions_contained_by_saves_only
                  [Sample.sprayer; Sample.tractor] Sample.land 42 1
                  Sample.insert_fails Sample.one_tractor_saved)).
  - intros k H. do 5 (try (destruct k as [|k]; [first [reflexivity | discriminate H]|])).
    reflexivity.
  - exists 3%nat. split; [cbn; lia | discriminate].
Defined.

Lemma labour_completion_adds_null_only_witness :
  let read := fun who d => result (run (MainSurvey.get_completed_sections who) no_faults d) in
  let db2 := persisted (run (HoldingLabour.mark_section_complete 7) no_faults Db.empty) in
  read 7 db2 = Val (completed_sections 7 Db.empty ++ [None]).
Proof.
  refine (proj1 (proj2 (labour_completion_adds_null_only 7 7 Db.empty _ _ _)) _).
  - constructor.
  - reflexivity.
  - intros r [].
  - reflexivity.
Defined.

(** * Further properties of the code *)

(** ** Validators: exactly what they accept *)

Lemma row_ok_iff (row : MachineryRows.entry) :
  row_ok row = true
  <-> PyStr.len (MachineryRows.equipment_name row) <= 100
      /\ (MachineryRows.has_item row = "Y" ->
          MachineryRows.quantity_new row + MachineryRows.quantity_used row
            + MachineryRows.quantity_out_of_service row <> 0)
      /\ (forall q, MachineryRows.in_range (MachineryRows.get row q)).
Proof.
  unfold MachineryRows.in_range. unfold_checks.
  destruct (PyStr.len (MachineryRows.equipment_name row) >? 100) eqn:El;
    destruct (String.eqb (MachineryRows.has_item row) "Y") eqn:Ey;
    try destruct (MachineryRows.quantity_new row + MachineryRows.quantity_used row
                  + MachineryRows.quantity_out_of_service row =? 0) eqn:E0;
    destruct ((MachineryRows.quantity_new row <? 0) || (MachineryRows.quantity_new row >? 20)) eqn:E1;
    destruct ((MachineryRows.quantity_used row <? 0) || (MachineryRows.quantity_used row >? 20)) eqn:E2;
    destruct ((MachineryRows.quantity_out_of_service row <? 0)
              || (MachineryRows.quantity_out_of_service row >? 20)) eqn:E3;
    cbn [fst];
    rewrite ?Z.gtb_ltb in *;
    rewrite ?orb_true_iff, ?orb_false_iff, ?Z.ltb_lt, ?Z.ltb_ge, ?Z.eqb_eq, ?Z.eqb_neq,
      ?String.eqb_eq, ?String.eqb_neq in *.
  all: split;
    [ first [ discriminate
            | intros _; split; [lia | split; [intros Hy; first [lia | congruence]|]];
              intros q; destruct q; cbn [MachineryRows.get]; lia ]
    | intros (Hl & Hs & Hq);
      pose proof (Hq MachineryRows.Quantity_new) as Q1;
      pose proof (Hq MachineryRows.Quantity_used) as Q2;
      pose proof (Hq MachineryRows.Quantity_out_of_service) as Q3;
      cbn [MachineryRows.get] in Q1, Q2, Q3;
      first [ reflexivity | lia | exfalso; now apply Hs ] ].
Qed.

(** X1. [validate_machinery_data] returns True exactly when every row has a name
    of at most 100 characters, quantities in [0, 20] and, if marked "Y", a
    non-zero total. *)
Theorem validate_machinery_data_accepts_iff (rows : list MachineryRows.entry) :
  fst (MachineryRows.validate_machinery_data rows) = true
  <-> forall row,
        In row rows ->
        PyStr.len (MachineryRows.equipment_name row) <= 100
        /\ (MachineryRows.has_item row = "Y" ->
            MachineryRows.quantity_new row + MachineryRows.quantity_used row
              + MachineryRows.quantity_out_of_service row <> 0)
        /\ (forall q, MachineryRows.in_range (MachineryRows.get row q)).
Proof.
  rewrite validate_machinery_data_rows. cbn [fst]. rewrite forallb_forall.
  split; intros H row Hin; apply row_ok_iff; now apply H.
Qed.

Lemma parcel_errors_nil_iff (row : ParcelRows.frame_row) :
  parcel_errors row = []
  <-> ~ PyNum.lt (ParcelRows.Total_Acres row) (PyNum.Fin 0)
      /\ ~ PyNum.lt (ParcelRows.Developed_Acres row) (PyNum.Fin 0)
      /\ ~ PyNum.lt (ParcelRows.Irrigated_Area row) (PyNum.Fin 0)
      /\ ~ PyNum.lt (ParcelRows.Total_Acres row) (ParcelRows.Developed_Acres row).
Proof.
  split.
  - unfold_parcel.
    destruct (PyNum.ltb (ParcelRows.Total_Acres row) (PyNum.Fin 0)) eqn:E1;
      destruct (PyNum.ltb (ParcelRows.Developed_Acres row) (PyNum.Fin 0)) eqn:E2;
      destruct (PyNum.ltb (ParcelRows.Irrigated_Area row) (PyNum.Fin 0)) eqn:E3;
      destruct (PyNum.ltb (ParcelRows.Total_Acres row)
                  (ParcelRows.Developed_Acres row)) eqn:E4;
      destruct (PyNum.ltb (ParcelRows.Total_Acres row)
                  (ParcelRows.Irrigated_Area row)) eqn:E5;
      cbn [fst snd app]; try discriminate.
    all: intros _; apply ltb_not_lt in E1, E2, E3, E4; tauto.
  - intros (Ht & Hd & Hi & Hdt). now apply sound_parcel_no_error.
Qed.

(** X2. [validate_parcels] returns the empty list, so that the parcels may be
    saved, exactly when no row has a total, developed or irrigated area
    below zero or a developed area above its total.  No comparison holds
    with an empty (NaN) cell, so a row the user added and left empty is
    accepted, and so is an empty frame. *)
Theorem validate_parcels_accepts_iff (rows : list ParcelRows.frame_row) :
  (fst (ParcelRows.validate_parcels rows) = []
   <-> forall row,
         In row rows ->
         ~ PyNum.lt (ParcelRows.Total_Acres row) (PyNum.Fin 0)
         /\ ~ PyNum.lt (ParcelRows.Developed_Acres row) (PyNum.Fin 0)
         /\ ~ PyNum.lt (ParcelRows.Irrigated_Area row) (PyNum.Fin 0)
         /\ ~ PyNum.lt (ParcelRows.Total_Acres row) (ParcelRows.Developed_Acres row))
  /\ (forall row,
        ParcelRows.Total_Acres row = PyNum.NaN ->
        ParcelRows.Developed_Acres row = PyNum.NaN ->
        ParcelRows.Irrigated_Area row = PyNum.NaN ->
        ParcelRows.validate_parcels [row] = ([], []))
  /\ ParcelRows.validate_parcels [] = ([], []).
Proof.
  split; [|split; [|reflexivity]].
  - rewrite validate_parcels_rows. cbn [fst].
    induction rows as [|r rest IH]; cbn [flat_map].
    + split; [intros _ row [] | reflexivity].
    + split.
      * intros H. apply app_eq_nil in H as [Hr Hrest].
        intros row [<-|Hin]; [now apply parcel_errors_nil_iff | now apply IH].
      * intros H.
        rewrite (proj2 (parcel_errors_nil_iff r) (H r (or_introl eq_refl))). cbn [app].
        apply IH. intros row Hin. apply H. now right.
  - intros row Ht Hd Hi.
    unfold ParcelRows.validate_parcels, ParcelRows.validate_parcel. cbn [fold_left].
    rewrite Ht, Hd, Hi. reflexivity.
Qed.

Lemma Qle_bool_false (x y : Q) : Qle_bool x y = false <-> (y < x)%Q.
Proof.
  split.
  - intros H. apply Qnot_le_lt. intros Hle. apply Qle_bool_iff in Hle. congruence.
  - intros H. destruct (Qle_bool x y) eqn:E; [|reflexivity].
    apply Qle_bool_iff in E. exfalso. exact (Qlt_not_le _ _ H E).
Qed.

Lemma all_space_truthy_strip (s : string) :
  PyStr.truthy (PyStr.strip s) = negb (all_space s).
Proof.
  destruct (all_space s) eqn:E.
  - now rewrite all_space_strip_empty.
  - destruct (PyStr.truthy (PyStr.strip s)) eqn:T; [reflexivity|].
    apply strip_empty_all_space in T. congruence.
Qed.

(** X3. [validate_main_land_use] returns no error exactly when the total area is
    positive, the years are not negative, a crop method is selected, there is
    at least one parcel, and the location has a character that is not white
    space and at most 200 characters. *)
Theorem validate_main_land_use_accepts_iff
    (total_area years_used : Q) (crop_methods : list string) (num_parcels : Z)
    (location : string) :
  LandUseForm.validate_main_land_use total_area years_used crop_methods num_parcels location
  = []
  <-> (0 < total_area)%Q
      /\ (0 <= years_used)%Q
      /\ crop_methods <> []
      /\ 1 <= num_parcels
      /\ all_space location = false
      /\ PyStr.len location <= 200.
Proof.
  unfold LandUseForm.validate_main_land_use. rewrite all_space_truthy_strip, negb_involutive.
  destruct (Qle_bool total_area 0) eqn:E1;
    destruct (ParcelRows.Qlt_bool years_used 0) eqn:E2;
    destruct crop_methods as [|c cs];
    destruct (num_parcels <? 1) eqn:E4;
    destruct (all_space location) eqn:E5;
    destruct (PyStr.len location >? 200) eqn:E6;
    cbn [app];
    rewrite ?Z.gtb_ltb in *;
    try apply Qle_bool_iff in E1; try apply Qle_bool_false in E1;
    try apply Qlt_bool_true in E2; try apply Qlt_bool_false in E2;
    rewrite ?Z.ltb_lt, ?Z.ltb_ge in *.
  all: split;
    [ first [ discriminate
            | intros _; repeat split; first [assumption | lia | discriminate] ]
    | intros (H1 & H2 & H3 & H4 & H5 & H6);
      first [ reflexivity | discriminate | lia | congruence
            | exfalso; exact (Qlt_not_le _ _ H1 E1)
            | exfalso; exact (Qlt_not_le _ _ E2 H2) ] ].
Qed.

(** ** Text normalisation of the land-use form *)

Lemma occurs_append (c : ascii) (s t : string) :
  PyText.occurs c (String.append s t) = PyText.occurs c s || PyText.occurs c t.
Proof.
  induction s as [|d s IH]; cbn [String.append PyText.occurs]; [reflexivity|].
  now rewrite IH, orb_assoc.
Qed.

Lemma occurs_replace (c old : ascii) (new s : string) :
  PyText.occurs c new = false ->
  PyText.occurs c (PyText.replace old new s)
  = if Ascii.eqb c old then false else PyText.occurs c s.
Proof.
  intros Hnew. induction s as [|d s IH]; cbn [PyText.replace PyText.occurs].
  - now destruct (Ascii.eqb c old).
  - destruct (Ascii.eqb d old) eqn:Ed.
    + rewrite occurs_append, Hnew, IH. cbn [orb].
      apply Ascii.eqb_eq in Ed. subst d.
      destruct (Ascii.eqb c old) eqn:Ec; [reflexivity|].
      rewrite Ascii.eqb_sym, Ec. reflexivity.
    + cbn [PyText.occurs]. rewrite IH.
      destruct (Ascii.eqb c old) eqn:Ec; [|reflexivity].
      apply Ascii.eqb_eq in Ec. subst c. now rewrite Ed.
Qed.

(** X4. The tenure and use-of-land strings the form stores contain no space, no
    slash and no ampersand; the land-clearing string contains no space. *)
Theorem stored_slugs_have_no_separators (s : string) :
  PyText.occurs " " (LandUseForm.slug s) = false
  /\ PyText.occurs "/" (LandUseForm.slug s) = false
  /\ PyText.occurs "&" (LandUseForm.slug s) = false
  /\ PyText.occurs " " (LandUseForm.slug_clearing s) = false.
Proof.
  unfold LandUseForm.slug, LandUseForm.slug_clearing.
  repeat split; repeat (rewrite occurs_replace by reflexivity; cbn [Ascii.eqb Bool.eqb]);
    reflexivity.
Qed.

(** ** Machinery: loading, the form loop, the summary *)

Lemma load_existing_data_run (h : Z) (db : Db.database) :
  result (run (AgriculturalMachinery.load_existing_data h) no_faults db)
  = Val (machinery_loaded h db).
Proof.
  unfold machinery_loaded. unfold_page.
  unfold AgriculturalMachinery.select_rows, no_faults.
  cbn -[filter Db.order_by map]. rewrite map_map. reflexivity.
Qed.

(** X6. [load_existing_data] never raises and never changes the store: it
    returns the holder's rows when its two database calls go through and the
    empty list, as for a first-time holder, as soon as one of them raises. *)
Theorem load_existing_data_total (h : Z) (f : faults) (db : Db.database) :
  let r := run (AgriculturalMachinery.load_existing_data h) f db in
  persisted r = db
  /\ (some_call_raised f r -> result r = Val [])
  /\ (~ some_call_raised f r -> result r = Val (machinery_loaded h db)).
Proof.
  cbv zeta. unfold some_call_raised, machinery_loaded.
  page_cases with (unfold AgriculturalMachinery.select_rows).
  all: split; [reflexivity|]; split; intros H.
  all: try reflexivity.
  all: try (exfalso; apply H; find_raised).
  - exfalso. revert H. none_raised.
  - rewrite map_map. reflexivity.
Qed.

Lemma filter_filter_other (h h' : Z) (t : list Db.machinery_row) :
  h' <> h ->
  filter (fun r => Db.m_holder_id r =? h')
         (filter (fun r => negb (Db.m_holder_id r =? h)) t)
  = filter (fun r => Db.m_holder_id r =? h') t.
Proof.
  intros Hne. induction t as [|x t IH]; [reflexivity|]. cbn [filter].
  destruct (Db.m_holder_id x =? h) eqn:E; cbn [negb filter].
  - apply Z.eqb_eq in E. rewrite E.
    destruct (h =? h') eqn:E'; [apply Z.eqb_eq in E'; congruence | exact IH].
  - destruct (Db.m_holder_id x =? h'); now rewrite IH.
Qed.

Lemma filter_number_rows_other (h' : Z) (rows : list MachineryRows.entry) :
  Forall (fun row => MachineryRows.holder_id row <> h') rows ->
  forall seq,
    filter (fun r => Db.m_holder_id r =? h')
           (AgriculturalMachinery.number_rows seq (map entry_tuple rows))
    = [].
Proof.
  induction 1 as [|row rest Hrow _ IH]; intros seq; [reflexivity|].
  cbn [map entry_tuple AgriculturalMachinery.number_rows filter Db.m_holder_id].
  destruct (MachineryRows.holder_id row =? h') eqn:E;
    [apply Z.eqb_eq in E; contradiction | apply IH].
Qed.

(** X7. A save leaves every other holder's rows alone: whatever the outcome of
    [save_to_db] on rows none of which carries holder [h'], that holder loads
    the same list before and after. *)
Theorem save_leaves_other_holders (rows : list MachineryRows.entry) (h' : Z)
    (f : faults) (db : Db.database)
    (Hother : Forall (fun row => MachineryRows.holder_id row <> h') rows) :
  result (run (AgriculturalMachinery.load_existing_data h') no_faults
              (persisted (run (AgriculturalMachinery.save_to_db rows) f db)))
  = result (run (AgriculturalMachinery.load_existing_data h') no_faults db).
Proof.
  destruct rows as [|first rest]; [reflexivity|].
  destruct (save_to_db_outcomes first rest f db) as [(_ & Hp & _)|(Hp & _)];
    rewrite Hp; [|reflexivity].
  rewrite !load_existing_data_run. f_equal.
  unfold machinery_loaded, replaced. cbn [Db.agricultural_machinery Db.with_machinery].
  rewrite filter_app, filter_number_rows_other by exact Hother.
  rewrite app_nil_r, filter_filter_other; [reflexivity|].
  inversion Hother; subst. congruence.
Qed.

(** What [save_to_db] commits does not depend on the messages already on the
    page. *)
Lemma save_to_db_any_page (rows : list MachineryRows.entry) (f : faults)
    (db : Db.database) (u : list ui_event) :
  store (snd (AgriculturalMachinery.save_to_db rows f (mkWorld db None u [] 0%nat)))
  = persisted (run (AgriculturalMachinery.save_to_db rows) f db).
Proof.
  destruct rows as [|first rest]; [reflexivity|].
  (page_cases with idtac); reflexivity.
Qed.

(** When validation passes, the submit handler does to the store exactly
    what [save_to_db] does. *)
Lemma on_submit_valid (rows : list MachineryRows.entry) (f : faults) (db : Db.database) :
  fst (MachineryRows.validate_machinery_data rows) = true ->
  persisted (run (AgriculturalMachinery.on_submit rows) f db)
  = persisted (run (AgriculturalMachinery.save_to_db rows) f db).
Proof.
  intros Hv. rewrite <- (save_to_db_any_page rows f db
                           (snd (MachineryRows.validate_machinery_data rows))).
  unfold persisted, run, AgriculturalMachinery.on_submit, AgriculturalMachinery.validate.
  unfold bind at 1. cbn [store session ui issued clock app]. rewrite Hv.
  unfold bind.
  destruct (AgriculturalMachinery.save_to_db rows f _) as [[[|]|e] w']; reflexivity.
Qed.

Lemma row_name_not_empty (w : MachineryForm.widgets)
    (existing : list AgriculturalMachinery.saved) (idx : Z) (equipment : string) :
  equipment <> "" -> MachineryForm.row_name w existing idx equipment <> "".
Proof.
  intros He. unfold MachineryForm.row_name.
  destruct (PyStr.contains "Open Entry" equipment); [|exact He].
  destruct (MachineryForm.name_input w idx _) eqn:E; cbn [PyStr.truthy negb];
    discriminate.
Qed.

Lemma number_input_cases (v r : Z) :
  (0 <= v <= 20 /\ MachineryForm.number_input 0 20 v r = inr r)
  \/ (~ 0 <= v <= 20 /\ exists e, MachineryForm.number_input 0 20 v r = inl e).
Proof.
  unfold MachineryForm.number_input.
  destruct (v <? 0) eqn:E1; [right; split; [apply Z.ltb_lt in E1; lia | eauto]|].
  destruct (v >? 20) eqn:E2; rewrite Z.gtb_ltb in E2.
  - right. split; [apply Z.ltb_lt in E2; lia | eauto].
  - left. apply Z.ltb_ge in E1, E2. split; [lia | reflexivity].
Qed.

(** A row of the form loop is built exactly when the three defaults it passes
    to the quantity inputs are accepted; it then carries the holder id and
    the name of the row. *)
Lemma form_row_cases (w : MachineryForm.widgets) (h : Z)
    (existing : list AgriculturalMachinery.saved) (idx : Z) (equipment : string) :
  let d := MachineryForm.default_values existing idx equipment in
  (quantities_in_range d
   /\ exists row, MachineryForm.form_row w h existing idx equipment = inr row
                  /\ MachineryRows.holder_id row = h
                  /\ MachineryRows.equipment_name row
                     = MachineryForm.row_name w existing idx equipment)
  \/ (~ quantities_in_range d
      /\ exists e, MachineryForm.form_row w h existing idx equipment = inl e).
Proof.
  cbv zeta. unfold MachineryForm.form_row, quantities_in_range.
  set (d := MachineryForm.default_values existing idx equipment).
  destruct (number_input_cases (AgriculturalMachinery.s_quantity_new d)
              (MachineryForm.new_input w idx (AgriculturalMachinery.s_quantity_new d)))
    as [[H1 ->]|[H1 [e ->]]]; [|right; split; [tauto | eauto]].
  destruct (number_input_cases (AgriculturalMachinery.s_quantity_used d)
              (MachineryForm.used_input w idx (AgriculturalMachinery.s_quantity_used d)))
    as [[H2 ->]|[H2 [e ->]]]; [|right; split; [tauto | eauto]].
  destruct (number_input_cases (AgriculturalMachinery.s_quantity_out_of_service d)
              (MachineryForm.out_input w idx
                 (AgriculturalMachinery.s_quantity_out_of_service d)))
    as [[H3 ->]|[H3 [e ->]]]; [|right; split; [tauto | eauto]].
  left. split; [tauto|]. eexists. repeat split.
Qed.

Lemma form_row_inr (w : MachineryForm.widgets) (h : Z)
    (existing : list AgriculturalMachinery.saved) (idx : Z) (equipment : string)
    (row : MachineryRows.entry) :
  MachineryForm.form_row w h existing idx equipment = inr row ->
  MachineryRows.holder_id row = h
  /\ MachineryRows.equipment_name row = MachineryForm.row_name w existing idx equipment.
Proof.
  intros H.
  destruct (form_row_cases w h existing idx equipment)
    as [(_ & row' & H' & Hh & Hn)|(_ & e & H')]; rewrite H' in H; [|discriminate].
  injection H as <-. now split.
Qed.

(** The defaults of row [n + 1] are the loaded dict number [n] when there is
    one. *)
Lemma default_values_nth (existing : list AgriculturalMachinery.saved) (n : nat)
    (equipment : string) :
  MachineryForm.default_values existing (Z.of_nat n + 1) equipment
  = nth n existing (AgriculturalMachinery.mkSaved "N" equipment 0 0 0 "O").
Proof.
  unfold MachineryForm.default_values, MachineryForm.has_existing.
  replace (Z.to_nat (Z.of_nat n + 1 - 1)) with n by lia.
  destruct existing as [|x t]; [now destruct n|].
  destruct (Z.of_nat n + 1 <=? Z.of_nat (List.length (x :: t))) eqn:E; [reflexivity|].
  apply Z.leb_gt in E. symmetry. apply nth_overflow. lia.
Qed.

Lemma skipn_nth {A : Type} (l : list A) (n : nat) (d : A) :
  (n < List.length l)%nat -> skipn n l = nth n l d :: skipn (S n) l.
Proof.
  revert n. induction l as [|x t IH]; intros n Hn; [cbn in Hn; lia|].
  destruct n as [|n]; [reflexivity|]. cbn [skipn nth]. apply IH. cbn in Hn. lia.
Qed.

(** The loop runs through exactly when the loaded dicts it meets carry
    acceptable quantities. *)
Lemma form_rows_run (w : MachineryForm.widgets) (h : Z)
    (existing : list AgriculturalMachinery.saved) (equipments : list string) :
  forall n : nat,
    (exists rows, MachineryForm.form_rows w h existing (Z.of_nat n + 1) equipments = inr rows)
    <-> Forall quantities_in_range (firstn (List.length equipments) (skipn n existing)).
Proof.
  induction equipments as [|equipment rest IH]; intros n.
  - cbn. split; [constructor | eauto].
  - cbn [MachineryForm.form_rows List.length].
    replace (Z.of_nat n + 1 + 1) with (Z.of_nat (S n) + 1) by lia.
    pose proof (form_row_cases w h existing (Z.of_nat n + 1) equipment) as Hrow.
    cbv zeta in Hrow. rewrite default_values_nth in Hrow.
    destruct (Nat.lt_ge_cases n (List.length existing)) as [Hn|Hn].
    + rewrite (skipn_nth existing n
                 (AgriculturalMachinery.mkSaved "N" equipment 0 0 0 "O") Hn).
      cbn [firstn]. rewrite Forall_cons_iff, <- IH.
      destruct Hrow as [(Hd & row & -> & _)|(Hd & e & ->)].
      * split.
        -- intros [rows H].
           destruct (MachineryForm.form_rows w h existing _ rest); [discriminate|eauto].
        -- intros [_ [rows ->]]. eauto.
      * split; [intros [rows H]; discriminate | tauto].
    + rewrite (skipn_all2 existing) by exact Hn. rewrite firstn_nil.
      assert (Hrest : exists rows,
                 MachineryForm.form_rows w h existing (Z.of_nat (S n) + 1) rest = inr rows).
      { apply IH. rewrite (skipn_all2 existing) by lia. rewrite firstn_nil. constructor. }
      destruct Hrest as [rows Hrest]. rewrite Hrest.
      rewrite nth_overflow in Hrow by exact Hn.
      destruct Hrow as [(_ & row & -> & _)|(Hd & _)].
      * split; [constructor | eauto].
      * exfalso. apply Hd. unfold quantities_in_range. cbn. lia.
Qed.

Ltac split_form_rows H :=
  repeat match type of H with
         | context [MachineryForm.form_row ?w ?h ?e ?i ?q] =>
             let E := fresh "Erow" in
             destruct (MachineryForm.form_row w h e i q) eqn:E; [discriminate H|]
         end.

(** X8. The form loop runs through exactly when the quantities of the loaded
    dicts it takes its defaults from lie between 0 and 20; a loaded quantity
    outside makes a quantity input raise.  When it runs through, whatever
    the widgets return, it builds eight rows, one per equipment label and in
    that order, each carrying the holder id and a non-empty name; the first
    six names are the labels themselves.  So once validation passes and the
    database calls go through, submitting the form stores exactly these
    rows: the holder then loads them back. *)
Theorem form_rows_are_saved (w : MachineryForm.widgets) (h : Z)
    (existing : list AgriculturalMachinery.saved) (db : Db.database) :
  ((exists rows, MachineryForm.machinery_data w h existing = inr rows)
   <-> form_renders existing)
  /\ forall rows,
       MachineryForm.machinery_data w h existing = inr rows ->
       List.length rows = 8%nat
       /\ Forall (fun row => MachineryRows.holder_id row = h) rows
       /\ Forall (fun row => MachineryRows.equipment_name row <> "") rows
       /\ firstn 6 (map MachineryRows.equipment_name rows)
          = firstn 6 MachineryForm.equipment_list
       /\ (fst (MachineryRows.validate_machinery_data rows) = true ->
           result (run (AgriculturalMachinery.load_existing_data h) no_faults
                       (persisted (run (AgriculturalMachinery.on_submit rows) no_faults db)))
           = Val (map AgriculturalMachinery.saved_of rows)).
Proof.
  split.
  - exact (form_rows_run w h existing MachineryForm.equipment_list 0).
  - intros rows Hrows.
    unfold MachineryForm.machinery_data, MachineryForm.equipment_list in Hrows.
    cbn [MachineryForm.form_rows] in Hrows.
    split_form_rows Hrows. injection Hrows as <-.
    repeat match goal with
           | E : MachineryForm.form_row _ _ _ _ _ = inr _ |- _ =>
               apply form_row_inr in E; destruct E as [? ?]
           end.
    assert (Hh : Forall (fun row => MachineryRows.holder_id row = h)
                        [e; e0; e1; e2; e3; e4; e5; e6])
      by (repeat constructor; assumption).
    split; [reflexivity|]. split; [exact Hh|]. split; [|split].
    + repeat (constructor;
              [match goal with
               | H : MachineryRows.equipment_name ?r = _ |- MachineryRows.equipment_name ?r <> _ =>
                   rewrite H; apply row_name_not_empty; discriminate
               end|]).
      constructor.
    + cbn [map firstn].
      repeat match goal with
             | H : MachineryRows.equipment_name _ = _ |- _ => rewrite H; clear H
             end.
      reflexivity.
    + intros Hv. rewrite on_submit_valid by exact Hv.
      destruct (save_to_db_succeeds [e; e0; e1; e2; e3; e4; e5; e6] h db) as [_ ->];
        [discriminate | exact Hh |].
      now apply load_after_replace.
Qed.

Lemma form_row_untouched (h : Z) (existing : list AgriculturalMachinery.saved)
    (idx : Z) (equipment : string) (r : AgriculturalMachinery.saved) :
  MachineryForm.has_existing existing idx = true ->
  nth (Z.to_nat (idx - 1)) existing (AgriculturalMachinery.mkSaved "N" equipment 0 0 0 "O") = r ->
  form_made equipment r ->
  (PyStr.contains "Open Entry" equipment = true ->
   String.append "Open Entry " (PyText.str (idx - 6)) = equipment) ->
  exists row,
    MachineryForm.form_row MachineryForm.untouched h existing idx equipment = inr row
    /\ AgriculturalMachinery.saved_of row = r.
Proof.
  intros Hex Hnth (Hhas & Hsrc & Hname & Hq1 & Hq2 & Hq3) Hopen.
  unfold MachineryForm.form_row, MachineryForm.default_values, MachineryForm.row_name.
  rewrite Hex, Hnth.
  cbn [MachineryForm.untouched MachineryForm.has_radio MachineryForm.name_input
       MachineryForm.new_input MachineryForm.used_input MachineryForm.out_input
       MachineryForm.source_radio].
  destruct r as [has name qn qu qo src].
  cbn [AgriculturalMachinery.s_has_item AgriculturalMachinery.s_equipment_name
       AgriculturalMachinery.s_quantity_new AgriculturalMachinery.s_quantity_used
       AgriculturalMachinery.s_quantity_out_of_service AgriculturalMachinery.s_source] in *.
  destruct (number_input_cases qn qn) as [[_ ->]|[H _]]; [|contradiction].
  destruct (number_input_cases qu qu) as [[_ ->]|[H _]]; [|contradiction].
  destruct (number_input_cases qo qo) as [[_ ->]|[H _]]; [|contradiction].
  eexists. split; [reflexivity|].
  unfold AgriculturalMachinery.saved_of.
  cbn [MachineryRows.has_item MachineryRows.equipment_name MachineryRows.quantity_new
       MachineryRows.quantity_used MachineryRows.quantity_out_of_service MachineryRows.source].
  assert (E1 : nth (Z.to_nat (if String.eqb has "Y" then 0 else 1)) ["Y"; "N"] "" = has)
    by (destruct Hhas as [->| ->]; reflexivity).
  assert (E2 : nth (Z.to_nat
                      (if existsb (String.eqb src) MachineryForm.source_options
                       then MachineryForm.index_or_zero src MachineryForm.source_options
                       else 0))
                   MachineryForm.source_options "" = src)
    by (destruct Hsrc as [<-|[<-|[<-|[]]]]; reflexivity).
  rewrite E1, E2. f_equal.
  destruct (PyStr.contains "Open Entry" equipment); [|now symmetry].
  destruct (String.eqb name equipment) eqn:E; cbn [negb].
  - apply String.eqb_eq in E. cbn [PyStr.truthy negb]. rewrite Hopen by reflexivity.
    now symmetry.
  - destruct name; [contradiction | reflexivity].
Qed.

Ltac untouched_row r :=
  let row := fresh "row" in
  let E := fresh "E" in
  let S := fresh "S" in
  match goal with
  | |- context [MachineryForm.form_row MachineryForm.untouched ?h ?existing ?idx ?equipment] =>
      destruct (form_row_untouched h existing idx equipment r) as (row & E & S);
      [ reflexivity | reflexivity | assumption
      | first [ intros _; reflexivity
              | let Hc := fresh "Hc" in intros Hc; vm_compute in Hc; discriminate Hc ]
      | rewrite E; clear E ]
  end.

(** X9. Pre-population round trip: when the eight saved dicts of a holder are as
    the form makes them (quantities between 0 and 20 included) and the user
    touches no widget, the form loop runs through and rebuilds exactly the
    saved rows, an "Open Entry" keeping its typed name or its numbered
    label. *)
Theorem untouched_form_reproduces_saved (h : Z)
    (existing : list AgriculturalMachinery.saved)
    (Hmade : Forall2 form_made MachineryForm.equipment_list existing) :
  exists rows,
    MachineryForm.machinery_data MachineryForm.untouched h existing = inr rows
    /\ map AgriculturalMachinery.saved_of rows = existing.
Proof.
  unfold MachineryForm.equipment_list in Hmade.
  repeat match goal with
         | H : Forall2 _ (_ :: _) _ |- _ => inversion H; clear H; subst
         | H : Forall2 _ [] _ |- _ => inversion H; clear H; subst
         end.
  unfold MachineryForm.machinery_data, MachineryForm.equipment_list.
  cbn [MachineryForm.form_rows].
  match goal with
  | |- context [MachineryForm.form_rows _ _ [?y1; ?y2; ?y3; ?y4; ?y5; ?y6; ?y7; ?y8] _ _] =>
      untouched_row y1; untouched_row y2; untouched_row y3; untouched_row y4;
      untouched_row y5; untouched_row y6; untouched_row y7; untouched_row y8
  | |- context [MachineryForm.form_row _ _ [?y1; ?y2; ?y3; ?y4; ?y5; ?y6; ?y7; ?y8] _ _] =>
      untouched_row y1; untouched_row y2; untouched_row y3; untouched_row y4;
      untouched_row y5; untouched_row y6; untouched_row y7; untouched_row y8
  end.
  eexists. split; [reflexivity|]. cbn [map]. congruence.
Qed.

(** A loaded quantity of 21 is refused by the first quantity input of its
    row: the form cannot be shown for that holder. *)
Example foreign_quantity_refused :
  MachineryForm.machinery_data MachineryForm.untouched 42 Sample2.foreign_rows
  = inl (OtherError "StreamlitValueAboveMaxError")
  /\ ~ form_renders Sample2.foreign_rows.
Proof.
  split; [reflexivity|]. intros H. inversion H as [|x t [Hq _] _]; subst.
  cbn in Hq. lia.
Qed.

Lemma display_machinery_summary_run (h : Z) (f : faults) (db : Db.database) :
  result (run (MachineryForm.display_machinery_summary h) f db)
  = match result (run (AgriculturalMachinery.load_existing_data h) f db) with
    | Val existing => Val (summary_of existing)
    | Exc e => Exc e
    end.
Proof.
  unfold result, run, MachineryForm.display_machinery_summary, summary_of.
  unfold bind at 1.
  destruct (AgriculturalMachinery.load_existing_data h f _) as [[existing|e] w'];
    cbn [fst]; [|reflexivity].
  destruct existing; [reflexivity|].
  destruct (MachineryForm.active_equipment _); reflexivity.
Qed.

Lemma active_equipment_of_valid (rows : list MachineryRows.entry) :
  forallb row_ok rows = true ->
  MachineryForm.active_equipment (map AgriculturalMachinery.saved_of rows)
  = filter (fun r => String.eqb (AgriculturalMachinery.s_has_item r) "Y")
           (map AgriculturalMachinery.saved_of rows).
Proof.
  unfold MachineryForm.active_equipment.
  induction rows as [|row rest IH]; [reflexivity|].
  cbn [forallb map filter]. intros H. apply andb_prop in H as [Hrow Hrest].
  rewrite (IH Hrest).
  apply row_ok_iff in Hrow as (_ & Hs & Hq).
  pose proof (Hq MachineryRows.Quantity_new) as Q1.
  pose proof (Hq MachineryRows.Quantity_used) as Q2.
  pose proof (Hq MachineryRows.Quantity_out_of_service) as Q3.
  unfold MachineryRows.in_range in Q1, Q2, Q3. cbn [MachineryRows.get] in Q1, Q2, Q3.
  cbn [AgriculturalMachinery.saved_of AgriculturalMachinery.s_has_item
       AgriculturalMachinery.s_quantity_new AgriculturalMachinery.s_quantity_used
       AgriculturalMachinery.s_quantity_out_of_service].
  destruct (String.eqb (MachineryRows.has_item row) "Y") eqn:Ey; [|reflexivity].
  apply String.eqb_eq in Ey. specialize (Hs Ey).
  assert (E : (MachineryRows.quantity_new row >? 0)
              || (MachineryRows.quantity_used row >? 0)
              || (MachineryRows.quantity_out_of_service row >? 0) = true).
  { rewrite !orb_true_iff, !Z.gtb_ltb, !Z.ltb_lt. lia. }
  rewrite E. reflexivity.
Qed.

(** X10. After a validated save that goes through, the summary under the form
    lists exactly the holder's rows marked "Y", in order, and reports "no
    active machinery" when no row is marked: a validated "Y" row always has
    a positive quantity, so none is dropped. *)
Theorem summary_lists_marked_rows (rows : list MachineryRows.entry) (h : Z)
    (db : Db.database)
    (Hne : rows <> [])
    (Hh : Forall (fun row => MachineryRows.holder_id row = h) rows)
    (Hv : fst (MachineryRows.validate_machinery_data rows) = true) :
  result (run (MachineryForm.display_machinery_summary h) no_faults
              (persisted (run (AgriculturalMachinery.save_to_db rows) no_faults db)))
  = Val (match filter (fun r => String.eqb (AgriculturalMachinery.s_has_item r) "Y")
                      (map AgriculturalMachinery.saved_of rows) with
         | [] => MachineryForm.NoActiveMachinery
         | marked => MachineryForm.ActiveMachinery marked
         end).
Proof.
  rewrite display_machinery_summary_run.
  destruct (save_to_db_succeeds rows h db Hne Hh) as [_ ->].
  rewrite load_after_replace by exact Hh.
  rewrite validate_machinery_data_rows in Hv. cbn [fst] in Hv.
  unfold summary_of. rewrite active_equipment_of_valid by exact Hv.
  destruct rows as [|row rest]; [congruence|]. reflexivity.
Qed.

(** ** Progress tracker: marking, reading, uniqueness *)

Lemma main_mark_persisted (h s : Z) (f : faults) (db : Db.database) :
  persisted (run (MainSurvey.mark_section_complete h s) f db) = db
  \/ persisted (run (MainSurvey.mark_section_complete h s) f db)
     = persisted (run (MainSurvey.mark_section_complete h s) no_faults db).
Proof.
  page_cases with
    (unfold no_faults, ProgressTable.select_by_section_no, ProgressTable.set_completed,
       ProgressTable.insert_section_no).
  all: first [left; reflexivity | right; reflexivity].
Qed.

Lemma main_mark_store (h s : Z) (db : Db.database) :
  persisted (run (MainSurvey.mark_section_complete h s) no_faults db)
  = match ProgressTable.rows_of h s db with
    | [] => after (ProgressTable.insert_section_no h s) db
    | r :: _ => after (ProgressTable.set_completed (Db.p_id r)) db
    end.
Proof.
  rewrite main_mark_run. destruct (ProgressTable.rows_of h s db); reflexivity.
Qed.

Lemma set_row_completed_keeps (id : Z) (x : Db.progress_row) :
  Db.p_id (ProgressTable.set_row_completed id x) = Db.p_id x
  /\ Db.p_holder_id (ProgressTable.set_row_completed id x) = Db.p_holder_id x
  /\ Db.p_section_no (ProgressTable.set_row_completed id x) = Db.p_section_no x
  /\ Db.p_section_id (ProgressTable.set_row_completed id x) = Db.p_section_id x
  /\ (Db.p_completed x = true ->
      Db.p_completed (ProgressTable.set_row_completed id x) = true).
Proof.
  unfold ProgressTable.set_row_completed.
  destruct (Db.p_id x =? id); repeat split; auto.
Qed.

Lemma completed_sections_in (h : Z) (db : Db.database) (x : option Z) :
  In x (completed_sections h db)
  <-> exists r, In r (Db.holder_survey_progress db)
                /\ Db.p_holder_id r = h /\ Db.p_completed r = true
                /\ Db.p_section_no r = x.
Proof.
  unfold completed_sections. rewrite in_map_iff. split.
  - intros [r [Hx Hr]]. apply filter_In in Hr as [Hin Hq].
    apply andb_prop in Hq as [Hh Hc]. apply Z.eqb_eq in Hh. now exists r.
  - intros [r (Hin & Hh & Hc & Hx)]. exists r. split; [exact Hx|].
    apply filter_In. split; [exact Hin|]. now rewrite Hh, Z.eqb_refl, Hc.
Qed.

Lemma completed_sections_other (id h h' : Z) (t : list Db.progress_row) :
  (forall x, In x t -> Db.p_id x = id -> Db.p_holder_id x = h) ->
  h' <> h ->
  filter (fun r => (Db.p_holder_id r =? h') && Db.p_completed r)
         (map (ProgressTable.set_row_completed id) t)
  = filter (fun r => (Db.p_holder_id r =? h') && Db.p_completed r) t.
Proof.
  intros Hid Hne. induction t as [|x rest IH]; [reflexivity|].
  cbn [map filter].
  rewrite (IH (fun y Hy => Hid y (or_intror Hy))).
  destruct (set_row_completed_keeps id x) as (_ & Hh & _).
  destruct (Db.p_id x =? id) eqn:E.
  - apply Z.eqb_eq in E. rewrite Hh, (Hid x (or_introl eq_refl) E).
    destruct (h =? h') eqn:E'; [apply Z.eqb_eq in E'; congruence | reflexivity].
  - unfold ProgressTable.set_row_completed. rewrite E. reflexivity.
Qed.

(** X11. After [mark_section_complete(h, s)] went through, [get_completed_sections(h)]
    contains [s]; whatever any holder had completed before is still
    returned (nothing is ever un-marked); and, with unique ids, every other
    holder gets exactly the list it got before. *)
Theorem marked_section_is_reported (h s h' : Z) (db : Db.database) :
  let db' := persisted (run (MainSurvey.mark_section_complete h s) no_faults db) in
  let read := fun who d => result (run (MainSurvey.get_completed_sections who) no_faults d) in
  (exists l, read h db' = Val l /\ In (Some s) l)
  /\ (exists before after_,
         read h' db = Val before /\ read h' db' = Val after_
         /\ forall x, In x before -> In x after_)
  /\ (NoDup (map Db.p_id (Db.holder_survey_progress db)) -> h' <> h ->
      read h' db' = read h' db).
Proof.
  cbv zeta beta. rewrite !get_completed_sections_run, main_mark_store.
  destruct (ProgressTable.rows_of h s db) as [|r rest] eqn:E.
  - unfold after, ProgressTable.insert_section_no.
    cbn [Db.holder_survey_progress Db.with_progress].
    split; [|split].
    + eexists. split; [reflexivity|]. apply completed_sections_in.
      eexists. split; [cbn; apply in_elt|]. cbn. auto.
    + do 2 eexists. split; [reflexivity|]. split; [reflexivity|].
      intros x Hx. apply completed_sections_in in Hx as [r0 (Hin & Hr)].
      apply completed_sections_in. exists r0. split; [|exact Hr].
      cbn. apply in_or_app. now left.
    + intros _ Hne. f_equal. unfold completed_sections. cbn.
      rewrite filter_app. cbn.
      destruct (h =? h') eqn:E'; [apply Z.eqb_eq in E'; congruence|].
      cbn. now rewrite app_nil_r.
  - assert (Hin : In r (ProgressTable.rows_of h s db)) by (rewrite E; now left).
    apply filter_In in Hin as [Hin Hkey]. apply andb_prop in Hkey as [Hrh Hrs].
    apply Z.eqb_eq in Hrh.
    assert (Hsec : Db.p_section_no r = Some s).
    { destruct (Db.p_section_no r) as [x|]; [|discriminate Hrs].
      cbn in Hrs. apply Z.eqb_eq in Hrs. now subst. }
    unfold after, ProgressTable.set_completed.
    cbn [Db.holder_survey_progress Db.with_progress].
    split; [|split].
    + eexists. split; [reflexivity|]. apply completed_sections_in.
      exists (ProgressTable.set_row_completed (Db.p_id r) r). cbn.
      split; [now apply in_map|].
      destruct (set_row_completed_keeps (Db.p_id r) r) as (_ & -> & -> & _).
      repeat split; try assumption. apply set_row_completed_own.
    + do 2 eexists. split; [reflexivity|]. split; [reflexivity|].
      intros x Hx. apply completed_sections_in in Hx as [r0 (Hin0 & Hh0 & Hc0 & Hx0)].
      apply completed_sections_in.
      exists (ProgressTable.set_row_completed (Db.p_id r) r0). cbn.
      split; [now apply in_map|].
      destruct (set_row_completed_keeps (Db.p_id r) r0) as (_ & -> & -> & _ & Hc).
      repeat split; auto.
    + intros Hpk Hne. f_equal. unfold completed_sections. cbn. f_equal.
      apply (completed_sections_other (Db.p_id r) h h'); [|exact Hne].
      intros x Hx Hid.
      assert (x = r) by (eapply NoDup_map_eq; eauto). now subst.
Qed.

Lemma rows_of_length_after_mark (h s h' s' : Z) (db : Db.database) :
  (List.length
     (ProgressTable.rows_of h' s'
        (persisted (run (MainSurvey.mark_section_complete h s) no_faults db)))
   <= Nat.max 1 (List.length (ProgressTable.rows_of h' s' db)))%nat.
Proof.
  rewrite main_mark_store.
  destruct (ProgressTable.rows_of h s db) as [|r rest] eqn:E.
  - unfold ProgressTable.rows_of, after, ProgressTable.insert_section_no in *.
    cbn -[Nat.max].
    rewrite filter_app, length_app. cbn -[Nat.max].
    destruct (h =? h') eqn:Eh; cbn -[Nat.max]; [|lia].
    destruct (s =? s') eqn:Es; cbn -[Nat.max]; [|lia].
    apply Z.eqb_eq in Eh, Es. subst. rewrite E. cbn. lia.
  - rewrite rows_of_set_completed, length_map. lia.
Qed.

(** X12. [mark_section_complete] keeps the progress table free of duplicates:
    if no pair (holder, section) has more than one row, this still holds
    after a call, whether its database calls go through or raise. *)
Theorem mark_section_complete_keeps_pairs_unique (h s : Z) (f : faults)
    (db : Db.database)
    (Huniq : forall h' s', (List.length (ProgressTable.rows_of h' s' db) <= 1)%nat) :
  forall h' s',
    (List.length
       (ProgressTable.rows_of h' s'
          (persisted (run (MainSurvey.mark_section_complete h s) f db))) <= 1)%nat.
Proof.
  intros h' s'.
  destruct (main_mark_persisted h s f db) as [-> | ->]; [apply Huniq|].
  pose proof (rows_of_length_after_mark h s h' s' db). specialize (Huniq h' s'). lia.
Qed.

(** ** ORDER BY *)

Lemma insert_by_perm {A : Type} (key : A -> Z) (x : A) (l : list A) :
  Permutation (Db.insert_by key x l) (x :: l).
Proof.
  induction l as [|y t IH]; cbn [Db.insert_by]; [reflexivity|].
  destruct (key x <? key y); [reflexivity|].
  rewrite IH. apply perm_swap.
Qed.

Lemma order_by_perm {A : Type} (key : A -> Z) (l : list A) :
  Permutation (Db.order_by key l) l.
Proof.
  unfold Db.order_by.
  enough (G : forall acc, Permutation (fold_left (fun acc x => Db.insert_by key x acc) l acc)
                                      (acc ++ l)) by (apply (G [])).
  induction l as [|x t IH]; intros acc; cbn [fold_left].
  - now rewrite app_nil_r.
  - rewrite IH, insert_by_perm. cbn [app]. apply Permutation_middle.
Qed.

Lemma insert_by_sorted {A : Type} (key : A -> Z) (x : A) (l : list A) :
  StronglySorted (fun a b => key a <= key b) l ->
  StronglySorted (fun a b => key a <= key b) (Db.insert_by key x l).
Proof.
  induction 1 as [|y t Ht IH Hy]; cbn [Db.insert_by].
  - repeat constructor.
  - destruct (key x <? key y) eqn:E.
    + apply Z.ltb_lt in E. constructor; [now constructor|].
      constructor; [lia|]. eapply Forall_impl; [|exact Hy]. cbn beta. intros. lia.
    + apply Z.ltb_ge in E. constructor; [exact IH|].
      eapply Permutation_Forall; [symmetry; apply insert_by_perm|].
      constructor; assumption.
Qed.

Lemma order_by_sorted {A : Type} (key : A -> Z) (l : list A) :
  StronglySorted (fun a b => key a <= key b) (Db.order_by key l).
Proof.
  unfold Db.order_by.
  enough (G : forall acc,
             StronglySorted (fun a b => key a <= key b) acc ->
             StronglySorted (fun a b => key a <= key b)
               (fold_left (fun acc x => Db.insert_by key x acc) l acc))
    by (apply G; constructor).
  induction l as [|x t IH]; intros acc Hacc; cbn [fold_left]; [exact Hacc|].
  apply IH. now apply insert_by_sorted.
Qed.

Lemma insert_by_map {A : Type} (key : A -> Z) (g : A -> A) (x : A) (l : list A) :
  (forall y, key (g y) = key y) ->
  Db.insert_by key (g x) (map g l) = map g (Db.insert_by key x l).
Proof.
  intros Hk. induction l as [|y t IH]; cbn [Db.insert_by map]; [reflexivity|].
  rewrite !Hk. destruct (key x <? key y); cbn [map]; [reflexivity|]. now rewrite IH.
Qed.

Lemma order_by_map {A : Type} (key : A -> Z) (g : A -> A) (l : list A) :
  (forall y, key (g y) = key y) ->
  Db.order_by key (map g l) = map g (Db.order_by key l).
Proof.
  intros Hk. unfold Db.order_by.
  enough (G : forall acc,
             fold_left (fun acc x => Db.insert_by key x acc) (map g l) (map g acc)
             = map g (fold_left (fun acc x => Db.insert_by key x acc) l acc))
    by (apply (G [])).
  induction l as [|x t IH]; intros acc; cbn [fold_left map]; [reflexivity|].
  rewrite insert_by_map by exact Hk. apply IH.
Qed.

(** ** Labour questions *)

Lemma initialize_persisted (h : Z) (f : faults) (db : Db.database) :
  persisted (run (LabourQuestions.initialize_labour_questions h) f db) = db
  \/ persisted (run (LabourQuestions.initialize_labour_questions h) f db)
     = persisted (run (LabourQuestions.initialize_labour_questions h) no_faults db).
Proof.
  unfold LabourQuestions.initialize_labour_questions, LabourQuestions.default_questions.
  cbn [LabourQuestions.insert_defaults].
  page_cases with (unfold no_faults, HoldingLabour.insert_answer).
  all: first [left; reflexivity | right; reflexivity].
Qed.

Lemma fetch_questions_run (h : Z) (db : Db.database) :
  result (run (LabourQuestions.fetch_questions h) no_faults db)
  = Val (Db.order_by Db.hl_question_no
           (filter (fun r => Db.hl_holder_id r =? h) (Db.holding_labour db))).
Proof. reflexivity. Qed.

(** X13. For a holder without labour rows, [initialize_labour_questions] followed
    by [fetch_questions] gives the six default questions 2 to 7 in order,
    with counts 0 and the response "Not Applicable"; the six inserts are one
    transaction, so a call that raises leaves no question behind. *)
Theorem initialized_questions_are_fetched (h : Z) (db : Db.database)
    (Hnew : filter (fun r => Db.hl_holder_id r =? h) (Db.holding_labour db) = []) :
  (exists rows,
      result (run (LabourQuestions.fetch_questions h) no_faults
                  (persisted (run (LabourQuestions.initialize_labour_questions h)
                                  no_faults db)))
      = Val rows
      /\ map question_view rows = default_views h)
  /\ forall f,
       let db' := persisted (run (LabourQuestions.initialize_labour_questions h) f db) in
       db' = db
       \/ List.length (Db.holding_labour db') = (List.length (Db.holding_labour db) + 6)%nat.
Proof.
  split.
  - rewrite fetch_questions_run. eexists. split; [reflexivity|].
    unfold persisted, run, LabourQuestions.initialize_labour_questions,
      LabourQuestions.default_questions.
    cbn [LabourQuestions.insert_defaults].
    unfold_page. unfold no_faults, HoldingLabour.insert_answer.
    cbn -[filter Db.order_by].
    rewrite !filter_app, Hnew. cbn [filter Db.hl_holder_id app].
    rewrite Z.eqb_refl. cbn [app]. reflexivity.
  - intros f. cbv zeta.
    destruct (initialize_persisted h f db) as [-> | ->]; [now left|]. right.
    unfold persisted, run, LabourQuestions.initialize_labour_questions,
      LabourQuestions.default_questions.
    cbn [LabourQuestions.insert_defaults].
    unfold_page. unfold no_faults, HoldingLabour.insert_answer.
    cbn -[List.length]. rewrite !length_app. cbn [List.length]. lia.
Qed.

Lemma save_and_next_store (h : Z) (questions : list Db.labour_row) (cur : Z)
    (q : Db.labour_row) (male female total : option Z) (resp : option string)
    (db : Db.database) :
  persisted (run (HoldingLabour.save_and_next h questions cur q male female total resp)
                 no_faults db)
  = match find (fun x => Db.hl_question_no x =? cur + 1) questions with
    | Some _ => answer_written h q male female total resp db
    | None => marked_by_section_id h HoldingLabour.SECTION_NO
                (answer_written h q male female total resp db)
    end.
Proof.
  unfold answer_written, marked_by_section_id, ProgressTable.rows_of_id, after.
  page_cases with
    (unfold no_faults, ProgressTable.select_by_section_id, ProgressTable.set_completed,
       ProgressTable.insert_section_id, HoldingLabour.select_answer,
       HoldingLabour.update_answer, HoldingLabour.insert_answer).
  all: cbn; try reflexivity.
  all: repeat match goal with
         | H : filter ?p ?l = _ |- context [filter ?p ?l] => rewrite H
         end; reflexivity.
Qed.

Lemma answer_written_progress (h : Z) (q : Db.labour_row) (male female total : option Z)
    (resp : option string) (db : Db.database) :
  Db.holder_survey_progress (answer_written h q male female total resp db)
  = Db.holder_survey_progress db.
Proof.
  unfold answer_written, after, HoldingLabour.insert_answer, HoldingLabour.update_answer.
  destruct (filter _ (Db.holding_labour db)); reflexivity.
Qed.

Lemma marked_by_section_id_has_row (h sec : Z) (db : Db.database) :
  exists row,
    In row (Db.holder_survey_progress (marked_by_section_id h sec db))
    /\ Db.p_holder_id row = h
    /\ Db.p_section_id row = Some sec
    /\ Db.p_completed row = true.
Proof.
  unfold marked_by_section_id.
  destruct (ProgressTable.rows_of_id h sec db) as [|r rest] eqn:E.
  - unfold after, ProgressTable.insert_section_id. cbn.
    eexists. split; [apply in_elt|]. cbn. auto.
  - assert (Hin : In r (ProgressTable.rows_of_id h sec db)) by (rewrite E; now left).
    apply filter_In in Hin as [Hin Hkey]. apply andb_prop in Hkey as [Hrh Hrs].
    apply Z.eqb_eq in Hrh.
    assert (Hsec : Db.p_section_id r = Some sec).
    { destruct (Db.p_section_id r) as [x|]; [|discriminate Hrs].
      cbn in Hrs. apply Z.eqb_eq in Hrs. now subst. }
    exists (ProgressTable.set_row_completed (Db.p_id r) r).
    unfold after, ProgressTable.set_completed. cbn.
    split; [now apply in_map|].
    destruct (set_row_completed_keeps (Db.p_id r) r) as (_ & -> & _ & -> & _).
    repeat split; try assumption. apply set_row_completed_own.
Qed.

(** X14. "Save & Next" marks section 2 complete exactly when no question follows
    the current one: while a question numbered one higher exists the
    progress table is left as it was, and on the last question a completed
    progress row of the holder keyed [section_id = 2] is in the table
    afterwards. *)
Theorem section_completes_with_last_question (h : Z) (questions : list Db.labour_row)
    (cur : Z) (q : Db.labour_row) (male female total : option Z)
    (resp : option string) (db : Db.database) :
  let r := run (HoldingLabour.save_and_next h questions cur q male female total resp)
               no_faults db in
  result r = Val tt
  /\ (forall next_q,
         find (fun x => Db.hl_question_no x =? cur + 1) questions = Some next_q ->
         Db.holder_survey_progress (persisted r) = Db.holder_survey_progress db)
  /\ (find (fun x => Db.hl_question_no x =? cur + 1) questions = None ->
      exists row,
        In row (Db.holder_survey_progress (persisted r))
        /\ Db.p_holder_id row = h
        /\ Db.p_section_id row = Some HoldingLabour.SECTION_NO
        /\ Db.p_completed row = true).
Proof.
  cbv zeta. rewrite save_and_next_store. split; [|split].
  - destruct (save_and_next_outcomes h questions cur q male female total resp no_faults db)
      as [[Hr _]|[_ [k [_ Hk]]]]; [exact Hr | exfalso; now apply Hk].
  - intros next_q ->. apply answer_written_progress.
  - intros ->. apply marked_by_section_id_has_row.
Qed.

Lemma marked_by_section_id_labour (h sec : Z) (db : Db.database) :
  Db.holding_labour (marked_by_section_id h sec db) = Db.holding_labour db.
Proof.
  unfold marked_by_section_id, after, ProgressTable.insert_section_id,
    ProgressTable.set_completed.
  destruct (ProgressTable.rows_of_id h sec db); reflexivity.
Qed.

(** X15. The answer of "Save & Next" is what the holder's next fetch shows: when
    the holder has a row for the current question, [fetch_questions]
    afterwards returns the same questions in the same order, the current one
    carrying the submitted counts and response and every other one
    unchanged. *)
Theorem saved_answer_is_fetched (h : Z) (questions : list Db.labour_row)
    (cur : Z) (q : Db.labour_row) (male female total : option Z)
    (resp : option string) (db : Db.database)
    (Hrow : existsb (fun r => (Db.hl_holder_id r =? h)
                              && (Db.hl_question_no r =? Db.hl_question_no q))
                    (Db.holding_labour db) = true) :
  let r := run (HoldingLabour.save_and_next h questions cur q male female total resp)
               no_faults db in
  exists before,
    result (run (LabourQuestions.fetch_questions h) no_faults db) = Val before
    /\ result (run (LabourQuestions.fetch_questions h) no_faults (persisted r))
       = Val (map (fun x => if Db.hl_question_no x =? Db.hl_question_no q
                            then LabourQuestions.answered male female total resp x
                            else x)
                  before).
Proof.
  cbv zeta. rewrite !fetch_questions_run. eexists. split; [reflexivity|]. f_equal.
  set (upd := fun r => if (Db.hl_holder_id r =? h)
                          && (Db.hl_question_no r =? Db.hl_question_no q)
                       then Db.mkLabourRow (Db.hl_id r) (Db.hl_holder_id r)
                              (Db.hl_question_no r) (Db.hl_question_text r)
                              male female total resp
                       else r).
  assert (Hlab : Db.holding_labour
                   (persisted (run (HoldingLabour.save_and_next h questions cur q
                                      male female total resp) no_faults db))
                 = map upd (Db.holding_labour db)).
  { rewrite save_and_next_store.
    assert (Hw : Db.holding_labour (answer_written h q male female total resp db)
                 = map upd (Db.holding_labour db)).
    { unfold answer_written.
      destruct (filter _ (Db.holding_labour db)) as [|r0 rest] eqn:E.
      - exfalso. apply existsb_exists in Hrow as [x [Hin Hx]].
        assert (Hf : In x (filter (fun r => (Db.hl_holder_id r =? h)
                                            && (Db.hl_question_no r =? Db.hl_question_no q))
                                  (Db.holding_labour db)))
          by (apply filter_In; now split).
        rewrite E in Hf. destruct Hf.
      - reflexivity. }
    destruct (find _ questions); [exact Hw|].
    now rewrite marked_by_section_id_labour. }
  rewrite Hlab.
  assert (Hkeep : forall y, Db.hl_holder_id (upd y) = Db.hl_holder_id y
                            /\ Db.hl_question_no (upd y) = Db.hl_question_no y).
  { intros y. unfold upd. destruct (_ && _); split; reflexivity. }
  rewrite filter_map_stable by (intros y; now rewrite (proj1 (Hkeep y))).
  rewrite order_by_map by (intros y; apply Hkeep).
  apply map_ext_in. intros x Hx.
  apply (Permutation_in _ (order_by_perm _ _)) in Hx.
  apply filter_In in Hx as [_ Hx]. unfold upd, LabourQuestions.answered.
  rewrite Hx. reflexivity.
Qed.

(** ** Land use: loading and the submit block *)

Lemma filter_none {A : Type} (p : A -> bool) (l : list A) :
  (forall x, In x l -> p x = false) -> filter p l = [].
Proof.
  induction l as [|x t IH]; intros H; [reflexivity|]. cbn [filter].
  rewrite (H x (or_introl eq_refl)). apply IH. intros y Hy. apply H. now right.
Qed.

Lemma of_holder_first_time (h : Z) (db : Db.database) (p : Db.parcel_row) :
  filter (fun r => Db.lu_holder_id r =? h) (Db.land_use db) = [] ->
  LandUseForm.of_holder h db p = false.
Proof.
  intros Hnone. unfold LandUseForm.of_holder.
  destruct (existsb _ (Db.land_use db)) eqn:E; [|reflexivity].
  apply existsb_exists in E as [r [Hin Hr]]. apply andb_prop in Hr as [Hh _].
  assert (Hf : In r (filter (fun r => Db.lu_holder_id r =? h) (Db.land_use db)))
    by (apply filter_In; now split).
  rewrite Hnone in Hf. destruct Hf.
Qed.

(** X16. [load_existing_land_use_data] never raises and never changes the store.
    It returns [(None, None)] as soon as one of its database calls raises,
    and [(None, [])] for a holder without a land-use record: the form then
    starts from its defaults. *)
Theorem load_existing_land_use_data_total (h : Z) (f : faults) (db : Db.database) :
  let r := run (LandUseForm.load_existing_land_use_data h) f db in
  persisted r = db
  /\ exists v notes,
       result r = Val (v, notes)
       /\ (some_call_raised f r -> v = (None, None))
       /\ (~ some_call_raised f r ->
           filter (fun r => Db.lu_holder_id r =? h) (Db.land_use db) = [] ->
           v = (None, Some [])).
Proof.
  cbv zeta. unfold some_call_raised.
  assert (Hparcels :
            filter (fun r => Db.lu_holder_id r =? h) (Db.land_use db) = [] ->
            filter (LandUseForm.of_holder h db) (Db.land_use_parcels db) = []).
  { intros Hnone. apply filter_none. intros p _. now apply of_holder_first_time. }
  revert Hparcels.
  unfold_page. unfold LandUseForm.load_existing_land_use_data.
  unfold_page. unfold LandUseForm.select_main, LandUseForm.select_parcels.
  page_cbn. repeat page_step.
  all: intros Hparcels; split; [reflexivity|]; do 2 eexists; split; [reflexivity|].
  all: split; intros H; try reflexivity.
  all: try (exfalso; apply H; find_raised).
  all: try (exfalso; revert H; none_raised).
  all: try (intros Hnone; rewrite (Hparcels Hnone); reflexivity).
  all: intros Hnone; congruence.
Qed.

(** What [save_land_use_to_db] returns and commits does not depend on the
    messages already on the page. *)
Lemma save_land_use_to_db_any_page (d : LandUse.land_use_data) (h : Z) (f : faults)
    (db : Db.database) (u : list ui_event) :
  fst (LandUse.save_land_use_to_db d h f (mkWorld db None u [] 0%nat))
  = result (run (LandUse.save_land_use_to_db d h) f db)
  /\ store (snd (LandUse.save_land_use_to_db d h f (mkWorld db None u [] 0%nat)))
     = persisted (run (LandUse.save_land_use_to_db d h) f db).
Proof.
  (page_cases with
     (unfold LandUse.select_id, LandUse.update_land_use, LandUse.delete_parcels,
        LandUse.insert_land_use, LandUse.insert_parcels));
    split; reflexivity.
Qed.

Lemma on_submit_run (h : Z) (total_area years_used : Q)
    (main_purpose : string) (crop_methods : list string) (num_parcels : Z)
    (location : string) (edited_df : list ParcelRows.frame_row)
    (f : faults) (db : Db.database) :
  run (LandUseForm.on_submit h total_area years_used main_purpose crop_methods
         num_parcels location edited_df) f db
  = let w := mkWorld db None (snd (ParcelRows.validate_parcels edited_df)) [] 0%nat in
    match map LandUseForm.MainError
              (LandUseForm.validate_main_land_use total_area years_used crop_methods
                 num_parcels location)
          ++ map LandUseForm.ParcelError (fst (ParcelRows.validate_parcels edited_df)) with
    | [] =>
        match LandUseForm.parcels_of_rows edited_df with
        | inl e => (Exc e, w)
        | inr parcels_list =>
            (ok <- LandUse.save_land_use_to_db
                     (LandUse.mkLandUseData total_area years_used main_purpose num_parcels
                        location crop_methods parcels_list) h ;;
             if ok then ret (true, [LandUseForm.Balloons]) else ret (false, [])) f w
        end
    | e :: rest => (Val (false, e :: rest), w)
    end.
Proof.
  unfold run, LandUseForm.on_submit, LandUseForm.validate_parcels_shown.
  unfold bind at 1. cbn [store session ui issued clock app].
  destruct (map LandUseForm.MainError _ ++ map LandUseForm.ParcelError _); [|reflexivity].
  destruct (LandUseForm.parcels_of_rows edited_df); reflexivity.
Qed.

Lemma parcel_of_row_complete (row : ParcelRows.frame_row) :
  (exists p, LandUseForm.parcel_of_row row = inr p) <-> row_complete row.
Proof.
  unfold LandUseForm.parcel_of_row, row_complete.
  destruct (ParcelRows.Parcel_No row) as [q|], (ParcelRows.Tenure_of_Land row) as [t|],
    (ParcelRows.Use_of_Land row) as [u|], (ParcelRows.Land_Clearing_Methods row) as [c|];
    cbn [PyNum.int LandUseForm.text_of].
  all: split;
    [ intros [p H]; first [discriminate H | repeat split; discriminate]
    | intros (H1 & H2 & H3 & H4); first [congruence | eauto] ].
Qed.

(** The rows are converted exactly when each has a parcel number and its
    three texts. *)
Lemma parcels_of_rows_complete (rows : list ParcelRows.frame_row) :
  (exists ps, LandUseForm.parcels_of_rows rows = inr ps) <-> Forall row_complete rows.
Proof.
  induction rows as [|row rest IH]; cbn [LandUseForm.parcels_of_rows].
  - split; [constructor | eauto].
  - rewrite Forall_cons_iff, <- IH, <- parcel_of_row_complete.
    destruct (LandUseForm.parcel_of_row row) as [e|p].
    + split; [intros [ps H]; discriminate H | intros [[p H] _]; discriminate H].
    + destruct (LandUseForm.parcels_of_rows rest) as [e|ps].
      * split; [intros [ps H]; discriminate H | intros [_ [ps H]]; discriminate H].
      * split; eauto.
Qed.

(** X17. The land-use form is saved only when both validators return no
    error.  With an error from either, the submit block shows every error of
    the main record followed by every error of the parcels, makes no
    database call and returns False.  With none, the rows are converted to
    dicts, which goes through exactly when every row has a parcel number and
    its three texts: then the block commits exactly what
    [save_land_use_to_db] commits for the converted parcels and returns True
    exactly when that save does; otherwise (a row with an empty cell, which
    no validator looks at) the conversion raises, nothing is saved and the
    exception leaves the section. *)
Theorem land_use_submit_gated (h : Z) (total_area years_used : Q)
    (main_purpose : string) (crop_methods : list string) (num_parcels : Z)
    (location : string) (edited_df : list ParcelRows.frame_row)
    (f : faults) (db : Db.database) :
  let main_errors :=
    LandUseForm.validate_main_land_use total_area years_used crop_methods num_parcels
      location in
  let parcel_errors := fst (ParcelRows.validate_parcels edited_df) in
  let r := run (LandUseForm.on_submit h total_area years_used main_purpose crop_methods
                  num_parcels location edited_df) f db in
  (main_errors <> [] \/ parcel_errors <> [] ->
   result r = Val (false, map LandUseForm.MainError main_errors
                          ++ map LandUseForm.ParcelError parcel_errors)
   /\ calls r = []
   /\ persisted r = db)
  /\ (main_errors = [] -> parcel_errors = [] ->
      (forall parcels_list,
          LandUseForm.parcels_of_rows edited_df = inr parcels_list ->
          let data :=
            LandUse.mkLandUseData total_area years_used main_purpose num_parcels location
              crop_methods parcels_list in
          persisted r = persisted (run (LandUse.save_land_use_to_db data h) f db)
          /\ (result r = Val (true, [LandUseForm.Balloons])
              <-> result (run (LandUse.save_land_use_to_db data h) f db) = Val true))
      /\ (forall e,
             LandUseForm.parcels_of_rows edited_df = inl e ->
             result r = Exc e /\ calls r = [] /\ persisted r = db))
  /\ ((exists parcels_list, LandUseForm.parcels_of_rows edited_df = inr parcels_list)
      <-> Forall row_complete edited_df).
Proof.
  cbv zeta.
  set (main_errors := LandUseForm.validate_main_land_use _ _ _ _ _).
  set (parcel_errors := fst (ParcelRows.validate_parcels edited_df)).
  rewrite on_submit_run. fold main_errors. fold parcel_errors.
  split; [|split; [|apply parcels_of_rows_complete]].
  - intros Herr.
    destruct (map LandUseForm.MainError main_errors
              ++ map LandUseForm.ParcelError parcel_errors) as [|e rest] eqn:E.
    + exfalso. apply app_eq_nil in E as [E1 E2].
      apply map_eq_nil in E1, E2. tauto.
    + repeat split.
  - intros Hm Hp. rewrite Hm, Hp. cbn [map app]. split.
    + intros parcels_list ->.
      destruct (save_land_use_to_db_any_page
                  (LandUse.mkLandUseData total_area years_used main_purpose num_parcels
                     location crop_methods parcels_list)
                  h f db (snd (ParcelRows.validate_parcels edited_df))) as [Hr Hs].
      rewrite <- Hr, <- Hs. unfold bind, result, persisted.
      destruct (LandUse.save_land_use_to_db _ h f _) as [[[|]|e] w']; cbn [fst snd ret];
        (split; [reflexivity|]); split; intros H; first [reflexivity | discriminate H].
    + intros e ->. repeat split.
Qed.

(** A row added in the editor and left empty passes both validators; the
    submit block then raises on [int] of its parcel number, before any
    database call. *)
Example blank_row_raises_on_submit :
  let r := run (LandUseForm.on_submit 42 (5 # 1) (3 # 1) "For Sale Only/Commercial"
                  ["Open Field"] 1 "Andros" [Sample.blank_row]) no_faults Db.empty in
  LandUseForm.validate_main_land_use (5 # 1) (3 # 1) ["Open Field"] 1 "Andros" = []
  /\ fst (ParcelRows.validate_parcels [Sample.blank_row]) = []
  /\ result r = Exc (OtherError "ValueError: cannot convert float NaN to integer")
  /\ calls r = []
  /\ persisted r = Db.empty.
Proof.
  cbv zeta. repeat split.
Qed.

(** ** Land use: one record per holder, parcels replaced on save *)



Lemma integer_inr (n m : Z) : Db.integer n = inr m -> m = n.
Proof.
  unfold Db.integer. destruct ((n <? -2147483648) || (2147483647 <? n)); congruence.
Qed.

Lemma varchar_fits (n : Z) (s s' : string) :
  PyStr.len s <= n -> Db.varchar n s = inr s' -> s' = s.
Proof.
  intros Hlen. unfold Db.varchar. apply Z.leb_le in Hlen. rewrite Hlen. congruence.
Qed.

(** A tuple keeps its key when it is fitted to the columns. *)
Lemma parcel_columns_keys (v v' : LandUse.parcel_tuple) :
  LandUse.parcel_columns v = inr v' ->
  tuple_land_use_id v' = tuple_land_use_id v /\ tuple_parcel_no v' = tuple_parcel_no v.
Proof.
  destruct v as [[[[[[[lid pno] tot] dev] ten] use] irr] clr].
  unfold LandUse.parcel_columns.
  destruct (Db.integer pno) as [e|pno'] eqn:Ep; [discriminate|].
  apply integer_inr in Ep. subst pno'.
  repeat match goal with
         | |- context [match ?x with inl _ => _ | inr _ => _ end] =>
             destruct x; [discriminate|]
         end.
  intros H. injection H as <-. now split.
Qed.

(** What a bulk INSERT that went through has done: the new rows follow the
    old ones and carry the tuples' keys, and these keys were free. *)
Lemma add_parcels_inv (id : Z) (values : list LandUse.parcel_tuple) :
  forall (t t' : list Db.parcel_row) (seq seq' : Z),
    Forall (fun v => tuple_land_use_id v = id) values ->
    LandUse.add_parcels values t seq = inr (t', seq') ->
    exists t_new,
      t' = t ++ t_new
      /\ map Db.lp_parcel_no t_new = map tuple_parcel_no values
      /\ Forall (fun r => Db.lp_land_use_id r = id) t_new
      /\ NoDup (map tuple_parcel_no values).
Proof.
  induction values as [|v rest IH]; intros t t' seq seq' Hid Hadd.
  - cbn in Hadd. injection Hadd as <- <-. exists []. rewrite app_nil_r.
    repeat split; constructor.
  - apply Forall_cons_iff in Hid as [Hv Hrest].
    cbn [LandUse.add_parcels] in Hadd.
    destruct (LandUse.parcel_columns v) as [e|v'] eqn:Ev; [discriminate|].
    apply parcel_columns_keys in Ev as [Hlid Hpno].
    destruct v' as [[[[[[[lid pno] tot] dev] ten] use] irr] clr].
    cbn [tuple_land_use_id tuple_parcel_no] in Hlid, Hpno.
    destruct (existsb _ t) eqn:E; [discriminate|].
    destruct (IH _ _ _ _ Hrest Hadd) as (t_new & Ht & Hm & Hall & Hnd).
    exists (Db.mkParcelRow seq lid pno tot dev ten use irr clr :: t_new).
    split; [rewrite Ht, <- app_assoc; reflexivity|].
    split; [cbn [map Db.lp_parcel_no]; now rewrite Hm, Hpno|].
    split; [constructor; [cbn; congruence | exact Hall]|].
    cbn [map]. constructor; [|exact Hnd].
    (* the key of [v] is not among the rest: the row of [v] was in the table
       when the rest was added *)
    clear IH E. rewrite <- Hpno. clear Hpno.
    assert (G : forall (vs : list LandUse.parcel_tuple) (u u' : list Db.parcel_row) (s s' : Z),
               Forall (fun v => tuple_land_use_id v = id) vs ->
               LandUse.add_parcels vs u s = inr (u', s') ->
               forall r, In r u -> Db.lp_land_use_id r = id ->
                         ~ In (Db.lp_parcel_no r) (map tuple_parcel_no vs)).
    { clear. induction vs as [|w ws IHw]; intros u u' s s' Hid Hadd r Hin Hr; [intros []|].
      apply Forall_cons_iff in Hid as [Hw Hws].
      cbn [LandUse.add_parcels] in Hadd.
      destruct (LandUse.parcel_columns w) as [e|w'] eqn:Ew; [discriminate|].
      apply parcel_columns_keys in Ew as [Hlid Hpno].
      destruct w' as [[[[[[[lid pno] tot] dev] ten] use] irr] clr].
      cbn [tuple_land_use_id tuple_parcel_no] in Hlid, Hpno.
      destruct (existsb _ u) eqn:E; [discriminate|].
      cbn [map]. intros [Heq|Hmem].
      - assert (Hex : existsb (fun r0 => (Db.lp_land_use_id r0 =? lid)
                                         && (Db.lp_parcel_no r0 =? pno)) u = true).
        { apply existsb_exists. exists r. split; [exact Hin|].
          apply andb_true_intro. split; apply Z.eqb_eq; congruence. }
        congruence.
      - refine (IHw _ _ _ _ Hws Hadd r _ Hr Hmem). apply in_or_app. now left. }
    refine (G rest _ _ _ _ Hrest Hadd (Db.mkParcelRow seq lid pno tot dev ten use irr clr)
              _ _).
    + apply in_or_app. right. now left.
    + cbn. congruence.
Qed.

Lemma filter_all {A : Type} (p : A -> bool) (l : list A) :
  (forall x, In x l -> p x = true) -> filter p l = l.
Proof.
  induction l as [|x t IH]; intros H; [reflexivity|]. cbn [filter].
  rewrite (H x (or_introl eq_refl)). f_equal. apply IH. intros y Hy. apply H. now right.
Qed.

(** The store a land-use save that returned True has committed, under any
    plan: the main record updated in place or appended with its values
    fitted to the columns, the holder's earlier parcels deleted and the
    new ones added. *)
Lemma save_true_store (d : LandUse.land_use_data) (h : Z) (f : faults)
    (db : Db.database) :
  let r := run (LandUse.save_land_use_to_db d h) f db in
  result r = Val true ->
  exists area years purpose n place t' seq',
    LandUse.main_columns d = inr (area, years, purpose, n, place)
    /\ Db.land_use (persisted r)
       = match filter (fun r => Db.lu_holder_id r =? h) (Db.land_use db) with
         | r0 :: _ =>
             map (fun r => if Db.lu_id r =? Db.lu_id r0
                           then Db.mkLandUseRow (Db.lu_id r) (Db.lu_holder_id r)
                                  area years purpose n place (LandUse.crop_methods d)
                           else r)
                 (Db.land_use db)
         | [] => Db.land_use db
                 ++ [Db.mkLandUseRow (Db.land_use_seq db) h area years purpose n place
                       (LandUse.crop_methods d)]
         end
    /\ LandUse.add_parcels
         (map (fun p => (land_use_target h db, LandUse.parcel_no p, LandUse.total_acres p,
                         LandUse.developed_acres p, LandUse.tenure p,
                         LandUse.use_of_land p, LandUse.irrigated_area p,
                         LandUse.land_clearing p)) (LandUse.parcels d))
         (match filter (fun r => Db.lu_holder_id r =? h) (Db.land_use db) with
          | r0 :: _ => filter (fun p => negb (Db.lp_land_use_id p =? Db.lu_id r0))
                              (Db.land_use_parcels db)
          | [] => Db.land_use_parcels db
          end)
         (Db.land_use_parcels_seq db)
       = inr (t', seq')
    /\ Db.land_use_parcels (persisted r) = t'.
Proof.
  cbv zeta. unfold land_use_target.
  page_cases with
    (unfold LandUse.select_id, LandUse.update_land_use, LandUse.delete_parcels,
       LandUse.insert_land_use, LandUse.insert_parcels).
  all: try (intros H; discriminate H).
  all: intros _; do 7 eexists.
  all: repeat match goal with
              | H : LandUse.parcels _ = _ |- _ => rewrite H; clear H
              end.
  all: cbn [map LandUse.add_parcels].
  all: repeat split; first [eassumption | reflexivity].
Qed.

(** The values of a main record that fits its columns: the area and the
    years rounded to two decimals, the rest as submitted when the purpose
    and the location are within their lengths. *)
Lemma main_columns_inv (d : LandUse.land_use_data) (area years : Q)
    (purpose : string) (n : Z) (place : string) :
  PyStr.len (LandUse.main_purpose d) <= 100 ->
  PyStr.len (LandUse.location d) <= 200 ->
  LandUse.main_columns d = inr (area, years, purpose, n, place) ->
  Db.decimal 10 2 (LandUse.total_area d) = inr area
  /\ Db.decimal 5 2 (LandUse.years_used d) = inr years
  /\ purpose = LandUse.main_purpose d
  /\ n = LandUse.num_parcels d
  /\ place = LandUse.location d.
Proof.
  intros Hp Hl. unfold LandUse.main_columns.
  destruct (Db.decimal 10 2 _) as [e|a]; [discriminate|].
  destruct (Db.decimal 5 2 _) as [e|y]; [discriminate|].
  destruct (Db.varchar 100 _) as [e|p] eqn:Ep; [discriminate|].
  destruct (Db.integer _) as [e|m] eqn:Em; [discriminate|].
  destruct (Db.varchar 200 _) as [e|l] eqn:El; [discriminate|].
  intros H. injection H as <- <- <- <- <-.
  apply varchar_fits in Ep, El; [|assumption..]. apply integer_inr in Em.
  repeat split; assumption.
Qed.

Lemma load_land_use_run (h : Z) (db : Db.database) :
  result (run (LandUseForm.load_existing_land_use_data h) no_faults db)
  = Val ((match filter (fun r => Db.lu_holder_id r =? h) (Db.land_use db) with
          | [] => None
          | r :: _ => Some (Db.lu_total_area_acres r, Db.lu_years_agriculture r,
                            Db.lu_main_purpose r, Db.lu_num_parcels r, Db.lu_location r,
                            Db.lu_crop_methods r)
          end,
          Some (map (fun p => (Db.lp_parcel_no p, Db.lp_total_acres p,
                               Db.lp_developed_acres p, Db.lp_tenure p,
                               Db.lp_use_of_land p, Db.lp_irrigated_area p,
                               Db.lp_land_clearing p))
                    (Db.order_by Db.lp_parcel_no
                       (filter (LandUseForm.of_holder h db) (Db.land_use_parcels db))))),
         []).
Proof. reflexivity. Qed.

Lemma existsb_filter {A : Type} (a b : A -> bool) (l : list A) :
  existsb (fun x => a x && b x) l = existsb b (filter a l).
Proof.
  induction l as [|x t IH]; [reflexivity|]. cbn [existsb filter].
  destruct (a x); cbn [andb existsb orb]; now rewrite IH.
Qed.

Lemma sorted_map_key {A : Type} (key : A -> Z) (l : list A) :
  StronglySorted (fun a b => key a <= key b) l -> StronglySorted Z.le (map key l).
Proof.
  induction 1 as [|x t _ IH Hx]; cbn [map]; constructor; [exact IH|].
  apply Forall_map. exact Hx.
Qed.

Lemma sorted_nodup_strict (l : list Z) :
  StronglySorted Z.le l -> NoDup l -> StronglySorted Z.lt l.
Proof.
  induction 1 as [|x t _ IH Hx]; intros Hnd; constructor.
  - apply IH. now apply NoDup_cons_iff in Hnd.
  - apply NoDup_cons_iff in Hnd as [Hx' _].
    rewrite Forall_forall in *. intros y Hy. specialize (Hx y Hy).
    assert (x <> y) by (intros ->; contradiction). lia.
Qed.

(** X19. Parcels are replaced on save and loaded by parcel number.  Whenever
    [save_land_use_to_db] returns True, on a store that satisfies the table
    constraints and for a purpose and a location within the lengths of their
    columns, loading the holder gives a main record with the submitted
    purpose, parcel count, location and crop methods, the area and the years
    rounded to two decimals as their DECIMAL columns store them, and exactly
    the submitted parcels' numbers in ascending order: these were distinct,
    and no parcel of an earlier save is left. *)
Theorem land_use_parcels_round_trip (d : LandUse.land_use_data) (h : Z)
    (f : faults) (db : Db.database)
    (Hschema : land_use_schema_ok h db)
    (Hpurpose : PyStr.len (LandUse.main_purpose d) <= 100)
    (Hlocation : PyStr.len (LandUse.location d) <= 200)
    (Hsaved : result (run (LandUse.save_land_use_to_db d h) f db) = Val true) :
  let r := run (LandUse.save_land_use_to_db d h) f db in
  exists area years loaded,
    result (run (LandUseForm.load_existing_land_use_data h) no_faults (persisted r))
    = Val ((Some (area, years, LandUse.main_purpose d, LandUse.num_parcels d,
                  LandUse.location d, LandUse.crop_methods d),
            Some loaded), [])
    /\ Db.decimal 10 2 (LandUse.total_area d) = inr area
    /\ Db.decimal 5 2 (LandUse.years_used d) = inr years
    /\ Permutation (map parcel_number loaded)
                   (map LandUse.parcel_no (LandUse.parcels d))
    /\ StronglySorted Z.lt (map parcel_number loaded).
Proof.
  cbv zeta.
  destruct (save_true_store d h f db Hsaved)
    as (area & years & purpose & n & place & t' & seq' & Hcols & Hlu & Hadd & Hpar).
  destruct (main_columns_inv d area years purpose n place Hpurpose Hlocation Hcols)
    as (Harea & Hyears & -> & -> & ->).
  set (db' := persisted (run (LandUse.save_land_use_to_db d h) f db)) in *.
  destruct Hschema as [Hone Hfk].
  set (vals := map (fun p => (land_use_target h db, LandUse.parcel_no p,
                              LandUse.total_acres p, LandUse.developed_acres p,
                              LandUse.tenure p, LandUse.use_of_land p,
                              LandUse.irrigated_area p, LandUse.land_clearing p))
                   (LandUse.parcels d)) in *.
  assert (Hvid : Forall (fun v => tuple_land_use_id v = land_use_target h db) vals).
  { unfold vals. apply Forall_forall. intros v Hv.
    apply in_map_iff in Hv as [p [<- _]]. reflexivity. }
  assert (Hvno : map tuple_parcel_no vals = map LandUse.parcel_no (LandUse.parcels d)).
  { unfold vals. rewrite map_map. reflexivity. }
  destruct (add_parcels_inv _ _ _ _ _ _ Hvid Hadd) as (t_new & Ht & Hm & Hall & Hnd).
  rewrite Hvno in Hm, Hnd.
  (* the holder's record after the save *)
  assert (F1 : filter (fun r => Db.lu_holder_id r =? h) (Db.land_use db')
               = [Db.mkLandUseRow (land_use_target h db) h area years
                    (LandUse.main_purpose d) (LandUse.num_parcels d) (LandUse.location d)
                    (LandUse.crop_methods d)]).
  { rewrite Hlu. unfold land_use_target.
    destruct (filter (fun r => Db.lu_holder_id r =? h) (Db.land_use db))
      as [|r0 rest] eqn:Ef.
    - rewrite filter_app, Ef. cbn. rewrite Z.eqb_refl. reflexivity.
    - destruct rest; [|cbn in Hone; lia].
      assert (Hr0 : Db.lu_holder_id r0 = h).
      { assert (Hin : In r0 (filter (fun r => Db.lu_holder_id r =? h) (Db.land_use db)))
          by (rewrite Ef; now left).
        apply filter_In in Hin as [_ Hin]. now apply Z.eqb_eq. }
      rewrite filter_map_stable
        by (intros x; destruct (Db.lu_id x =? Db.lu_id r0); reflexivity).
      rewrite Ef. cbn [map]. rewrite Z.eqb_refl, Hr0. reflexivity. }
  (* the holder's parcels after the save: the new ones *)
  assert (Hold : forall x,
             In x (match filter (fun r => Db.lu_holder_id r =? h) (Db.land_use db) with
                   | r0 :: _ => filter (fun p => negb (Db.lp_land_use_id p =? Db.lu_id r0))
                                       (Db.land_use_parcels db)
                   | [] => Db.land_use_parcels db
                   end) ->
             Db.lp_land_use_id x <> land_use_target h db).
  { unfold land_use_target.
    destruct (filter (fun r => Db.lu_holder_id r =? h) (Db.land_use db)) as [|r0 rest].
    - intros x Hx. apply Hfk in Hx. lia.
    - intros x Hx. apply filter_In in Hx as [_ Hx].
      now apply negb_true_iff, Z.eqb_neq in Hx. }
  assert (F3 : filter (LandUseForm.of_holder h db') (Db.land_use_parcels db') = t_new).
  { rewrite Hpar, Ht, filter_app.
    assert (Hof : forall p, LandUseForm.of_holder h db' p
                            = (land_use_target h db =? Db.lp_land_use_id p)).
    { intros p. unfold LandUseForm.of_holder.
      rewrite (existsb_filter (fun r => Db.lu_holder_id r =? h)
                 (fun r => Db.lu_id r =? Db.lp_land_use_id p)), F1.
      cbn. apply orb_false_r. }
    rewrite filter_none, filter_all; [reflexivity| |].
    - intros x Hx. rewrite Hof. apply Z.eqb_eq. symmetry.
      rewrite Forall_forall in Hall. now apply Hall.
    - intros x Hx. rewrite Hof. apply Z.eqb_neq. intros E. now apply (Hold x Hx). }
  rewrite load_land_use_run, F1, F3.
  exists area, years. eexists. split; [reflexivity|].
  split; [exact Harea|]. split; [exact Hyears|].
  rewrite map_map. cbn [parcel_number].
  assert (Hperm : Permutation (map Db.lp_parcel_no (Db.order_by Db.lp_parcel_no t_new))
                              (map LandUse.parcel_no (LandUse.parcels d))).
  { rewrite <- Hm. apply Permutation_map, order_by_perm. }
  split; [exact Hperm|].
  apply sorted_nodup_strict.
  - apply sorted_map_key, order_by_sorted.
  - eapply Permutation_NoDup; [symmetry; exact Hperm | exact Hnd].
Qed.

(** ** The further properties at concrete inputs *)

Lemma validate_machinery_data_accepts_iff_witness :
  fst (MachineryRows.validate_machinery_data [Sample.tractor; Sample.sprayer]) = true.
Proof.
  apply (proj2 (validate_machinery_data_accepts_iff [Sample.tractor; Sample.sprayer])).
  intros row [<-|[<-|[]]]; unfold MachineryRows.in_range;
    (split; [vm_compute; discriminate|]);
    (split; [intros Hy; first [discriminate Hy | vm_compute; discriminate]|]);
    intros q; destruct q; cbn; lia.
Defined.

Lemma validate_parcels_accepts_iff_witness :
  fst (ParcelRows.validate_parcels [Sample.over_irrigated; Sample.blank_row]) = [].
Proof.
  apply (proj2 (proj1 (validate_parcels_accepts_iff
                         [Sample.over_irrigated; Sample.blank_row]))).
  intros row [<-|[<-|[]]]; repeat split; intros H; vm_compute in H;
    first [discriminate H | exact H].
Defined.

Lemma validate_main_land_use_accepts_iff_witness :
  LandUseForm.validate_main_land_use (5 # 1) (3 # 1) ["Open Field"] 1 "Andros" = [].
Proof.
  apply (proj2 (validate_main_land_use_accepts_iff (5 # 1) (3 # 1) ["Open Field"] 1 "Andros")).
  split; [reflexivity|]. split; [discriminate|]. split; [discriminate|].
  split; [lia|]. split; [reflexivity|]. vm_compute. discriminate.
Defined.

Lemma load_existing_data_total_witness :
  result (run (AgriculturalMachinery.load_existing_data 42) Sample2.select_fails
              Sample.one_tractor_saved)
  = Val [].
Proof.
  apply (proj1 (proj2 (load_existing_data_total 42 Sample2.select_fails
                         Sample.one_tractor_saved))).
  exists 1%nat. split; [cbn; lia | discriminate].
Defined.

Lemma save_leaves_other_holders_witness :
  result (run (AgriculturalMachinery.load_existing_data 7) no_faults
              (persisted (run (AgriculturalMachinery.save_to_db
                                 [Sample.tractor; Sample.sprayer])
                              no_faults Sample2.two_holders)))
  = result (run (AgriculturalMachinery.load_existing_data 7) no_faults
                Sample2.two_holders).
Proof.
  apply (save_leaves_other_holders [Sample.tractor; Sample.sprayer] 7 no_faults
           Sample2.two_holders).
  repeat constructor; discriminate.
Defined.

Lemma form_rows_are_saved_witness :
  exists rows,
    MachineryForm.machinery_data Sample2.one_tractor 42 [] = inr rows
    /\ result (run (AgriculturalMachinery.load_existing_data 42) no_faults
                  (persisted (run (AgriculturalMachinery.on_submit rows) no_faults Db.empty)))
       = Val (map AgriculturalMachinery.saved_of rows).
Proof.
  eexists. split; [reflexivity|].
  refine (proj2 (proj2 (proj2 (proj2
            (proj2 (form_rows_are_saved Sample2.one_tractor 42 [] Db.empty) _ eq_refl)))) _).
  vm_compute. reflexivity.
Defined.

Ltac form_made_row :=
  split; [vm_compute; first [left; reflexivity | right; reflexivity]|];
  split; [vm_compute; repeat first [left; reflexivity | right]|];
  split; [vm_compute; first [reflexivity | discriminate]|];
  unfold quantities_in_range; cbn; lia.

Lemma untouched_form_reproduces_saved_witness :
  exists rows,
    MachineryForm.machinery_data MachineryForm.untouched 42 Sample2.saved_form = inr rows
    /\ map AgriculturalMachinery.saved_of rows = Sample2.saved_form.
Proof.
  apply (untouched_form_reproduces_saved 42 Sample2.saved_form).
  repeat (apply Forall2_cons; [form_made_row|]). apply Forall2_nil.
Defined.

Lemma summary_lists_marked_rows_witness :
  result (run (MachineryForm.display_machinery_summary 42) no_faults
              (persisted (run (AgriculturalMachinery.save_to_db
                                 [Sample.tractor; Sample.sprayer]) no_faults Db.empty)))
  = Val (MachineryForm.ActiveMachinery [AgriculturalMachinery.saved_of Sample.tractor]).
Proof.
  apply (summary_lists_marked_rows [Sample.tractor; Sample.sprayer] 42 Db.empty).
  - discriminate.
  - repeat constructor.
  - reflexivity.
Defined.

Lemma marked_section_is_reported_witness :
  let db' := persisted (run (MainSurvey.mark_section_complete 7 1) no_faults
                            Sample2.progress_of_8) in
  result (run (MainSurvey.get_completed_sections 8) no_faults db')
  = result (run (MainSurvey.get_completed_sections 8) no_faults Sample2.progress_of_8).
Proof.
  apply (proj2 (proj2 (marked_section_is_reported 7 1 8 Sample2.progress_of_8))).
  - repeat constructor. intros [].
  - discriminate.
Defined.

Lemma mark_section_complete_keeps_pairs_unique_witness :
  (List.length
     (ProgressTable.rows_of 7 1
        (persisted (run (MainSurvey.mark_section_complete 7 1) no_faults
                        Sample2.progress_of_7)))
   <= 1)%nat.
Proof.
  apply (mark_section_complete_keeps_pairs_unique 7 1 no_faults Sample2.progress_of_7).
  intros h' s'. unfold ProgressTable.rows_of.
  change (Db.holder_survey_progress Sample2.progress_of_7)
    with [Db.mkProgressRow 1 7 None (Some 1) true].
  cbn [filter Db.p_holder_id Db.p_section_no].
  destruct ((7 =? h') && Db.col_eqb (Some 1) s'); cbn [List.length]; lia.
Defined.

Lemma initialized_questions_are_fetched_witness :
  exists rows,
    result (run (LabourQuestions.fetch_questions 42) no_faults
                (persisted (run (LabourQuestions.initialize_labour_questions 42)
                                no_faults Db.empty)))
    = Val rows
    /\ map question_view rows = default_views 42.
Proof.
  apply (proj1 (initialized_questions_are_fetched 42 Db.empty eq_refl)).
Defined.

Lemma section_completes_with_last_question_witness :
  let r := run (HoldingLabour.save_and_next 42 [Sample2.question_two] 7
                  Sample2.question_two (Some 1) (Some 2) (Some 3) None)
               no_faults Sample2.labour_ready in
  exists row,
    In row (Db.holder_survey_progress (persisted r))
    /\ Db.p_holder_id row = 42
    /\ Db.p_section_id row = Some HoldingLabour.SECTION_NO
    /\ Db.p_completed row = true.
Proof.
  apply (proj2 (proj2 (section_completes_with_last_question 42 [Sample2.question_two] 7
                         Sample2.question_two (Some 1) (Some 2) (Some 3) None
                         Sample2.labour_ready))).
  reflexivity.
Defined.

Lemma saved_answer_is_fetched_witness :
  let r := run (HoldingLabour.save_and_next 42 [Sample2.question_two] 2
                  Sample2.question_two (Some 1) (Some 2) (Some 3) None)
               no_faults Sample2.labour_ready in
  exists before,
    result (run (LabourQuestions.fetch_questions 42) no_faults Sample2.labour_ready)
    = Val before
    /\ result (run (LabourQuestions.fetch_questions 42) no_faults (persisted r))
       = Val (map (fun x => if Db.hl_question_no x =? 2
                            then LabourQuestions.answered (Some 1) (Some 2) (Some 3) None x
                            else x)
                  before).
Proof.
  apply (saved_answer_is_fetched 42 [Sample2.question_two] 2 Sample2.question_two
           (Some 1) (Some 2) (Some 3) None Sample2.labour_ready).
  reflexivity.
Defined.

Lemma load_existing_land_use_data_total_witness :
  exists v notes,
    result (run (LandUseForm.load_existing_land_use_data 42) Sample2.select_fails Db.empty)
    = Val (v, notes)
    /\ v = (None, None).
Proof.
  destruct (proj2 (load_existing_land_use_data_total 42 Sample2.select_fails Db.empty))
    as (v & notes & Hr & Hfail & _).
  exists v, notes. split; [exact Hr|].
  apply Hfail. exists 1%nat. split; [cbn; lia | discriminate].
Defined.

Lemma land_use_submit_gated_witness :
  let r := run (LandUseForm.on_submit 42 (0 # 1) (3 # 1) "For Sale Only/Commercial"
                  ["Open Field"] 1 "Andros" [Sample.over_developed]) no_faults Db.empty in
  result r = Val (false, [LandUseForm.MainError LandUseForm.TotalAreaNotPositive;
                          LandUseForm.ParcelError
                            (ParcelRows.DevelopedExceedsTotal (PyNum.Fin 1))])
  /\ calls r = []
  /\ persisted r = Db.empty.
Proof.
  apply (proj1 (land_use_submit_gated 42 (0 # 1) (3 # 1) "For Sale Only/Commercial"
                  ["Open Field"] 1 "Andros" [Sample.over_developed] no_faults Db.empty)).
  left. vm_compute. discriminate.
Defined.


Lemma land_use_parcels_round_trip_witness :
  let r := run (LandUse.save_land_use_to_db Sample2.land_again 42) no_faults
               Sample2.land_saved in
  exists area years loaded,
    result (run (LandUseForm.load_existing_land_use_data 42) no_faults (persisted r))
    = Val ((Some (area, years, "For Consumption Only/Subsistence", 2, "Exuma",
                  ["Greenhouse"]),
            Some loaded), [])
    /\ Db.decimal 10 2 (8 # 1) = inr area
    /\ Db.decimal 5 2 (4 # 1) = inr years
    /\ Permutation (map parcel_number loaded) [3; 2]
    /\ StronglySorted Z.lt (map parcel_number loaded).
Proof.
  apply (land_use_parcels_round_trip Sample2.land_again 42 no_faults Sample2.land_saved).
  - split; [cbn; lia | intros p [<-|[]]; cbn; lia].
  - vm_compute. discriminate.
  - vm_compute. discriminate.
  - reflexivity.
Defined.
